(** * EduMUSE podcast flow: a shallow embedding of [podcast_flow.py]

    The development follows [src/edumuse/src/edumuse/flows/podcast_flow.py].
    Python values are an inductive type, Python exceptions are values of
    type [exn], and every method of [PodcastFlow] is a computation in a
    state-and-exception monad over a [world] made of the file system and
    the log of calls to the external collaborators (chat completion,
    speech synthesis, ffmpeg, ffprobe).  The collaborators themselves are
    the fields of an [env] record: every theorem holds for all of them.

    Conventions.
    - A Python [str] is a [string] whose characters are the code points
      0..255; [len] is [String.length].
    - [exn] models the [Exception] hierarchy, which is what the
      [except Exception] clauses of the source catch.
    - [print] calls are not modelled, but the expressions they format are
      evaluated where they can raise ([line['speaker']], [len(...)]). *)

From Stdlib Require Import ZArith String Ascii List DecimalString.
From Stdlib Require Import DecimalNat.
From stdpp Require Import gmap strings list fin_maps.

Open Scope string_scope.

(** ** Python strings *)

Definition nl : string := String "010" "".
Definition dquote : string := String "034" "".

Definition is_space (c : ascii) : bool :=
  let n := nat_of_ascii c in
  (((9 <=? n) && (n <=? 13)) || ((28 <=? n) && (n <=? 32))
   || (n =? 133) || (n =? 160))%nat.

Definition str_is_empty (s : string) : bool :=
  match s with EmptyString => true | String _ _ => false end.

Fixpoint lstrip_by (p : ascii -> bool) (s : string) : string :=
  match s with
  | EmptyString => EmptyString
  | String c r => if p c then lstrip_by p r else s
  end.

Fixpoint rstrip_by (p : ascii -> bool) (s : string) : string :=
  match s with
  | EmptyString => EmptyString
  | String c r =>
      let r' := rstrip_by p r in
      if p c && str_is_empty r' then EmptyString else String c r'
  end.

(** [s.strip()] and [s.strip(chars)] for a one-character [chars]. *)
Definition strip_by (p : ascii -> bool) (s : string) : string :=
  rstrip_by p (lstrip_by p s).
Definition str_strip (s : string) : string := strip_by is_space s.
Definition str_strip_char (c : ascii) (s : string) : string :=
  strip_by (Ascii.eqb c) s.

(** [s.split(sep)] for a one-character separator. *)
Fixpoint str_split (sep : ascii) (s : string) : list string :=
  match s with
  | EmptyString => [EmptyString]
  | String c r =>
      if Ascii.eqb c sep then EmptyString :: str_split sep r
      else match str_split sep r with
           | h :: t => String c h :: t
           | [] => [String c EmptyString]
           end
  end.

(** [s[:n]] and [s[n:]] for [n >= 0]. *)
Definition str_take (n : nat) (s : string) : string := substring 0 n s.
Definition str_drop (n : nat) (s : string) : string :=
  substring n (String.length s - n) s.

Definition str_startswith (p s : string) : bool := String.prefix p s.
Definition str_endswith (suf s : string) : bool :=
  (String.length suf <=? String.length s)%nat
  && String.eqb (str_drop (String.length s - String.length suf) s) suf.

Fixpoint str_last (s : string) : option ascii :=
  match s with
  | EmptyString => None
  | String c EmptyString => Some c
  | String _ r => str_last r
  end.

(** [s.endswith((c1, ..., cn))] for one-character alternatives. *)
Definition str_endswith_any (cs : list ascii) (s : string) : bool :=
  match str_last s with
  | Some c => existsb (Ascii.eqb c) cs
  | None => false
  end.

Fixpoint str_map (f : ascii -> ascii) (s : string) : string :=
  match s with
  | EmptyString => EmptyString
  | String c r => String (f c) (str_map f r)
  end.

Definition ascii_lower (c : ascii) : ascii :=
  let n := nat_of_ascii c in
  if (((65 <=? n) && (n <=? 90))
      || ((192 <=? n) && (n <=? 222) && negb (n =? 215)))%nat
  then ascii_of_nat (n + 32) else c.
Definition str_lower (s : string) : string := str_map ascii_lower s.

(** [s.replace(a, b)] for one-character [a] and [b]. *)
Definition str_replace_char (a b : ascii) (s : string) : string :=
  str_map (fun c => if Ascii.eqb c a then b else c) s.

Definition str_concat (l : list string) : string := String.concat "" l.

Definition str_of_nat (n : nat) : string :=
  NilZero.string_of_uint (Nat.to_uint n).
Definition str_of_Z (z : Z) : string :=
  NilZero.string_of_int (Z.to_int z).

Fixpoint str_repeat (c : ascii) (n : nat) : string :=
  match n with O => EmptyString | S k => String c (str_repeat c k) end.

(** The format specification [{i:03d}] for [i >= 0]: at least three
    digits, zero-padded on the left. *)
Definition format_03d (i : nat) : string :=
  let d := str_of_nat i in
  str_repeat "0" (3 - String.length d) ++ d.

(** ** Python values *)

(** The values that [json.loads] produces and that the caller passes in
    the [sources] and [context] dictionaries.  A float carries its
    [repr]; a dictionary is an association list in insertion order. *)
#[warnings="-register-all"]
Inductive pyval : Type :=
| PNone
| PBool (b : bool)
| PInt (z : Z)
| PFloat (repr : string)
| PStr (s : string)
| PList (l : list pyval)
| PDict (d : list (string * pyval)).

Definition pydict : Type := list (string * pyval).

Inductive exn_kind :=
| TypeError | KeyError | AttributeError | ValueError
| JSONDecodeError | OSError | CalledProcessError | ServiceError.

Record exn : Type := Exn { exn_class : exn_kind; exn_str : string }.

Inductive outcome (A : Type) : Type :=
| Returned (a : A)
| Raised (e : exn).
Arguments Returned {A} a.
Arguments Raised {A} e.

Definition exn_kind_eqb (a b : exn_kind) : bool :=
  match a, b with
  | TypeError, TypeError | KeyError, KeyError
  | AttributeError, AttributeError
  | ValueError, ValueError | JSONDecodeError, JSONDecodeError
  | OSError, OSError | CalledProcessError, CalledProcessError
  | ServiceError, ServiceError => true
  | _, _ => false
  end.

(** [d.get(k)] and [d.get(k, default)]. *)
Fixpoint dict_lookup (k : string) (d : pydict) : option pyval :=
  match d with
  | [] => None
  | (k', v) :: r => if String.eqb k k' then Some v else dict_lookup k r
  end.
Definition dict_get (d : pydict) (k : string) : pyval :=
  match dict_lookup k d with Some v => v | None => PNone end.
Definition dict_get_default (d : pydict) (k : string) (dflt : pyval) : pyval :=
  match dict_lookup k d with Some v => v | None => dflt end.

(** Truth value of an object ([not x] is its negation). *)
Definition py_truthy (v : pyval) : bool :=
  match v with
  | PNone => false
  | PBool b => b
  | PInt z => negb (z =? 0)%Z
  | PFloat r => negb (String.eqb r "0.0" || String.eqb r "-0.0")
  | PStr s => negb (str_is_empty s)
  | PList l => match l with [] => false | _ => true end
  | PDict d => match d with [] => false | _ => true end
  end.

Definition type_name (v : pyval) : string :=
  match v with
  | PNone => "NoneType" | PBool _ => "bool" | PInt _ => "int"
  | PFloat _ => "float" | PStr _ => "str" | PList _ => "list"
  | PDict _ => "dict"
  end.

(** [len(v)]. *)
Definition py_len (v : pyval) : outcome nat :=
  match v with
  | PStr s => Returned (String.length s)
  | PList l => Returned (List.length l)
  | PDict d => Returned (List.length d)
  | _ => Raised (Exn TypeError
                   ("object of type '" ++ type_name v ++ "' has no len()"))
  end.

(** The sequence a [for] loop over [v] visits. *)
Definition py_iter (v : pyval) : outcome (list pyval) :=
  match v with
  | PList l => Returned l
  | PDict d => Returned (map (fun kv => PStr (fst kv)) d)
  | PStr s =>
      Returned (map (fun c => PStr (String c EmptyString))
                    (list_ascii_of_string s))
  | _ => Raised (Exn TypeError
                   ("'" ++ type_name v ++ "' object is not iterable"))
  end.

Definition hex_digit (n : nat) : ascii :=
  if (n <? 10)%nat then ascii_of_nat (48 + n) else ascii_of_nat (87 + n).

(** One character of [repr(s)] inside quotes [q]. *)
Definition repr_char (q : ascii) (c : ascii) : string :=
  let n := nat_of_ascii c in
  if Ascii.eqb c q || Ascii.eqb c "\" then String "\" (String c "")
  else if (n =? 9)%nat then "\t"
  else if (n =? 10)%nat then "\n"
  else if (n =? 13)%nat then "\r"
  else if ((n <? 32) || ((127 <=? n) && (n <=? 160)) || (n =? 173))%nat
  then String "\" (String "x" (String (hex_digit (n / 16))
                                (String (hex_digit (n mod 16)) "")))
  else String c "".

Definition str_contains_char (c : ascii) (s : string) : bool :=
  existsb (Ascii.eqb c) (list_ascii_of_string s).

Definition repr_str (s : string) : string :=
  let q : ascii :=
    if str_contains_char "039" s && negb (str_contains_char "034" s)
    then "034"%char else "039"%char in
  String q (str_concat (map (repr_char q) (list_ascii_of_string s)))
  ++ String q "".

(** [repr(v)]. *)
Fixpoint py_repr (v : pyval) : string :=
  match v with
  | PNone => "None"
  | PBool true => "True"
  | PBool false => "False"
  | PInt z => str_of_Z z
  | PFloat r => r
  | PStr s => repr_str s
  | PList l => "[" ++ String.concat ", " (map py_repr l) ++ "]"
  | PDict d =>
      "{" ++ String.concat ", "
               (map (fun kv => repr_str (fst kv) ++ ": " ++ py_repr (snd kv)) d)
      ++ "}"
  end.

(** [str(v)], which is what an f-string field [{v}] formats. *)
Definition py_str (v : pyval) : string :=
  match v with
  | PStr s => s
  | _ => py_repr v
  end.

(** [v[k]] for a string key [k]. *)
Definition py_getitem (v : pyval) (k : string) : outcome pyval :=
  match v with
  | PDict d =>
      match dict_lookup k d with
      | Some x => Returned x
      | None => Raised (Exn KeyError (repr_str k))
      end
  | PStr _ =>
      Raised (Exn TypeError "string indices must be integers, not 'str'")
  | PList _ =>
      Raised (Exn TypeError "list indices must be integers or slices, not str")
  | _ => Raised (Exn TypeError
                   ("'" ++ type_name v ++ "' object is not subscriptable"))
  end.

(** ** The world: file system and collaborators *)

Inductive fdata :=
| FBytes (b : list Byte.byte)
| FText (s : string).

(** The keyword arguments of [chat.completions.create]. *)
Record chat_request := ChatRequest {
  cr_model : string;
  cr_messages : list (string * string);
  cr_temperature : string;
  cr_max_tokens : Z
}.

(** One entry per call that leaves the process. *)
Inductive event :=
| ChatCall (req : chat_request)
| SpeechCall (text voice : pyval) (model : string)
| FfmpegCall (cmd : list string)
| FfprobeCall (cmd : list string).

Record world := World {
  dirs : gset string;
  files : gmap string fdata;
  calls : list event
}.

(** How a child process ends.  A process that exits with an error may
    already have written part of its output file: [partial] is what it
    left there, [None] when it wrote nothing. *)
Inductive proc_outcome :=
| ProcExit0 (written : list Byte.byte)
| ProcNonZero (stderr : string) (partial : option (list Byte.byte))
| ProcNotStarted (e : exn).

(** What the code cannot decide by itself.  [elevenlabs_generate i] is
    the answer to the call issued for the line at position [i]; [None]
    from [chat_create] is a completion without text content. *)
Record env := Env {
  chat_create : chat_request -> outcome (option string);
  elevenlabs_generate : nat -> pyval -> pyval -> string -> outcome (list Byte.byte);
  json_loads : string -> outcome pyval;
  ffmpeg_run : list string -> world -> proc_outcome;
  ffprobe_run : list string -> world -> outcome string;
  float_of_str : string -> outcome string;
  traceback_format_exc : exn -> string;
  now_strftime : string;
  now_isoformat : string;
  uploads_dir : string
}.

(** ** The monad of the methods *)

Definition M (A : Type) : Type := world -> outcome A * world.

Definition ret {A} (a : A) : M A := fun w => (Returned a, w).
Definition raise {A} (e : exn) : M A := fun w => (Raised e, w).
Definition lift {A} (o : outcome A) : M A := fun w => (o, w).
Definition bind {A B} (m : M A) (k : A -> M B) : M B :=
  fun w =>
    match m w with
    | (Returned a, w') => k a w'
    | (Raised e, w') => (Raised e, w')
    end.

(** [try: m  except Exception as e: h e]. *)
Definition try_except {A} (m : M A) (h : exn -> M A) : M A :=
  fun w =>
    match m w with
    | (Returned a, w') => (Returned a, w')
    | (Raised e, w') => h e w'
    end.

(** [try: m  except K as e: h e] for one exception class [K]. *)
Definition try_except_class {A} (K : exn_kind) (m : M A) (h : exn -> M A) : M A :=
  try_except m (fun e => if exn_kind_eqb (exn_class e) K then h e else raise e).

Notation "x <- m ; k" := (bind m (fun x => k))
  (at level 20, m at level 100, k at level 200, only parsing).
Notation "m >>> k" := (bind m (fun _ => k))
  (at level 100, k at level 200, only parsing, right associativity).

Definition log_call (ev : event) : M unit :=
  fun w => (Returned tt, World (dirs w) (files w) (calls w ++ [ev])).

(** [os.makedirs(path, exist_ok=True)]: fails when a regular file is in
    the way.  Only the named directory is recorded. *)
Definition os_makedirs (path : string) : M unit :=
  fun w =>
    match files w !! path with
    | Some _ =>
        (Raised (Exn OSError ("[Errno 17] File exists: " ++ repr_str path)), w)
    | None => (Returned tt, World ({[path]} ∪ dirs w) (files w) (calls w))
    end.

(** [with open(path, mode) as f: f.write(data)]: creates or replaces the
    file, and fails when [path] is a directory.  The parent directory is
    not looked up. *)
Definition write_file (path : string) (data : fdata) : M unit :=
  fun w =>
    if decide (path ∈ dirs w)
    then (Raised (Exn OSError ("[Errno 21] Is a directory: " ++ repr_str path)), w)
    else (Returned tt, World (dirs w) (<[path := data]> (files w)) (calls w)).

(** [os.remove(path)]. *)
Definition os_remove (path : string) : M unit :=
  fun w =>
    match files w !! path with
    | Some _ => (Returned tt, World (dirs w) (delete path (files w)) (calls w))
    | None =>
        (Raised (Exn OSError
                   ("[Errno 2] No such file or directory: " ++ repr_str path)), w)
    end.

Definition under (dir path : string) : bool :=
  String.prefix (dir ++ "/") path.

(** [os.rmdir(path)]: the directory must exist and hold no entry. *)
Definition os_rmdir (path : string) : M unit :=
  fun w =>
    if decide (path ∈ dirs w) then
      if forallb (fun p => negb (under path p))
                 (map fst (map_to_list (files w)) ++ elements (dirs w))
      then (Returned tt, World (dirs w ∖ {[path]}) (files w) (calls w))
      else (Raised (Exn OSError
                      ("[Errno 39] Directory not empty: " ++ repr_str path)), w)
    else (Raised (Exn OSError
                    ("[Errno 2] No such file or directory: " ++ repr_str path)), w).

(** [os.path.join(a, b)] for a relative [b] and an [a] without a
    trailing separator. *)
Definition path_join (a b : string) : string := a ++ "/" ++ b.

(** The receiver of a [str] method call. *)
Definition as_str (attr : string) (v : pyval) : outcome string :=
  match v with
  | PStr s => Returned s
  | _ => Raised (Exn AttributeError
                   ("'" ++ type_name v ++ "' object has no attribute '"
                    ++ attr ++ "'"))
  end.

(** ** PodcastFlow *)

Definition HOST_VOICE_ID : string := "JBFqnCBsd6RMkjVDRZzb".
Definition GUEST_VOICE_ID : string := "EXAVITQu4vr4xnSDxMaL".

Definition dialogue_line (speaker text voice_id : string) : pyval :=
  PDict [("speaker", PStr speaker); ("text", PStr text);
         ("voice_id", PStr voice_id)].

(** The list built in the [except] clause of
    [_generate_podcast_dialogue] (lines 224-231). *)
Definition fallback_lines (content topic : string) : list pyval :=
  [ dialogue_line "Host"
      ("Welcome to this educational podcast about " ++ topic ++ ".")
      HOST_VOICE_ID;
    dialogue_line "Guest"
      "Thank you for having me. I'm excited to discuss this topic."
      GUEST_VOICE_ID;
    dialogue_line "Host"
      "Let's start with the basics. Could you give our listeners an overview?"
      HOST_VOICE_ID;
    dialogue_line "Guest"
      ("Certainly. " ++ str_take 200 content ++ "...")
      GUEST_VOICE_ID;
    dialogue_line "Host"
      "That's fascinating. What are some practical applications of this knowledge?"
      HOST_VOICE_ID;
    dialogue_line "Guest"
      "There are several applications worth discussing..."
      GUEST_VOICE_ID ].

Definition fallback_dialogue (content topic : string) : pyval :=
  PList (fallback_lines content topic).

Definition title_request (content : string) : chat_request :=
  ChatRequest "gpt-3.5-turbo"
    [("system", "You are a helpful assistant.");
     ("user",
      "Extract the title or main topic from this text. Respond with ONLY the title, nothing else:"
      ++ nl ++ nl ++ str_take 1000 content)]
    "0.3" 50.

Definition dialogue_prompt (content clean_topic : string) : string :=
  "You are a podcast script writer. Given the following content, "
  ++ "generate a podcast-style conversation between a Host and a Guest. "
  ++ "The conversation should be informative, engaging, and cover the main points. "
  ++ "The topic is: " ++ clean_topic ++ ". "
  ++ "The Host should introduce the topic by its proper title, not as a filename. "
  ++ "Make the introduction natural and engaging, as if this were a real educational podcast. "
  ++ "Return a **valid JSON list** of dictionaries. Each dictionary must have keys: 'speaker', 'text', 'voice_id'. "
  ++ "Use this voice_id for Host: " ++ HOST_VOICE_ID
  ++ ", and this for Guest: " ++ GUEST_VOICE_ID ++ ". "
  ++ "Use only double quotes (" ++ dquote
  ++ ") for all keys and values. Do not wrap the output in markdown or code blocks."
  ++ nl ++ nl
  ++ "Content:" ++ nl ++ str_take 3000 content ++ nl ++ nl
  ++ "Podcast Dialogue:".

Definition dialogue_request (content clean_topic : string) : chat_request :=
  ChatRequest "gpt-3.5-turbo"
    [("system", "You are a helpful assistant.");
     ("user", dialogue_prompt content clean_topic)]
    "0.5" 1500.

(** Lines 174-176: the topic without a [.pdf] extension. *)
Definition clean_topic_of (topic : string) : string :=
  if str_endswith ".pdf" topic
  then str_take (String.length topic - 4) topic else topic.

(** Lines 141-146: the scan of the first lines of the content. *)
Definition title_candidate (line : string) : bool :=
  let n := String.length line in
  ((3 <? n) && (n <? 100))%nat
  && negb (str_endswith_any ["."; ":"; ";"; ","; "?"; "!"]%char line).

Fixpoint scan_title_lines (lines : list string) : option string :=
  match lines with
  | [] => None
  | l :: rest =>
      let line := str_strip l in
      if title_candidate line then Some line else scan_title_lines rest
  end.

Definition title_from_first_lines (content : string) : option string :=
  let lines := str_split "010" content in
  scan_title_lines (firstn (Nat.min 5 (List.length lines)) lines).

(** Lines 209-214: removal of the code-fence markers. *)
Definition strip_code_fence (raw_output : string) : string :=
  if str_startswith "```" raw_output then
    let raw_output := str_strip (str_strip_char "`" raw_output) in
    if str_startswith "json" (str_lower raw_output)
    then str_strip (str_drop (String.length "json") raw_output)
    else raw_output
  else raw_output.

Definition segment_name (i : nat) : string :=
  "segment_" ++ format_03d i ++ ".mp3".

Definition manifest_text (segment_files : list string) : string :=
  str_concat (map (fun f => "file '" ++ f ++ "'" ++ nl) segment_files).

Definition ffmpeg_cmd (file_list_path output_path : string) : list string :=
  ["ffmpeg"; "-f"; "concat"; "-safe"; "0"; "-i"; file_list_path;
   "-c"; "copy"; output_path].

Definition ffprobe_cmd (audio_path : string) : list string :=
  ["ffprobe"; "-v"; "error"; "-show_entries"; "format=duration";
   "-of"; "default=noprint_wrappers=1:nokey=1"; audio_path].

(** [_format_dialogue_as_text]: the loop of lines 346-347, then the
    method. *)
Fixpoint format_lines (lines : list pyval) (formatted_text : string)
  : outcome string :=
  match lines with
  | [] => Returned formatted_text
  | line :: rest =>
      match py_getitem line "speaker" with
      | Raised e => Raised e
      | Returned speaker =>
          match py_getitem line "text" with
          | Raised e => Raised e
          | Returned text =>
              format_lines rest
                (formatted_text ++ "**" ++ py_str speaker ++ "**: "
                 ++ py_str text ++ nl ++ nl)
          end
      end
  end.

Definition _format_dialogue_as_text (dialogue : pyval) : outcome string :=
  match py_iter dialogue with
  | Raised e => Raised e
  | Returned lines => format_lines lines ("# Podcast Transcript" ++ nl ++ nl)
  end.

(** Lines 58-67 of [process]: the loop over the sources. *)
Fixpoint collect_sources (sources : list pydict) (content : string)
    (document_title : pyval) : outcome (string * pyval) :=
  match sources with
  | [] => Returned (content, document_title)
  | source :: rest =>
      let source_content := dict_get_default source "content" (PStr "") in
      match py_len source_content with
      | Raised e => Raised e
      | Returned _ =>
          match source_content with
          | PStr s =>
              let document_title :=
                if negb (py_truthy document_title)
                   && py_truthy (dict_get source "title")
                then dict_get source "title" else document_title in
              collect_sources rest (content ++ s) document_title
          | _ =>
              Raised (Exn TypeError
                        ("can only concatenate str (not " ++ dquote
                         ++ type_name source_content ++ dquote ++ ") to str"))
          end
      end
  end.

Section Methods.
Context (E : env).

Definition call_chat (req : chat_request) : M (option string) :=
  log_call (ChatCall req) >>> lift (chat_create E req).

Definition call_speech (i : nat) (text voice : pyval) (model : string)
  : M (list Byte.byte) :=
  log_call (SpeechCall text voice model) >>>
  lift (elevenlabs_generate E i text voice model).

(** [subprocess.run(cmd, check=True, capture_output=True)] for ffmpeg,
    whose last argument is the file it writes: the whole output when it
    exits with status 0, and what it got to write, if anything, when it
    exits with an error. *)
Definition run_ffmpeg (cmd : list string) (output_path : string) : M unit :=
  log_call (FfmpegCall cmd) >>>
  (fun w =>
     match ffmpeg_run E cmd w with
     | ProcExit0 data =>
         (Returned tt,
          World (dirs w) (<[output_path := FBytes data]> (files w)) (calls w))
     | ProcNonZero err partial =>
         (Raised (Exn CalledProcessError
                    "Command returned non-zero exit status."),
          match partial with
          | Some data =>
              World (dirs w) (<[output_path := FBytes data]> (files w)) (calls w)
          | None => w
          end)
     | ProcNotStarted e => (Raised e, w)
     end).

Definition run_ffprobe (cmd : list string) : M string :=
  log_call (FfprobeCall cmd) >>> (fun w => (ffprobe_run E cmd w, w)).

Definition _extract_title_from_content (content : string) : M pyval :=
  match title_from_first_lines content with
  | Some line => ret (PStr line)
  | None =>
      try_except
        (response <- call_chat (title_request content) ;
         match response with
         | Some text => ret (PStr (str_strip text))
         | None =>
             raise (Exn AttributeError
                      "'NoneType' object has no attribute 'strip'")
         end)
        (fun e => ret PNone)
  end.

Definition _generate_podcast_dialogue (content : string) (topic : pyval)
  : M pyval :=
  topic <- lift (as_str "endswith" topic) ;
  let clean_topic := clean_topic_of topic in
  response <- call_chat (dialogue_request content clean_topic) ;
  try_except
    (raw_output <-
       match response with
       | Some text => ret (str_strip text)
       | None =>
           raise (Exn AttributeError
                    "'NoneType' object has no attribute 'strip'")
       end ;
     let raw_output := strip_code_fence raw_output in
     parsed_list <- lift (json_loads E raw_output) ;
     _ <- lift (py_len parsed_list) ;
     ret parsed_list)
    (fun e => ret (fallback_dialogue content topic)).

(** Lines 260-289 of [_generate_audio]: [i] is the position of the next
    line, [segment_files] the list built so far. *)
Fixpoint synthesize_segments (temp_dir : string) (i : nat)
    (lines : list pyval) (segment_files : list string) : M (list string) :=
  match lines with
  | [] => ret segment_files
  | line :: rest =>
      _ <- lift (py_getitem line "speaker") ;
      _ <- lift (py_getitem line "text") ;
      segment_files <-
        try_except
          (voice <- lift (py_getitem line "voice_id") ;
           text <- lift (py_getitem line "text") ;
           _ <- lift (py_len text) ;
           audio_bytes <- call_speech i text voice "eleven_multilingual_v2" ;
           let segment_file := path_join temp_dir (segment_name i) in
           write_file segment_file (FBytes audio_bytes) >>>
           ret (segment_files ++ [segment_file])%list)
          (fun e => ret segment_files) ;
      synthesize_segments temp_dir (S i) rest segment_files
  end.

Fixpoint remove_all (paths : list string) : M unit :=
  match paths with
  | [] => ret tt
  | p :: rest => os_remove p >>> remove_all rest
  end.

Definition _generate_audio (dialogue topic : pyval) : M string :=
  let timestamp := now_strftime E in
  topic <- lift (as_str "replace" topic) ;
  let output_filename :=
    "podcast_" ++ str_replace_char " " "_" topic ++ "_" ++ timestamp ++ ".mp3" in
  let uploads_dir := uploads_dir E in
  os_makedirs uploads_dir >>>
  let temp_dir := path_join uploads_dir ("temp_segments_" ++ timestamp) in
  os_makedirs temp_dir >>>
  let output_path := path_join uploads_dir output_filename in
  _ <- lift (py_len dialogue) ;
  try_except
    (lines <- lift (py_iter dialogue) ;
     segment_files <- synthesize_segments temp_dir 0 lines [] ;
     match segment_files with
     | _ :: _ =>
         let file_list_path := path_join temp_dir "file_list.txt" in
         write_file file_list_path (FText (manifest_text segment_files)) >>>
         try_except_class CalledProcessError
           (run_ffmpeg (ffmpeg_cmd file_list_path output_path) output_path >>>
            remove_all segment_files >>>
            os_remove file_list_path >>>
            os_rmdir temp_dir >>>
            ret output_path)
           (fun e => ret "")
     | [] => ret ""
     end)
    (fun e => ret "").

Definition _get_audio_duration (audio_path : string) : M pyval :=
  try_except
    (stdout <- run_ffprobe (ffprobe_cmd audio_path) ;
     duration <- lift (float_of_str E (str_strip stdout)) ;
     ret (PFloat duration))
    (fun e => ret (PFloat "0.0")).

Definition topic_of (context : pydict) : pyval :=
  dict_get_default context "topic" (PStr "Educational Topic").

(** Lines 54-78 of [process]: the content and the document title. *)
Definition content_and_title (sources : list pydict) (context : pydict)
  : M (string * pyval) :=
  ct <- lift (collect_sources sources "" PNone) ;
  let content := fst ct in
  let document_title := snd ct in
  document_title <-
    (if negb (py_truthy document_title)
     then _extract_title_from_content content
     else ret document_title) ;
  let document_title :=
    if negb (py_truthy document_title) then topic_of context
    else document_title in
  ret (content, document_title).

Definition audio_failure_record (transcript : string) (segments : nat) : pyval :=
  PDict [("flow_type", PStr "podcast");
         ("sources_found", PStr transcript);
         ("error", PStr "Failed to generate audio");
         ("dialogue_segments", PInt (Z.of_nat segments));
         ("metadata",
          PDict [("format", PStr "mp3");
                 ("voices_used",
                  PList [PStr HOST_VOICE_ID; PStr GUEST_VOICE_ID]);
                 ("generated_at", PStr (now_isoformat E))])].

Definition success_record (transcript audio_path : string) (segments : nat)
    (duration : pyval) : pyval :=
  PDict [("flow_type", PStr "podcast");
         ("sources_found", PStr transcript);
         ("audio_output", PStr audio_path);
         ("dialogue_segments", PInt (Z.of_nat segments));
         ("metadata",
          PDict [("duration_seconds", duration);
                 ("format", PStr "mp3");
                 ("voices_used",
                  PList [PStr HOST_VOICE_ID; PStr GUEST_VOICE_ID]);
                 ("generated_at", PStr (now_isoformat E))])].

Definition exception_record (e : exn) : pyval :=
  PDict [("flow_type", PStr "podcast");
         ("error", PStr ("Error in podcast generation: " ++ exn_str e));
         ("sources_found", PStr "Failed to generate podcast");
         ("metadata",
          PDict [("error_details", PStr (traceback_format_exc E e));
                 ("generated_at", PStr (now_isoformat E))])].

(** The body of the [try] of [process] (lines 51-120). *)
Definition process_try (sources : list pydict) (context : pydict) : M pyval :=
  ct <- content_and_title sources context ;
  let content := fst ct in
  dialogue <- _generate_podcast_dialogue content (topic_of context) ;
  _ <- lift (py_len dialogue) ;
  audio_path <- _generate_audio dialogue (topic_of context) ;
  if str_is_empty audio_path then
    transcript <- lift (_format_dialogue_as_text dialogue) ;
    segments <- lift (py_len dialogue) ;
    ret (audio_failure_record transcript segments)
  else
    transcript <- lift (_format_dialogue_as_text dialogue) ;
    segments <- lift (py_len dialogue) ;
    duration <- _get_audio_duration audio_path ;
    ret (success_record transcript audio_path segments duration).

Definition process (sources : list pydict) (context : pydict) : M pyval :=
  try_except (process_try sources context)
             (fun e => ret (exception_record e)).

End Methods.

(** ** A JSON reader for the examples

    [json.loads] is a field of [env]; the theorems hold for every
    reader.  The examples need one that computes: [json_read] follows the
    grammar of the standard decoder (whitespace, literals, numbers,
    strings with the one-character escapes, arrays, objects) and refuses
    everything else, [\u] escapes included, with a [JSONDecodeError]. *)

Definition json_ws (c : ascii) : bool :=
  let n := nat_of_ascii c in
  ((n =? 32) || (n =? 9) || (n =? 10) || (n =? 13))%nat.

Definition json_skip_ws (s : string) : string := lstrip_by json_ws s.

Definition is_digit (c : ascii) : bool :=
  let n := nat_of_ascii c in ((48 <=? n) && (n <=? 57))%nat.

Fixpoint span_digits (s : string) : string * string :=
  match s with
  | String c r =>
      if is_digit c then let (d, t) := span_digits r in (String c d, t)
      else (EmptyString, s)
  | EmptyString => (EmptyString, EmptyString)
  end.

Definition digit_value (c : ascii) : Z := Z.of_nat (nat_of_ascii c) - 48.

Definition digits_to_Z (d : string) : Z :=
  fold_left (fun acc c => 10 * acc + digit_value c)%Z
            (list_ascii_of_string d) 0%Z.

(** After the opening quote: the decoded text and the rest. *)
Fixpoint json_string_body (s : string) : option (string * string) :=
  match s with
  | EmptyString => None
  | String c r =>
      if Ascii.eqb c "034" then Some (EmptyString, r)
      else if Ascii.eqb c "\" then
        match r with
        | String e r' =>
            let dec : option ascii :=
              if Ascii.eqb e "034" then Some "034"%char
              else if Ascii.eqb e "\" then Some "\"%char
              else if Ascii.eqb e "/" then Some "/"%char
              else if Ascii.eqb e "b" then Some "008"%char
              else if Ascii.eqb e "f" then Some "012"%char
              else if Ascii.eqb e "n" then Some "010"%char
              else if Ascii.eqb e "r" then Some "013"%char
              else if Ascii.eqb e "t" then Some "009"%char
              else None in
            match dec, json_string_body r' with
            | Some x, Some (body, rest) => Some (String x body, rest)
            | _, _ => None
            end
        | EmptyString => None
        end
      else if (nat_of_ascii c <? 32)%nat then None
      else match json_string_body r with
           | Some (body, rest) => Some (String c body, rest)
           | None => None
           end
  end.

(** A number: an integer literal gives an [int], a literal with a
    fraction or an exponent a [float] that carries the literal as its
    [repr]. *)
Definition json_number (s : string) : option (pyval * string) :=
  let (neg, s1) :=
    match s with
    | String "-" r => (true, r)
    | _ => (false, s)
    end in
  let (int_part, s2) :=
    match s1 with
    | String "0" r => ("0", r)
    | _ => span_digits s1
    end in
  if str_is_empty int_part then None
  else
    let (frac, s3) :=
      match s2 with
      | String "." r =>
          let (d, t) := span_digits r in
          if str_is_empty d then (EmptyString, s2) else (String "." d, t)
      | _ => (EmptyString, s2)
      end in
    let (expo, s4) :=
      match s3 with
      | String c r =>
          if Ascii.eqb c "e" || Ascii.eqb c "E" then
            let (sign, r1) :=
              match r with
              | String "+" t => ("+", t)
              | String "-" t => ("-", t)
              | _ => (EmptyString, r)
              end in
            let (d, t) := span_digits r1 in
            if str_is_empty d then (EmptyString, s3)
            else (String c (sign ++ d), t)
          else (EmptyString, s3)
      | EmptyString => (EmptyString, s3)
      end in
    if str_is_empty frac && str_is_empty expo
    then Some (PInt (if neg then - digits_to_Z int_part
                     else digits_to_Z int_part)%Z, s4)
    else Some (PFloat ((if neg then "-" else "") ++ int_part ++ frac ++ expo),
               s4).

(** [d[k] = v] on an insertion-ordered dictionary. *)
Fixpoint dict_set (k : string) (v : pyval) (d : pydict) : pydict :=
  match d with
  | [] => [(k, v)]
  | (k', v') :: r =>
      if String.eqb k k' then (k', v) :: r else (k', v') :: dict_set k v r
  end.

Fixpoint json_value (fuel : nat) (s : string) : option (pyval * string) :=
  match fuel with
  | O => None
  | S fuel =>
      match s with
      | String "034" r =>
          match json_string_body r with
          | Some (body, rest) => Some (PStr body, rest)
          | None => None
          end
      | String "[" r =>
          match json_skip_ws r with
          | String "]" rest => Some (PList [], rest)
          | r' =>
              match json_elements fuel r' with
              | Some (l, rest) => Some (PList l, rest)
              | None => None
              end
          end
      | String "{" r =>
          match json_skip_ws r with
          | String "}" rest => Some (PDict [], rest)
          | r' =>
              match json_members fuel r' [] with
              | Some (d, rest) => Some (PDict d, rest)
              | None => None
              end
          end
      | _ =>
          if String.prefix "null" s then Some (PNone, str_drop 4 s)
          else if String.prefix "true" s then Some (PBool true, str_drop 4 s)
          else if String.prefix "false" s then Some (PBool false, str_drop 5 s)
          else if String.prefix "NaN" s then Some (PFloat "nan", str_drop 3 s)
          else if String.prefix "Infinity" s
          then Some (PFloat "inf", str_drop 8 s)
          else if String.prefix "-Infinity" s
          then Some (PFloat "-inf", str_drop 9 s)
          else json_number s
      end
  end
with json_elements (fuel : nat) (s : string) : option (list pyval * string) :=
  match fuel with
  | O => None
  | S fuel =>
      match json_value fuel s with
      | Some (v, rest) =>
          match json_skip_ws rest with
          | String "," rest' =>
              match json_elements fuel (json_skip_ws rest') with
              | Some (l, rest'') => Some (v :: l, rest'')
              | None => None
              end
          | String "]" rest' => Some ([v], rest')
          | _ => None
          end
      | None => None
      end
  end
with json_members (fuel : nat) (s : string) (acc : pydict)
  : option (pydict * string) :=
  match fuel with
  | O => None
  | S fuel =>
      match s with
      | String "034" r =>
          match json_string_body r with
          | Some (key, rest) =>
              match json_skip_ws rest with
              | String ":" rest1 =>
                  match json_value fuel (json_skip_ws rest1) with
                  | Some (v, rest2) =>
                      let acc := dict_set key v acc in
                      match json_skip_ws rest2 with
                      | String "," rest3 =>
                          json_members fuel (json_skip_ws rest3) acc
                      | String "}" rest3 => Some (acc, rest3)
                      | _ => None
                      end
                  | None => None
                  end
              | _ => None
              end
          | None => None
          end
      | _ => None
      end
  end.

Definition json_read (s : string) : outcome pyval :=
  let s' := json_skip_ws s in
  match json_value (S (String.length s')) s' with
  | Some (v, rest) =>
      if str_is_empty (json_skip_ws rest) then Returned v
      else Raised (Exn JSONDecodeError "Extra data")
  | None => Raised (Exn JSONDecodeError "Expecting value")
  end.

(** ** Concrete collaborators for the examples *)

Definition read_float (s : string) : outcome string :=
  match json_number s with
  | Some (PFloat r, EmptyString) => Returned r
  | Some (PInt z, EmptyString) => Returned (str_of_Z z ++ ".0")
  | _ => Raised (Exn ValueError
                   ("could not convert string to float: " ++ repr_str s))
  end.

(** An environment given by the answers of the chat service, of the
    speech service (per line position) and of ffmpeg. *)
Definition sample_env
    (chat : chat_request -> outcome (option string))
    (speech : nat -> outcome (list Byte.byte))
    (ffmpeg : proc_outcome) : env :=
  {| chat_create := chat;
     elevenlabs_generate := fun i _ _ _ => speech i;
     json_loads := json_read;
     ffmpeg_run := fun _ _ => ffmpeg;
     ffprobe_run := fun _ _ => Returned ("12.5" ++ nl);
     float_of_str := read_float;
     traceback_format_exc :=
       fun e => "Traceback (most recent call last): " ++ exn_str e;
     now_strftime := "20240101_120000";
     now_isoformat := "2024-01-01T12:00:00";
     uploads_dir := "/srv/uploads" |}.

Definition empty_world : world := World ∅ ∅ [].

Definition chat_answers (text : string) : chat_request -> outcome (option string) :=
  fun _ => Returned (Some text).
Definition chat_down : chat_request -> outcome (option string) :=
  fun _ => Raised (Exn ServiceError "Connection error.").

Definition speech_ok : nat -> outcome (list Byte.byte) :=
  fun _ => Returned [Byte.x49; Byte.x44; Byte.x33].
Definition speech_down : nat -> outcome (list Byte.byte) :=
  fun _ => Raised (Exn ServiceError "quota exceeded").
Definition speech_fails_at (k : nat) : nat -> outcome (list Byte.byte) :=
  fun i => if Nat.eqb i k then speech_down i else speech_ok i.

Definition ffmpeg_ok : proc_outcome := ProcExit0 [Byte.x49; Byte.x44; Byte.x33].
Definition ffmpeg_fails : proc_outcome :=
  ProcNonZero "Invalid data found" None.
Definition ffmpeg_fails_midway : proc_outcome :=
  ProcNonZero "Invalid data found" (Some [Byte.x49; Byte.x44]).

(** A JSON string literal without escapes. *)
Definition jstr (s : string) : string := dquote ++ s ++ dquote.

Definition object_root_answer : string :=
  "{" ++ jstr "speaker" ++ ": " ++ jstr "Host" ++ ", "
  ++ jstr "text" ++ ": " ++ jstr "Hello" ++ "}".

Definition missing_keys_answer : string :=
  "[{" ++ jstr "speaker" ++ ": " ++ jstr "Host" ++ ", "
  ++ jstr "text" ++ ": " ++ jstr "Hello" ++ ", "
  ++ jstr "voice_id" ++ ": " ++ jstr HOST_VOICE_ID ++ "}, {"
  ++ jstr "speaker" ++ ": " ++ jstr "Guest" ++ "}]".

Definition climate_sources : list pydict :=
  [[("content", PStr "Climate change causes..."); ("title", PStr "Intro to Climate")]].
Definition climate_context : pydict := [("topic", PStr "climate change")].

(** ** Vocabulary of the statements *)

(** [enumerate(lines, start)]. *)
Definition enumerate_from (start : nat) (lines : list pyval) : list (nat * pyval) :=
  combine (seq start (List.length lines)) lines.

(** What one line contributes to the transcript. *)
Definition line_text (line : pyval) : string :=
  match py_getitem line "speaker", py_getitem line "text" with
  | Returned speaker, Returned text =>
      "**" ++ py_str speaker ++ "**: " ++ py_str text ++ nl ++ nl
  | _, _ => ""
  end.

(** A line the loops can print: it has a speaker and a text. *)
Definition printable_line (line : pyval) : bool :=
  match py_getitem line "speaker", py_getitem line "text" with
  | Returned _, Returned _ => true
  | _, _ => false
  end.

(** A DialogueLine: speaker, text of type [str], voice identifier. *)
Definition dialogue_line_ok (line : pyval) : bool :=
  match py_getitem line "speaker", py_getitem line "text",
        py_getitem line "voice_id" with
  | Returned _, Returned (PStr _), Returned _ => true
  | _, _, _ => false
  end.

Definition speech_call_of (line : pyval) : event :=
  match py_getitem line "text", py_getitem line "voice_id" with
  | Returned text, Returned voice =>
      SpeechCall text voice "eleven_multilingual_v2"
  | _, _ => SpeechCall PNone PNone "eleven_multilingual_v2"
  end.

(** Whether the speech service answers the call for the line at
    position [i]. *)
Definition speech_succeeds (E : env) (il : nat * pyval) : bool :=
  match py_getitem (snd il) "text", py_getitem (snd il) "voice_id" with
  | Returned text, Returned voice =>
      match elevenlabs_generate E (fst il) text voice "eleven_multilingual_v2" with
      | Returned _ => true
      | Raised _ => false
      end
  | _, _ => false
  end.

Definition is_ffmpeg_call (ev : event) : bool :=
  match ev with FfmpegCall _ => true | _ => false end.

Definition record_field (k : string) (r : pyval) : option pyval :=
  match r with
  | PDict d => dict_lookup k d
  | _ => None
  end.

Definition temp_dir_of (E : env) : string :=
  path_join (uploads_dir E) ("temp_segments_" ++ now_strftime E).

(** What the method returns once the chat call has answered [response]. *)
Definition dialogue_of_response (E : env) (content topic : string)
    (response : option string) : pyval :=
  match response with
  | Some text =>
      match json_loads E (strip_code_fence (str_strip text)) with
      | Returned parsed =>
          match py_len parsed with
          | Returned _ => parsed
          | Raised _ => fallback_dialogue content topic
          end
      | Raised _ => fallback_dialogue content topic
      end
  | None => fallback_dialogue content topic
  end.

(** A response wrapped in a code fence, with an optional language tag. *)
Definition fenced (tag body : string) : string :=
  "```" ++ tag ++ nl ++ body ++ nl ++ "```".

(** A text that [strip()] leaves alone: it starts and ends with a
    character that is not white space. *)
Definition trimmed (s : string) : bool :=
  match s, str_last s with
  | String c _, Some c' => negb (is_space c) && negb (is_space c')
  | _, _ => false
  end.

(** The events a stage adds to the log are calls to the services,
    not to ffmpeg. *)
Definition no_new_ffmpeg (w w' : world) : Prop :=
  exists evs, calls w' = (calls w ++ evs)%list /\
              forallb (fun ev => negb (is_ffmpeg_call ev)) evs = true.

Definition same_fs (w w' : world) : Prop :=
  dirs w' = dirs w /\ files w' = files w.

(** Three runs of the audio stage on the fallback script, from an empty
    file system: ffmpeg exits with an error, the speech service fails
    for every line, and everything succeeds. *)
Definition run_audio_stage (speech : nat -> outcome (list Byte.byte))
    (ffmpeg : proc_outcome) : outcome string * world :=
  _generate_audio (sample_env (chat_answers "not json at all") speech ffmpeg)
    (fallback_dialogue "Climate change causes..." "climate change")
    (PStr "climate change") empty_world.

Definition sample_temp_dir : string :=
  "/srv/uploads/temp_segments_20240101_120000".

(** The paths of the files that lie under [dir]. *)
Definition entries_under (dir : string) (w : world) : list string :=
  List.filter (under dir) (map fst (map_to_list (files w))).

(** The content a source contributes, when it is a string. *)
Definition content_text (source : pydict) : string :=
  match dict_get_default source "content" (PStr "") with
  | PStr s => s
  | _ => ""
  end.

Definition has_str_content (source : pydict) : bool :=
  match dict_get_default source "content" (PStr "") with
  | PStr _ => true
  | _ => false
  end.

(** The title of the first source whose title is truthy, else [None]. *)
Definition first_source_title (sources : list pydict) : pyval :=
  match List.find (fun s => py_truthy (dict_get s "title")) sources with
  | Some s => dict_get s "title"
  | None => PNone
  end.

(** The concatenation of the contents, in input order. *)
Definition concat_contents (sources : list pydict) : string :=
  str_concat (map content_text sources).

(** A file system in which a regular file occupies the uploads path. *)
Definition blocked_world : world :=
  World ∅ {["/srv/uploads" := FText ""]} [].

(** The paths [_generate_audio] works with (lines 238-253, 296). *)
Definition output_path_of (E : env) (topic : string) : string :=
  path_join (uploads_dir E)
    ("podcast_" ++ str_replace_char " " "_" topic ++ "_" ++ now_strftime E
     ++ ".mp3").

Definition manifest_path (E : env) : string :=
  path_join (temp_dir_of E) "file_list.txt".

(** The segment files of the lines whose call to the speech service
    succeeds, for a script enumerated from position [i]. *)
Definition kept_segments (E : env) (temp_dir : string) (i : nat)
    (lines : list pyval) : list string :=
  map (fun il => path_join temp_dir (segment_name (fst il)))
      (List.filter (speech_succeeds E) (enumerate_from i lines)).

(** The exception that printing or formatting [line] raises, when it
    lacks a speaker or a text. *)
Definition line_error (line : pyval) : option exn :=
  match py_getitem line "speaker" with
  | Raised e => Some e
  | Returned _ =>
      match py_getitem line "text" with
      | Raised e => Some e
      | Returned _ => None
      end
  end.

(** The first exception among the lines, in script order. *)
Fixpoint first_line_error (lines : list pyval) : option exn :=
  match lines with
  | [] => None
  | line :: rest =>
      match line_error line with
      | Some e => Some e
      | None => first_line_error rest
      end
  end.

(** Whether the loop gets as far as calling the speech service for a
    line, and whether the line ends up with a segment. *)
Definition reaches_speech_call (line : pyval) : bool :=
  match py_getitem line "voice_id", py_getitem line "text" with
  | Returned _, Returned text =>
      match py_len text with Returned _ => true | Raised _ => false end
  | _, _ => false
  end.

Definition line_synthesized (E : env) (il : nat * pyval) : bool :=
  reaches_speech_call (snd il) && speech_succeeds E il.

Definition is_chat_call (ev : event) : bool :=
  match ev with ChatCall _ => true | _ => false end.

Definition is_speech_call (ev : event) : bool :=
  match ev with SpeechCall _ _ _ => true | _ => false end.

(** [summarize_topic] of [langchain_main.py] (lines 6-7). *)
Definition summarize_topic (input_text : string) : string :=
  "Summary: Climate change refers to long-term shifts in temperatures and weather patterns. ("
  ++ str_take 20 input_text ++ ")".

(** Whether the [try] block of lines 204-219 raises for the answer of
    the chat call: the answer has no text, [json.loads] raises on the
    post-processed text, or the parsed value has no [len]. *)
Definition parse_fails (E : env) (response : option string) : bool :=
  match response with
  | None => true
  | Some text =>
      match json_loads E (strip_code_fence (str_strip text)) with
      | Raised _ => true
      | Returned parsed =>
          match py_len parsed with
          | Raised _ => true
          | Returned _ => false
          end
      end
  end.

(** ** The monad: inversion lemmas *)

Lemma bind_returned_inv {A B} (m : M A) (k : A -> M B) w b w' :
  bind m k w = (Returned b, w') ->
  exists a w1, m w = (Returned a, w1) /\ k a w1 = (Returned b, w').
Proof.
  unfold bind. destruct (m w) as [[a | e] w1]; intros H.
  - exists a, w1. split; [reflexivity | exact H].
  - discriminate H.
Qed.

Lemma bind_returned {A B} (m : M A) (k : A -> M B) w a w1 :
  m w = (Returned a, w1) -> bind m k w = k a w1.
Proof. intros H. unfold bind. rewrite H. reflexivity. Qed.

Lemma try_except_total {A} (m : M A) (h : exn -> M A) w :
  (forall e w1, exists a w2, h e w1 = (Returned a, w2)) ->
  exists a w', try_except m h w = (Returned a, w').
Proof.
  intros Hh. unfold try_except. destruct (m w) as [[a | e] w1].
  - exists a, w1. reflexivity.
  - apply Hh.
Qed.

Ltac bind_inv H :=
  let a := fresh "a" in
  let w := fresh "w" in
  let Hm := fresh "Hm" in
  apply bind_returned_inv in H as (a & w & Hm & H).

(** ** [process]: the shape of every result *)

Lemma process_try_returned E sources context w r w' :
  process_try E sources context w = (Returned r, w') ->
  (exists transcript n, r = audio_failure_record E transcript n) \/
  (exists transcript path n d, r = success_record E transcript path n d).
Proof.
  unfold process_try. intros H.
  bind_inv H. bind_inv H. bind_inv H. bind_inv H.
  destruct (str_is_empty a2).
  - bind_inv H. bind_inv H. injection H as <- _. left. eauto.
  - bind_inv H. bind_inv H. bind_inv H. injection H as <- _. right. eauto 6.
Qed.

(** C1. [process] returns a record for every sources list, context,
    environment and world, and never raises: when the body of its [try]
    raises an exception [e], the result is the error record whose
    ["error"] is the message of [e] after the prefix
    ["Error in podcast generation: "] and whose metadata hold the
    formatted traceback of [e]. *)
Theorem process_never_raises :
  forall (E : env) (sources : list pydict) (context : pydict) (w : world),
    (exists r w', process E sources context w = (Returned r, w')) /\
    process E sources context w =
      match process_try E sources context w with
      | (Returned r, w') => (Returned r, w')
      | (Raised e, w') =>
          (Returned
             (PDict [("flow_type", PStr "podcast");
                     ("error",
                      PStr ("Error in podcast generation: " ++ exn_str e));
                     ("sources_found", PStr "Failed to generate podcast");
                     ("metadata",
                      PDict [("error_details",
                              PStr (traceback_format_exc E e));
                             ("generated_at", PStr (now_isoformat E))])]),
           w')
      end.
Proof.
  intros E sources context w. split.
  - unfold process. apply try_except_total.
    intros e w1. exists (exception_record E e), w1. reflexivity.
  - unfold process, try_except.
    destruct (process_try E sources context w) as [[r | e] w']; reflexivity.
Qed.

(** C10. Whatever the exit path, the value [process] returns is a
    record with ["flow_type"] equal to ["podcast"], a string under
    ["sources_found"], and a ["metadata"] record with the
    ["generated_at"] timestamp. *)
Theorem process_result_shape :
  forall (E : env) (sources : list pydict) (context : pydict) (w : world),
  exists (r : pyval) (w' : world) (found : string) (metadata : pydict),
    process E sources context w = (Returned r, w') /\
    record_field "flow_type" r = Some (PStr "podcast") /\
    record_field "sources_found" r = Some (PStr found) /\
    record_field "metadata" r = Some (PDict metadata) /\
    dict_lookup "generated_at" metadata = Some (PStr (now_isoformat E)).
Proof.
  intros E sources context w. unfold process, try_except.
  destruct (process_try E sources context w) as [[r | e] w'] eqn:Hbody.
  - apply process_try_returned in Hbody
      as [(t & n & ->) | (t & p & n & d & ->)];
      eexists _, w', t, _; repeat split; reflexivity.
  - eexists _, w', _, _. unfold ret, exception_record.
    repeat split; reflexivity.
Qed.

(** ** Strings: slices and concatenation *)

Lemma str_app_cons (x : ascii) (a b : string) :
  String x a ++ b = String x (a ++ b).
Proof. reflexivity. Qed.

Lemma str_app_nil (b : string) : "" ++ b = b.
Proof. reflexivity. Qed.

Lemma str_app_assoc (a b c : string) : (a ++ b) ++ c = a ++ (b ++ c).
Proof.
  induction a as [| x a IH]; [reflexivity |].
  rewrite !str_app_cons. f_equal. exact IH.
Qed.

Lemma str_app_empty_r (a : string) : a ++ "" = a.
Proof.
  induction a as [| x a IH]; [reflexivity |].
  rewrite str_app_cons. f_equal. exact IH.
Qed.

Lemma str_length_app (a b : string) :
  String.length (a ++ b) = String.length a + String.length b.
Proof.
  induction a as [| x a IH]; [reflexivity |].
  rewrite str_app_cons. simpl. f_equal. exact IH.
Qed.

Lemma str_take_length (n : nat) (s : string) :
  String.length (str_take n s) = Nat.min n (String.length s).
Proof.
  unfold str_take. revert s.
  induction n as [| n IH]; intros [| c s]; simpl; try reflexivity.
  f_equal. apply IH.
Qed.

Lemma substring_skip (c : ascii) (s : string) (n m : nat) :
  substring (S n) m (String c s) = substring n m s.
Proof. reflexivity. Qed.

Lemma substring_all (t : string) : substring 0 (String.length t) t = t.
Proof. induction t as [| c t IHt]; simpl; [reflexivity | congruence]. Qed.

Lemma str_take_drop (n : nat) (s : string) :
  str_take n s ++ str_drop n s = s.
Proof.
  unfold str_take, str_drop. revert s.
  induction n as [| n IH]; intros s.
  - rewrite Nat.sub_0_r, substring_all. destruct s; reflexivity.
  - destruct s as [| c s]; [reflexivity |].
    change (String c (substring 0 n s ++ substring n (String.length s - n) s)
            = String c s).
    f_equal. apply IH.
Qed.

(** ** [_generate_podcast_dialogue]: the world it leaves *)

Lemma generate_dialogue_world E content topic w :
  snd (_generate_podcast_dialogue E content (PStr topic) w) =
  World (dirs w) (files w)
        (calls w ++
         [ChatCall (dialogue_request content (clean_topic_of topic))]).
Proof.
  unfold _generate_podcast_dialogue, bind, lift, as_str, call_chat, bind,
    log_call, lift, try_except. simpl.
  destruct (chat_create E _) as [[text |] | e]; simpl; try reflexivity.
  - destruct (json_loads E _) as [v | e]; simpl; [| reflexivity].
    destruct (py_len v); reflexivity.
Qed.

(** ** Trimming and the code fence *)

Lemma lstrip_by_keep (p : ascii -> bool) (c : ascii) (s : string) :
  p c = false -> lstrip_by p (String c s) = String c s.
Proof. intros H. simpl. now rewrite H. Qed.

Lemma lstrip_by_drop (p : ascii -> bool) (c : ascii) (s : string) :
  p c = true -> lstrip_by p (String c s) = lstrip_by p s.
Proof. intros H. simpl. now rewrite H. Qed.

Lemma rstrip_by_last (p : ascii -> bool) (s : string) (c : ascii) :
  str_last s = Some c -> p c = false -> rstrip_by p s = s.
Proof.
  intros Hl Hc. induction s as [| x s IH]; [reflexivity |].
  destruct s as [| y s].
  - simpl in Hl. injection Hl as ->. simpl. now rewrite Hc.
  - change (str_last (String x (String y s))) with (str_last (String y s)) in Hl.
    specialize (IH Hl).
    change (rstrip_by p (String x (String y s)))
      with (if p x && str_is_empty (rstrip_by p (String y s))
            then EmptyString else String x (rstrip_by p (String y s))).
    rewrite IH. simpl. now rewrite andb_false_r.
Qed.

Lemma rstrip_by_app_all (p : ascii -> bool) (a b : string) :
  rstrip_by p b = "" -> rstrip_by p (a ++ b) = rstrip_by p a.
Proof.
  intros Hb. induction a as [| x a IH]; [exact Hb |].
  rewrite str_app_cons. simpl. now rewrite IH.
Qed.

Lemma str_last_app (a b : string) (c : ascii) :
  str_last b = Some c -> str_last (a ++ b) = Some c.
Proof.
  intros Hb. induction a as [| x a IH]; [exact Hb |].
  rewrite str_app_cons.
  destruct (a ++ b) as [| y r] eqn:Hab; [discriminate IH | exact IH].
Qed.

Lemma trimmed_inv (s : string) :
  trimmed s = true ->
  exists c r c', s = String c r /\ is_space c = false /\
                 str_last s = Some c' /\ is_space c' = false.
Proof.
  unfold trimmed. destruct s as [| c r]; [discriminate |].
  destruct (str_last (String c r)) as [c' |]; [| discriminate].
  intros [H1 H2]%andb_true_iff.
  apply negb_true_iff in H1. apply negb_true_iff in H2.
  exists c, r, c'. repeat split; assumption.
Qed.

Lemma str_strip_nl_around (s : string) :
  trimmed s = true -> str_strip (nl ++ s ++ nl) = s.
Proof.
  intros Ht. pose proof Ht as (c & r & c' & Hs & Hc & Hl & Hc')%trimmed_inv.
  unfold str_strip, strip_by.
  change (nl ++ s ++ nl) with (String "010" (s ++ nl)).
  rewrite lstrip_by_drop by reflexivity.
  rewrite Hs at 1. rewrite str_app_cons, lstrip_by_keep by exact Hc.
  rewrite <- str_app_cons, <- Hs.
  rewrite rstrip_by_app_all by reflexivity.
  now apply rstrip_by_last with c'.
Qed.

Lemma str_strip_nl_before (s : string) :
  trimmed s = true -> str_strip (nl ++ s) = s.
Proof.
  intros Ht. pose proof Ht as (c & r & c' & Hs & Hc & Hl & Hc')%trimmed_inv.
  unfold str_strip, strip_by.
  change (nl ++ s) with (String "010" s).
  rewrite lstrip_by_drop by reflexivity.
  rewrite Hs at 1. rewrite lstrip_by_keep by exact Hc. rewrite <- Hs.
  now apply rstrip_by_last with c'.
Qed.

Lemma strip_backticks_fenced (tag body : string) :
  match tag with String c _ => Ascii.eqb "`" c = false | EmptyString => True end ->
  str_strip_char "`" (fenced tag body) = tag ++ nl ++ body ++ nl.
Proof.
  intros Htag. unfold str_strip_char, strip_by, fenced.
  change ("```" ++ tag ++ nl ++ body ++ nl ++ "```")
    with (String "`" (String "`" (String "`" (tag ++ nl ++ body ++ nl ++ "```")))).
  rewrite !lstrip_by_drop by reflexivity.
  assert (Hl : lstrip_by (Ascii.eqb "`") (tag ++ nl ++ body ++ nl ++ "```")
               = tag ++ nl ++ body ++ nl ++ "```").
  { destruct tag as [| c t].
    - reflexivity.
    - rewrite str_app_cons. now apply lstrip_by_keep. }
  rewrite Hl.
  replace (tag ++ nl ++ body ++ nl ++ "```")
    with ((tag ++ nl ++ body ++ nl) ++ "```")
    by now rewrite !str_app_assoc.
  rewrite rstrip_by_app_all by reflexivity.
  apply rstrip_by_last with "010"%char; [| reflexivity].
  rewrite <- !str_app_assoc. now apply str_last_app.
Qed.

Lemma strip_code_fence_plain (raw : string) :
  str_startswith "```" raw = false -> strip_code_fence raw = raw.
Proof. intros H. unfold strip_code_fence. now rewrite H. Qed.

Lemma strip_code_fence_untagged (body : string) :
  trimmed body = true ->
  str_startswith "json" (str_lower body) = false ->
  strip_code_fence (fenced "" body) = body.
Proof.
  intros Ht Hj. unfold strip_code_fence.
  replace (str_startswith "```" (fenced "" body)) with true by reflexivity.
  rewrite strip_backticks_fenced by exact I.
  rewrite str_app_nil, str_strip_nl_around by exact Ht.
  now rewrite Hj.
Qed.

Lemma strip_code_fence_json (body : string) :
  trimmed body = true ->
  strip_code_fence (fenced "json" body) = body.
Proof.
  intros Ht. pose proof Ht as (c & r & c' & Hs & Hc & Hl & Hc')%trimmed_inv.
  unfold strip_code_fence.
  replace (str_startswith "```" (fenced "json" body)) with true by reflexivity.
  rewrite strip_backticks_fenced by reflexivity.
  assert (Hstrip : str_strip ("json" ++ nl ++ body ++ nl) = "json" ++ nl ++ body).
  { unfold str_strip, strip_by.
    change ("json" ++ nl ++ body ++ nl) with (String "j" ("son" ++ nl ++ body ++ nl)).
    rewrite lstrip_by_keep by reflexivity.
    change (String "j" ("son" ++ nl ++ body ++ nl))
      with ("json" ++ nl ++ body ++ nl).
    replace ("json" ++ nl ++ body ++ nl) with (("json" ++ nl ++ body) ++ nl)
      by now rewrite !str_app_assoc.
    rewrite rstrip_by_app_all by reflexivity.
    apply rstrip_by_last with c'; [| exact Hc'].
    rewrite <- str_app_assoc. now apply str_last_app. }
  rewrite Hstrip.
  replace (str_startswith "json" (str_lower ("json" ++ nl ++ body)))
    with true by reflexivity.
  replace (str_drop (String.length "json") ("json" ++ nl ++ body))
    with (str_drop 0 (nl ++ body)).
  - unfold str_drop. rewrite Nat.sub_0_r, substring_all.
    now apply str_strip_nl_before.
  - unfold str_drop.
    change ("json" ++ nl ++ body)
      with (String "j" (String "s" (String "o" (String "n" (nl ++ body))))).
    simpl String.length. rewrite !substring_skip. f_equal; lia.
Qed.

(** ** [_generate_podcast_dialogue]: the chat call and the parse *)

Lemma generate_dialogue_answered E content topic w response :
  chat_create E (dialogue_request content (clean_topic_of topic))
    = Returned response ->
  _generate_podcast_dialogue E content (PStr topic) w =
    (Returned (dialogue_of_response E content topic response),
     World (dirs w) (files w)
           (calls w ++
            [ChatCall (dialogue_request content (clean_topic_of topic))])).
Proof.
  intros Hchat.
  unfold _generate_podcast_dialogue, bind, lift, as_str, call_chat, bind,
    log_call, lift, try_except, dialogue_of_response. simpl. rewrite Hchat.
  destruct response as [text |]; simpl; [| reflexivity].
  destruct (json_loads E _) as [v | e]; simpl; [| reflexivity].
  destruct (py_len v); reflexivity.
Qed.

(** C5. The fallback script, as the method produces it.  Once the
    dialogue request has been answered and the [try] block of lines
    204-219 raises (the answer has no text, it does not parse, or the
    parsed value has no length), the method returns the list of the
    [except] clause and the world at its return is the world in which
    the answer arrived: no call is made, and nothing is written, to
    produce the script.  The script depends on the content and the topic
    alone.  It has six lines whose speakers alternate from Host, each
    with the voice identifier of its speaker; the first text is
    ["Welcome to this educational podcast about <topic>."], the fourth
    echoes the first 200 characters of the content between
    ["Certainly. "] and ["..."], the others are fixed sentences. *)
Theorem fallback_dialogue_six_lines :
  forall (E : env) (content topic : string) (w w1 : world)
         (response : option string),
    call_chat E (dialogue_request content (clean_topic_of topic)) w
      = (Returned response, w1) ->
    parse_fails E response = true ->
    exists lines,
      _generate_podcast_dialogue E content (PStr topic) w
        = (Returned (PList lines), w1) /\
      PList lines = fallback_dialogue content topic /\
      List.length lines = 6 /\
      py_len (PList lines) = Returned 6 /\
      map (fun l => py_getitem l "speaker") lines =
        map (fun s => Returned (PStr s))
            ["Host"; "Guest"; "Host"; "Guest"; "Host"; "Guest"] /\
      map (fun l => py_getitem l "voice_id") lines =
        map (fun s => Returned (PStr s))
            [HOST_VOICE_ID; GUEST_VOICE_ID; HOST_VOICE_ID;
             GUEST_VOICE_ID; HOST_VOICE_ID; GUEST_VOICE_ID] /\
      map (fun l => py_getitem l "text") lines =
        map (fun s => Returned (PStr s))
            ["Welcome to this educational podcast about " ++ topic ++ ".";
             "Thank you for having me. I'm excited to discuss this topic.";
             "Let's start with the basics. Could you give our listeners an overview?";
             "Certainly. " ++ str_take 200 content ++ "...";
             "That's fascinating. What are some practical applications of this knowledge?";
             "There are several applications worth discussing..."] /\
      String.length (str_take 200 content) = Nat.min 200 (String.length content) /\
      str_take 200 content ++ str_drop 200 content = content.
Proof.
  intros E content topic w w1 response Hcall Hfail.
  exists (fallback_lines content topic).
  assert (Hchat : chat_create E (dialogue_request content (clean_topic_of topic))
                  = Returned response /\
                  w1 = World (dirs w) (files w)
                         (calls w ++
                          [ChatCall (dialogue_request content
                                       (clean_topic_of topic))])).
  { unfold call_chat, bind, log_call, lift in Hcall.
    destruct (chat_create E _) as [r | e]; [| discriminate Hcall].
    injection Hcall as -> <-. split; reflexivity. }
  destruct Hchat as [Hchat ->].
  split.
  - rewrite (generate_dialogue_answered _ _ _ _ _ Hchat). f_equal.
    unfold dialogue_of_response, parse_fails in *.
    destruct response as [text |]; [| reflexivity].
    destruct (json_loads E _) as [v | e]; [| reflexivity].
    destruct (py_len v); [discriminate Hfail | reflexivity].
  - split; [reflexivity |]. split; [reflexivity |]. split; [reflexivity |].
    split; [reflexivity |]. split; [reflexivity |]. split; [reflexivity |].
    split; [apply str_take_length | apply str_take_drop].
Qed.

Lemma fallback_dialogue_six_lines_witness :
  exists lines,
    _generate_podcast_dialogue
      (sample_env (chat_answers "not json at all") speech_ok ffmpeg_ok)
      "Climate change causes..." (PStr "climate change") empty_world
    = (Returned (PList lines),
       World ∅ ∅ [ChatCall (dialogue_request "Climate change causes..."
                              "climate change")]) /\
    List.length lines = 6 /\
    map (fun l => py_getitem l "text") lines =
      map (fun s => Returned (PStr s))
          ["Welcome to this educational podcast about climate change.";
           "Thank you for having me. I'm excited to discuss this topic.";
           "Let's start with the basics. Could you give our listeners an overview?";
           "Certainly. Climate change causes......";
           "That's fascinating. What are some practical applications of this knowledge?";
           "There are several applications worth discussing..."].
Proof.
  destruct (fallback_dialogue_six_lines
              (sample_env (chat_answers "not json at all") speech_ok ffmpeg_ok)
              "Climate change causes..." "climate change" empty_world
              (World ∅ ∅ [ChatCall (dialogue_request "Climate change causes..."
                                      "climate change")])
              (Some "not json at all"))
    as (lines & Hrun & _ & Hlen & _ & _ & _ & Htext & _).
  - reflexivity.
  - vm_compute. reflexivity.
  - exists lines. split; [exact Hrun |]. split; [exact Hlen | exact Htext].
Defined.

Lemma generate_dialogue_chat_raises E content topic w e :
  chat_create E (dialogue_request content (clean_topic_of topic)) = Raised e ->
  fst (_generate_podcast_dialogue E content (PStr topic) w) = Raised e.
Proof.
  intros Hchat.
  unfold _generate_podcast_dialogue, bind, lift, as_str, call_chat, bind,
    log_call, lift. simpl. now rewrite Hchat.
Qed.

Lemma dialogue_of_response_sized E content topic response :
  exists n, py_len (dialogue_of_response E content topic response) = Returned n.
Proof.
  unfold dialogue_of_response.
  destruct response as [text |]; [| now exists 6].
  destruct (json_loads E _) as [v | e]; [| now exists 6].
  destruct (py_len v) as [n | e] eqn:Hlen; [now exists n | now exists 6].
Qed.

(** C2, as the code has it.  Once the chat call has answered, the
    method returns and does not raise: it returns the fallback script or
    the value parsed from the answer, and in both cases a value that has
    a length.  When the answer has no text or its post-processed text
    does not parse, it is the fallback script, of length six. *)
Theorem generate_dialogue_returns_when_chat_answers :
  forall (E : env) (content topic : string) (w : world)
         (response : option string),
    chat_create E (dialogue_request content (clean_topic_of topic))
      = Returned response ->
    exists (dialogue : pyval) (w' : world),
      _generate_podcast_dialogue E content (PStr topic) w
        = (Returned dialogue, w') /\
      (exists n, py_len dialogue = Returned n) /\
      (dialogue = fallback_dialogue content topic \/
       exists text,
         response = Some text /\
         json_loads E (strip_code_fence (str_strip text)) = Returned dialogue) /\
      ((forall text, response = Some text ->
          exists e, json_loads E (strip_code_fence (str_strip text)) = Raised e) ->
       dialogue = fallback_dialogue content topic /\
       py_len dialogue = Returned 6).
Proof.
  intros E content topic w response Hchat.
  eexists _, _. split; [exact (generate_dialogue_answered _ _ _ _ _ Hchat) |].
  split; [apply dialogue_of_response_sized |]. split.
  - unfold dialogue_of_response. destruct response as [text |]; [| now left].
    destruct (json_loads E _) as [v | e] eqn:Hj; [| now left].
    destruct (py_len v); [right; eauto | now left].
  - intros Hbad. unfold dialogue_of_response.
    destruct response as [text |]; [| split; reflexivity].
    destruct (Hbad text eq_refl) as [e ->]. split; reflexivity.
Qed.

Lemma generate_dialogue_returns_when_chat_answers_witness :
  chat_create (sample_env (chat_answers "not json at all") speech_ok ffmpeg_ok)
    (dialogue_request "Climate change causes..."
       (clean_topic_of "climate change"))
    = Returned (Some "not json at all") /\
  exists w',
    _generate_podcast_dialogue
      (sample_env (chat_answers "not json at all") speech_ok ffmpeg_ok)
      "Climate change causes..." (PStr "climate change") empty_world
    = (Returned (fallback_dialogue "Climate change causes..." "climate change"),
       w').
Proof.
  split; [reflexivity |].
  destruct (generate_dialogue_returns_when_chat_answers
              (sample_env (chat_answers "not json at all") speech_ok ffmpeg_ok)
              "Climate change causes..." "climate change" empty_world
              (Some "not json at all") eq_refl)
    as (d & w' & Hrun & _ & _ & Hfb).
  exists w'. rewrite Hrun.
  destruct Hfb as [-> _]; [| reflexivity].
  intros text [= <-]. eexists. vm_compute. reflexivity.
Defined.

(** C2 as stated fails on the code: when the chat call raises, the
    method raises the same exception, and when the chat answers the
    empty JSON array the method returns a script of length zero. *)
Lemma generate_dialogue_not_always_a_script :
  ~ (exists d w',
        _generate_podcast_dialogue
          (sample_env chat_down speech_ok ffmpeg_ok)
          "Climate change causes..." (PStr "climate change") empty_world
        = (Returned d, w')) /\
  ~ (exists d w' n,
        _generate_podcast_dialogue
          (sample_env (chat_answers "[]") speech_ok ffmpeg_ok)
          "Climate change causes..." (PStr "climate change") empty_world
        = (Returned d, w') /\ py_len d = Returned n /\ 1 <= n).
Proof.
  split.
  - intros (d & w' & H).
    pose proof (generate_dialogue_chat_raises
                  (sample_env chat_down speech_ok ffmpeg_ok)
                  "Climate change causes..." "climate change" empty_world
                  (Exn ServiceError "Connection error.") eq_refl) as Hr.
    rewrite H in Hr. discriminate Hr.
  - intros (d & w' & n & H & Hlen & Hn).
    rewrite (generate_dialogue_answered
               (sample_env (chat_answers "[]") speech_ok ffmpeg_ok)
               "Climate change causes..." "climate change" empty_world
               (Some "[]") eq_refl) in H.
    injection H as <- _. vm_compute in Hlen. injection Hlen as <-. lia.
Qed.

(** C6, as the code has it.  The answer is trimmed and, when it then
    starts with three backticks, freed of its fence and of a leading
    [json] tag; the result is parsed.  The fallback script is returned
    when parsing raises or the parsed value has no length (a number, a
    boolean, [null]); a parsed array, object or string is returned as it
    is, whatever it holds.  A text without a leading fence is parsed
    unchanged, and a trimmed body between fence lines, tagged [json] or
    untagged, is recovered exactly. *)
Theorem dialogue_post_processing :
  forall (E : env) (content topic : string) (w : world) (text : string),
    chat_create E (dialogue_request content (clean_topic_of topic))
      = Returned (Some text) ->
    fst (_generate_podcast_dialogue E content (PStr topic) w) =
      Returned
        (match json_loads E (strip_code_fence (str_strip text)) with
         | Returned parsed =>
             match parsed with
             | PStr _ | PList _ | PDict _ => parsed
             | _ => fallback_dialogue content topic
             end
         | Raised _ => fallback_dialogue content topic
         end) /\
    (forall raw, str_startswith "```" raw = false ->
                 strip_code_fence raw = raw) /\
    (forall body, trimmed body = true ->
                  strip_code_fence (fenced "json" body) = body) /\
    (forall body, trimmed body = true ->
                  str_startswith "json" (str_lower body) = false ->
                  strip_code_fence (fenced "" body) = body).
Proof.
  intros E content topic w text Hchat. split; [| split; [| split]].
  - rewrite (generate_dialogue_answered _ _ _ _ _ Hchat). simpl.
    destruct (json_loads E _) as [v | e]; [| reflexivity].
    destruct v; reflexivity.
  - apply strip_code_fence_plain.
  - apply strip_code_fence_json.
  - apply strip_code_fence_untagged.
Qed.

Lemma dialogue_post_processing_witness :
  chat_create
    (sample_env (chat_answers (fenced "json" "[]")) speech_ok ffmpeg_ok)
    (dialogue_request "Climate change causes..."
       (clean_topic_of "climate change"))
    = Returned (Some (fenced "json" "[]")) /\
  fst (_generate_podcast_dialogue
         (sample_env (chat_answers (fenced "json" "[]")) speech_ok ffmpeg_ok)
         "Climate change causes..." (PStr "climate change") empty_world)
    = Returned (PList []).
Proof.
  split; [reflexivity |].
  destruct (dialogue_post_processing
              (sample_env (chat_answers (fenced "json" "[]")) speech_ok ffmpeg_ok)
              "Climate change causes..." "climate change" empty_world
              (fenced "json" "[]") eq_refl) as [Hrun _].
  rewrite Hrun. vm_compute. reflexivity.
Defined.

(** C6 as stated fails on the code: an answer whose JSON root is an
    object, and an answer whose array holds a line without the text and
    voice keys, are returned as parsed and not replaced by the fallback
    script. *)
Lemma unexpected_json_is_not_replaced :
  fst (_generate_podcast_dialogue
         (sample_env (chat_answers object_root_answer) speech_ok ffmpeg_ok)
         "Climate change causes..." (PStr "climate change") empty_world)
    = Returned (PDict [("speaker", PStr "Host"); ("text", PStr "Hello")]) /\
  fst (_generate_podcast_dialogue
         (sample_env (chat_answers missing_keys_answer) speech_ok ffmpeg_ok)
         "Climate change causes..." (PStr "climate change") empty_world)
    = Returned (PList [dialogue_line "Host" "Hello" HOST_VOICE_ID;
                       PDict [("speaker", PStr "Guest")]]) /\
  PDict [("speaker", PStr "Host"); ("text", PStr "Hello")]
    <> fallback_dialogue "Climate change causes..." "climate change" /\
  PList [dialogue_line "Host" "Hello" HOST_VOICE_ID;
         PDict [("speaker", PStr "Guest")]]
    <> fallback_dialogue "Climate change causes..." "climate change".
Proof.
  split; [| split; [| split]].
  - rewrite (generate_dialogue_answered
               (sample_env (chat_answers object_root_answer) speech_ok ffmpeg_ok)
               "Climate change causes..." "climate change" empty_world
               (Some object_root_answer) eq_refl).
    vm_compute. reflexivity.
  - rewrite (generate_dialogue_answered
               (sample_env (chat_answers missing_keys_answer) speech_ok ffmpeg_ok)
               "Climate change causes..." "climate change" empty_world
               (Some missing_keys_answer) eq_refl).
    vm_compute. reflexivity.
  - discriminate.
  - discriminate.
Qed.
(** ** The synthesis loop *)

Lemma enumerate_from_cons (i : nat) (line : pyval) (rest : list pyval) :
  enumerate_from i (line :: rest) = (i, line) :: enumerate_from (S i) rest.
Proof. reflexivity. Qed.

Lemma dialogue_line_ok_inv (line : pyval) :
  dialogue_line_ok line = true ->
  exists speaker text voice,
    py_getitem line "speaker" = Returned speaker /\
    py_getitem line "text" = Returned (PStr text) /\
    py_getitem line "voice_id" = Returned voice.
Proof.
  unfold dialogue_line_ok.
  destruct (py_getitem line "speaker") as [speaker |]; [| discriminate].
  destruct (py_getitem line "text") as [[| | | | text | |] |]; try discriminate.
  destruct (py_getitem line "voice_id") as [voice |]; [| discriminate].
  intros _. eauto 6.
Qed.

(** One iteration on a well-formed line: one call to the speech
    service, and one more segment when it answers. *)
Lemma synthesize_segments_step E temp_dir i line rest acc w :
  dialogue_line_ok line = true ->
  path_join temp_dir (segment_name i) ∉ dirs w ->
  exists w1,
    synthesize_segments E temp_dir i (line :: rest) acc w =
      synthesize_segments E temp_dir (S i) rest
        (acc ++ (if speech_succeeds E (i, line)
                 then [path_join temp_dir (segment_name i)] else []))%list
        w1 /\
    dirs w1 = dirs w /\
    calls w1 = (calls w ++ [speech_call_of line])%list /\
    (forall p, is_Some (files w !! p) -> is_Some (files w1 !! p)) /\
    (speech_succeeds E (i, line) = true ->
     is_Some (files w1 !! path_join temp_dir (segment_name i))).
Proof.
  intros (speaker & text & voice & Hs & Ht & Hv)%dialogue_line_ok_inv Hdir.
  unfold speech_succeeds, speech_call_of. cbn [fst snd synthesize_segments].
  unfold bind, lift, try_except, call_speech, bind, log_call, lift, write_file, ret.
  rewrite Hs, Ht, Hv. cbn [py_len dirs files calls].
  destruct (elevenlabs_generate E i (PStr text) voice "eleven_multilingual_v2")
    as [audio | e].
  - destruct (decide (path_join temp_dir (segment_name i) ∈ dirs w))
      as [Hin | _]; [contradiction |].
    eexists. split; [reflexivity |]. cbn [dirs files calls].
    repeat split.
    + intros p Hp. apply lookup_insert_is_Some.
      destruct (decide (path_join temp_dir (segment_name i) = p)); auto.
    + intros _. rewrite lookup_insert_eq. eauto.
  - rewrite app_nil_r. eexists. split; [reflexivity |].
    cbn [dirs files calls]. repeat split; [auto | discriminate].
Qed.

Lemma synthesize_segments_spec E temp_dir lines :
  forall i acc w,
    Forall (fun l => dialogue_line_ok l = true) lines ->
    (forall j, path_join temp_dir (segment_name j) ∉ dirs w) ->
    (forall p, p ∈ acc -> is_Some (files w !! p)) ->
    exists w',
      synthesize_segments E temp_dir i lines acc w =
        (Returned
           (acc ++ map (fun il => path_join temp_dir (segment_name (fst il)))
                       (List.filter (speech_succeeds E) (enumerate_from i lines)))%list,
         w') /\
      dirs w' = dirs w /\
      calls w' = (calls w ++ map speech_call_of lines)%list /\
      (forall p, is_Some (files w !! p) -> is_Some (files w' !! p)) /\
      (forall p,
          p ∈ (acc ++ map (fun il => path_join temp_dir (segment_name (fst il)))
                          (List.filter (speech_succeeds E) (enumerate_from i lines)))%list ->
          is_Some (files w' !! p)).
Proof.
  induction lines as [| line rest IH]; intros i acc w Hok Hdirs Hacc.
  - exists w. simpl. rewrite !app_nil_r. repeat split; auto.
  - apply Forall_cons in Hok as [Hline Hrest].
    destruct (synthesize_segments_step E temp_dir i line rest acc w Hline (Hdirs i))
      as (w1 & Hstep & Hd1 & Hc1 & Hf1 & Hnew).
    destruct (IH (S i)
                 (acc ++ (if speech_succeeds E (i, line)
                          then [path_join temp_dir (segment_name i)] else []))%list
                 w1 Hrest) as (w' & Hrun & Hd & Hc & Hf & Hall).
    { intros j. rewrite Hd1. apply Hdirs. }
    { intros p [Hp | Hp]%elem_of_app; [auto |].
      destruct (speech_succeeds E (i, line)); [| now apply elem_of_nil in Hp].
      apply list_elem_of_singleton in Hp as ->. auto. }
    exists w'. rewrite Hstep, Hrun, enumerate_from_cons. cbn [List.filter].
    assert (Heq :
      ((acc ++ (if speech_succeeds E (i, line)
                then [path_join temp_dir (segment_name i)] else [])) ++
       map (fun il => path_join temp_dir (segment_name (fst il)))
           (List.filter (speech_succeeds E) (enumerate_from (S i) rest))
       = acc ++
         map (fun il => path_join temp_dir (segment_name (fst il)))
             (if speech_succeeds E (i, line)
              then (i, line) :: List.filter (speech_succeeds E) (enumerate_from (S i) rest)
              else List.filter (speech_succeeds E) (enumerate_from (S i) rest)))%list).
    { rewrite <- app_assoc. destruct (speech_succeeds E (i, line)); reflexivity. }
    rewrite <- Heq. split; [reflexivity |]. split; [congruence |].
    split; [rewrite Hc, Hc1, <- app_assoc; reflexivity |].
    split; [auto | exact Hall].
Qed.

(** The positions that survive when every call succeeds, and when every
    call but the one for position [k] succeeds. *)
Lemma filter_enumerate_all (ok : nat * pyval -> bool) (lines : list pyval) :
  forall i,
    (forall j line, lines !! j = Some line -> ok (i + j, line) = true) ->
    map fst (List.filter ok (enumerate_from i lines)) = seq i (List.length lines).
Proof.
  induction lines as [| line rest IH]; intros i Hall; [reflexivity |].
  rewrite enumerate_from_cons. cbn [List.filter].
  pose proof (Hall 0 line eq_refl) as H0. rewrite Nat.add_0_r in H0.
  rewrite H0. cbn [map fst List.length seq]. f_equal. apply IH.
  intros j l Hj. replace (S i + j) with (i + S j) by lia. now apply Hall.
Qed.

Lemma filter_enumerate_all_but (ok : nat * pyval -> bool) (lines : list pyval) :
  forall i k,
    k < List.length lines ->
    (forall j line, lines !! j = Some line ->
                    ok (i + j, line) = negb (Nat.eqb j k)) ->
    map fst (List.filter ok (enumerate_from i lines))
    = (seq i k ++ seq (i + S k) (List.length lines - S k))%list.
Proof.
  induction lines as [| line rest IH]; intros i k Hk Hall; [simpl in Hk; lia |].
  rewrite enumerate_from_cons. cbn [List.filter].
  pose proof (Hall 0 line eq_refl) as H0. rewrite Nat.add_0_r in H0.
  rewrite H0. destruct k as [| k].
  - cbn [Nat.eqb negb seq app].
    replace (List.length (line :: rest) - 1) with (List.length rest)
      by (simpl; lia).
    replace (i + 1) with (S i) by lia.
    apply filter_enumerate_all.
    intros j l Hj. replace (S i + j) with (i + S j) by lia.
    now rewrite (Hall (S j) l Hj).
  - cbn [Nat.eqb negb map fst seq app].
    f_equal. replace (i + S (S k)) with (S i + S k) by lia.
    replace (List.length (line :: rest) - S (S k))
      with (List.length rest - S k) by (simpl; lia).
    apply IH; [simpl in Hk; lia |].
    intros j l Hj. replace (S i + j) with (i + S j) by lia.
    now rewrite (Hall (S j) l Hj).
Qed.

Lemma format_03d_three_digits (i : nat) :
  i < 1000 ->
  String.length (format_03d i) = 3 /\ digits_to_Z (format_03d i) = Z.of_nat i.
Proof.
  intros Hi.
  assert (Hall :
    forallb (fun j => Nat.eqb (String.length (format_03d j)) 3
                      && Z.eqb (digits_to_Z (format_03d j)) (Z.of_nat j))
            (seq 0 1000) = true) by (vm_compute; reflexivity).
  rewrite forallb_forall in Hall.
  specialize (Hall i). rewrite in_seq in Hall.
  destruct (andb_prop _ _ (Hall ltac:(lia))) as [H1 H2].
  apply Nat.eqb_eq in H1. apply Z.eqb_eq in H2. auto.
Qed.

(** C7. On a script of well-formed lines the loop visits the lines in
    order and returns (it does not raise).  It issues exactly one call
    to the speech service per line, in script order, so nothing is
    retried.  The segment files it returns are those of the lines whose
    call succeeded, in script order, each named [segment_NNN.mp3] after
    the position of its line, where [NNN] has three digits and reads
    back as the position for positions below 1000; each of them has been
    written.  When the call fails for exactly one position [k], the
    result has one element less than the script and lists the positions
    [0..k-1] then [k+1..]. *)
Theorem synthesize_skips_failed_lines :
  forall (E : env) (temp_dir : string) (lines : list pyval) (w : world),
    Forall (fun l => dialogue_line_ok l = true) lines ->
    (forall j, path_join temp_dir (segment_name j) ∉ dirs w) ->
    exists (segment_files : list string) (w' : world),
      synthesize_segments E temp_dir 0 lines [] w = (Returned segment_files, w') /\
      segment_files =
        map (fun il => path_join temp_dir
                         ("segment_" ++ format_03d (fst il) ++ ".mp3"))
            (List.filter (speech_succeeds E) (enumerate_from 0 lines)) /\
      calls w' = (calls w ++ map speech_call_of lines)%list /\
      (forall p, p ∈ segment_files -> is_Some (files w' !! p)) /\
      (forall i, i < 1000 ->
                 String.length (format_03d i) = 3 /\
                 digits_to_Z (format_03d i) = Z.of_nat i) /\
      (forall k,
          k < List.length lines ->
          (forall j line, lines !! j = Some line ->
                          speech_succeeds E (j, line) = negb (Nat.eqb j k)) ->
          List.length segment_files = List.length lines - 1 /\
          segment_files =
            map (fun j => path_join temp_dir (segment_name j))
                (seq 0 k ++ seq (S k) (List.length lines - S k))%list).
Proof.
  intros E temp_dir lines w Hok Hdirs.
  destruct (synthesize_segments_spec E temp_dir lines 0 [] w Hok Hdirs)
    as (w' & Hrun & _ & Hcalls & _ & Hfiles).
  { intros p Hp. now apply elem_of_nil in Hp. }
  rewrite app_nil_l in Hrun, Hfiles.
  eexists _, w'. split; [exact Hrun |]. split; [reflexivity |].
  split; [exact Hcalls |]. split; [exact Hfiles |].
  split; [exact format_03d_three_digits |].
  intros k Hk Hone.
  pose proof (filter_enumerate_all_but (speech_succeeds E) lines 0 k Hk Hone)
    as Hpos.
  assert (Hmap :
    map (fun il => path_join temp_dir (segment_name (fst il)))
        (List.filter (speech_succeeds E) (enumerate_from 0 lines))
    = map (fun j => path_join temp_dir (segment_name j))
          (seq 0 k ++ seq (S k) (List.length lines - S k))%list).
  { change (S k) with (0 + S k) at 1. rewrite <- Hpos, map_map. reflexivity. }
  split; [| exact Hmap].
  rewrite Hmap, length_map, length_app, !length_seq. lia.
Qed.

Lemma synthesize_skips_failed_lines_witness :
  Forall (fun l => dialogue_line_ok l = true)
         (fallback_lines "Climate change causes..." "climate change") /\
  exists w',
    synthesize_segments
      (sample_env chat_down (speech_fails_at 2) ffmpeg_ok) "/srv/tmp" 0
      (fallback_lines "Climate change causes..." "climate change") []
      empty_world
    = (Returned ["/srv/tmp/segment_000.mp3"; "/srv/tmp/segment_001.mp3";
                 "/srv/tmp/segment_003.mp3"; "/srv/tmp/segment_004.mp3";
                 "/srv/tmp/segment_005.mp3"], w').
Proof.
  assert (Hok : Forall (fun l => dialogue_line_ok l = true)
                  (fallback_lines "Climate change causes..." "climate change"))
    by (repeat constructor).
  split; [exact Hok |].
  destruct (synthesize_skips_failed_lines
              (sample_env chat_down (speech_fails_at 2) ffmpeg_ok) "/srv/tmp"
              (fallback_lines "Climate change causes..." "climate change")
              empty_world Hok (fun j => not_elem_of_empty _))
    as (segs & w' & Hrun & Hsegs & _).
  exists w'. rewrite Hrun, Hsegs. vm_compute. reflexivity.
Defined.

(** ** What the stages leave behind *)

Lemma no_new_ffmpeg_refl w : no_new_ffmpeg w w.
Proof. exists []. now rewrite app_nil_r. Qed.

Lemma no_new_ffmpeg_trans w1 w2 w3 :
  no_new_ffmpeg w1 w2 -> no_new_ffmpeg w2 w3 -> no_new_ffmpeg w1 w3.
Proof.
  intros (e1 & H1 & F1) (e2 & H2 & F2). exists (e1 ++ e2)%list.
  rewrite H2, H1, <- app_assoc, forallb_app, F1, F2. auto.
Qed.

Lemma no_new_ffmpeg_elem w w' ev :
  no_new_ffmpeg w w' -> ev ∈ calls w' -> is_ffmpeg_call ev = true ->
  ev ∈ calls w.
Proof.
  intros (evs & Hc & Hall) Hin Hff. rewrite Hc in Hin.
  apply elem_of_app in Hin as [Hin | Hin]; [exact Hin |].
  rewrite forallb_forall in Hall. apply list_elem_of_In in Hin.
  specialize (Hall ev Hin). rewrite Hff in Hall. discriminate Hall.
Qed.

Lemma same_fs_trans w1 w2 w3 : same_fs w1 w2 -> same_fs w2 w3 -> same_fs w1 w3.
Proof. intros [H1 H2] [H3 H4]. split; congruence. Qed.

Lemma call_chat_quiet E req w :
  same_fs w (snd (call_chat E req w)) /\
  no_new_ffmpeg w (snd (call_chat E req w)).
Proof.
  unfold call_chat, bind, log_call, lift. simpl.
  destruct (chat_create E req); simpl;
    (split; [split; reflexivity | exists [ChatCall req]; split; reflexivity]).
Qed.

Lemma extract_title_quiet E content w :
  same_fs w (snd (_extract_title_from_content E content w)) /\
  no_new_ffmpeg w (snd (_extract_title_from_content E content w)).
Proof.
  unfold _extract_title_from_content.
  destruct (title_from_first_lines content).
  - simpl. split; [split; reflexivity | apply no_new_ffmpeg_refl].
  - pose proof (call_chat_quiet E (title_request content) w) as Hq.
    unfold try_except, bind.
    destruct (call_chat E (title_request content) w) as [[[text |] | e] w1];
      exact Hq.
Qed.

Lemma content_and_title_quiet E sources context w :
  same_fs w (snd (content_and_title E sources context w)) /\
  no_new_ffmpeg w (snd (content_and_title E sources context w)).
Proof.
  unfold content_and_title, bind, lift.
  destruct (collect_sources sources "" PNone) as [[content t0] | e]; simpl.
  - destruct (py_truthy t0); simpl.
    + split; [split; reflexivity | apply no_new_ffmpeg_refl].
    + pose proof (extract_title_quiet E content w) as Hq.
      destruct (_extract_title_from_content E content w) as [[t | e] w1];
        exact Hq.
  - split; [split; reflexivity | apply no_new_ffmpeg_refl].
Qed.

Lemma generate_dialogue_quiet E content topic w :
  same_fs w (snd (_generate_podcast_dialogue E content topic w)) /\
  no_new_ffmpeg w (snd (_generate_podcast_dialogue E content topic w)).
Proof.
  destruct topic as [| b | z | r | t | l | d];
    try (split; [split; reflexivity | apply no_new_ffmpeg_refl]).
  rewrite generate_dialogue_world. simpl.
  split; [split; reflexivity |].
  eexists [_]. split; reflexivity.
Qed.

Lemma generate_dialogue_topic_str E content topic w d w' :
  _generate_podcast_dialogue E content topic w = (Returned d, w') ->
  exists t, topic = PStr t.
Proof.
  destruct topic as [| b | z | r | t | l | dd]; try discriminate. eauto.
Qed.

(** ** The transcript *)

Lemma printable_line_inv (line : pyval) :
  printable_line line = true ->
  exists speaker text,
    py_getitem line "speaker" = Returned speaker /\
    py_getitem line "text" = Returned text.
Proof.
  unfold printable_line.
  destruct (py_getitem line "speaker") as [speaker |]; [| discriminate].
  destruct (py_getitem line "text") as [text |]; [| discriminate].
  eauto.
Qed.

Lemma format_lines_printable (lines : list pyval) :
  forall acc,
    Forall (fun l => printable_line l = true) lines ->
    format_lines lines acc = Returned (acc ++ str_concat (map line_text lines)).
Proof.
  induction lines as [| line rest IH]; intros acc Hok.
  - simpl. now rewrite str_app_empty_r.
  - apply Forall_cons in Hok as [Hline Hrest].
    destruct (printable_line_inv line Hline) as (speaker & text & Hs & Ht).
    cbn [format_lines]. rewrite Hs, Ht, (IH _ Hrest). f_equal.
    unfold str_concat. cbn [map]. unfold line_text at 2. rewrite Hs, Ht.
    assert (Hc : forall a l, String.concat "" (a :: l) = a ++ String.concat "" l).
    { intros a [| b l]; simpl; [now rewrite str_app_empty_r | reflexivity]. }
    rewrite Hc, !str_app_assoc. reflexivity.
Qed.

(** ** The audio stage when no line can be synthesized *)

Lemma synthesize_segments_all_fail E temp_dir lines :
  forall i acc w,
    Forall (fun l => printable_line l = true) lines ->
    (forall j line, lines !! j = Some line ->
                    speech_succeeds E (i + j, line) = false) ->
    exists w',
      synthesize_segments E temp_dir i lines acc w = (Returned acc, w') /\
      same_fs w w' /\ no_new_ffmpeg w w'.
Proof.
  induction lines as [| line rest IH]; intros i acc w Hok Hfail.
  - exists w. repeat split. apply no_new_ffmpeg_refl.
  - apply Forall_cons in Hok as [Hline Hrest].
    destruct (printable_line_inv line Hline) as (speaker & text & Hs & Ht).
    pose proof (Hfail 0 line eq_refl) as Hthis.
    rewrite Nat.add_0_r in Hthis. unfold speech_succeeds in Hthis.
    cbn [fst snd] in Hthis. rewrite Ht in Hthis.
    assert (Hstep : exists w1,
      synthesize_segments E temp_dir i (line :: rest) acc w =
        synthesize_segments E temp_dir (S i) rest acc w1 /\
      same_fs w w1 /\ no_new_ffmpeg w w1).
    { cbn [synthesize_segments].
      unfold bind, lift, try_except, call_speech, bind, log_call, lift,
        write_file, ret.
      rewrite Hs, Ht.
      destruct (py_getitem line "voice_id") as [voice | e1].
      - destruct (py_len text) as [n | e2].
        + destruct (elevenlabs_generate E i text voice "eleven_multilingual_v2")
            as [audio | e]; [discriminate Hthis |].
          eexists. split; [reflexivity |]. split; [split; reflexivity |].
          eexists [_]. split; reflexivity.
        + exists w. repeat split. apply no_new_ffmpeg_refl.
      - exists w. repeat split. apply no_new_ffmpeg_refl. }
    destruct Hstep as (w1 & -> & Hfs1 & Hff1).
    destruct (IH (S i) acc w1 Hrest) as (w' & Hrun & Hfs & Hff).
    { intros j l Hj. replace (S i + j) with (i + S j) by lia.
      now apply Hfail. }
    exists w'. split; [exact Hrun |].
    split; [eapply same_fs_trans; eassumption
           | eapply no_new_ffmpeg_trans; eassumption].
Qed.

Lemma generate_audio_all_fail E lines topic w :
  Forall (fun l => printable_line l = true) lines ->
  (forall j line, lines !! j = Some line ->
                  speech_succeeds E (j, line) = false) ->
  files w !! uploads_dir E = None ->
  files w !! temp_dir_of E = None ->
  exists w',
    _generate_audio E (PList lines) (PStr topic) w = (Returned "", w') /\
    files w' = files w /\ no_new_ffmpeg w w' /\
    temp_dir_of E ∈ dirs w'.
Proof.
  intros Hok Hfail Hup Htmp.
  unfold _generate_audio.
  unfold bind at 1. unfold lift at 1. cbn [as_str].
  unfold bind at 1. unfold os_makedirs at 1. rewrite Hup.
  unfold bind at 1. unfold os_makedirs at 1. cbn [files dirs calls].
  fold (temp_dir_of E). rewrite Htmp.
  unfold bind at 1. unfold lift at 1. cbn [py_len].
  unfold try_except. unfold bind at 1. unfold lift at 1. cbn [py_iter].
  unfold bind at 1.
  destruct (synthesize_segments_all_fail E (temp_dir_of E) lines 0 []
              (World ({[temp_dir_of E]} ∪ ({[uploads_dir E]} ∪ dirs w))
                     (files w) (calls w)) Hok Hfail)
    as (w' & Hrun & [Hdirs Hfiles] & Hff).
  rewrite Hrun. exists w'. split; [reflexivity |]. split; [exact Hfiles |].
  split; [exact Hff |]. rewrite Hdirs. cbn [dirs].
  apply elem_of_union_l, elem_of_singleton. reflexivity.
Qed.

(** C4. When the speech service fails for every line of the script,
    the loop returns the empty list of segments, [process] returns the
    audio-failure record, whose transcript holds every line of the
    dialogue in order and which has no ["audio_output"] entry, no file
    has been created, and the run has added no ffmpeg call to the log. *)
Theorem no_segments_gives_audio_failure :
  forall (E : env) (sources : list pydict) (context : pydict) (w : world)
         (content : string) (title : pyval) (w1 : world)
         (lines : list pyval) (w2 : world),
    content_and_title E sources context w = (Returned (content, title), w1) ->
    _generate_podcast_dialogue E content (topic_of context) w1
      = (Returned (PList lines), w2) ->
    Forall (fun l => printable_line l = true) lines ->
    (forall j line, lines !! j = Some line ->
                    speech_succeeds E (j, line) = false) ->
    files w !! uploads_dir E = None ->
    files w !! temp_dir_of E = None ->
    (forall w0,
        fst (synthesize_segments E (temp_dir_of E) 0 lines [] w0) = Returned []) /\
    exists (r : pyval) (w' : world),
      process E sources context w = (Returned r, w') /\
      r = PDict [("flow_type", PStr "podcast");
                 ("sources_found",
                  PStr ("# Podcast Transcript" ++ nl ++ nl
                        ++ str_concat (map line_text lines)));
                 ("error", PStr "Failed to generate audio");
                 ("dialogue_segments", PInt (Z.of_nat (List.length lines)));
                 ("metadata",
                  PDict [("format", PStr "mp3");
                         ("voices_used",
                          PList [PStr HOST_VOICE_ID; PStr GUEST_VOICE_ID]);
                         ("generated_at", PStr (now_isoformat E))])] /\
      record_field "audio_output" r = None /\
      files w' = files w /\
      (forall ev, ev ∈ calls w' -> is_ffmpeg_call ev = true -> ev ∈ calls w).
Proof.
  intros E sources context w content title w1 lines w2
         Hct Hdlg Hok Hfail Hup Htmp.
  split.
  { intros w0.
    destruct (synthesize_segments_all_fail E (temp_dir_of E) lines 0 [] w0
                Hok Hfail) as (w' & -> & _). reflexivity. }
  destruct (generate_dialogue_topic_str _ _ _ _ _ _ Hdlg) as [topic Htopic].
  pose proof (content_and_title_quiet E sources context w) as [[_ Hf1] Hq1].
  rewrite Hct in Hf1, Hq1. simpl in Hf1, Hq1.
  pose proof (generate_dialogue_quiet E content (topic_of context) w1)
    as [[_ Hf2] Hq2].
  rewrite Hdlg in Hf2, Hq2. simpl in Hf2, Hq2.
  destruct (generate_audio_all_fail E lines topic w2 Hok Hfail)
    as (w3 & Haudio & Hf3 & Hq3 & _).
  { now rewrite Hf2, Hf1. }
  { now rewrite Hf2, Hf1. }
  eexists _, w3. split; [| split; [reflexivity | split; [reflexivity |]]].
  - unfold process, try_except, process_try.
    rewrite (bind_returned _ _ _ _ _ Hct). cbn [fst].
    rewrite (bind_returned _ _ _ _ _ Hdlg).
    unfold bind at 1. unfold lift at 1. cbn [py_len].
    rewrite Htopic, (bind_returned _ _ _ _ _ Haudio). cbn [str_is_empty].
    unfold bind at 1. unfold lift at 1. unfold _format_dialogue_as_text.
    cbn [py_iter]. rewrite (format_lines_printable _ _ Hok).
    unfold bind at 1. unfold lift at 1. cbn [py_len].
    unfold ret, audio_failure_record. rewrite !str_app_assoc. reflexivity.
  - split; [congruence |].
    intros ev Hin Hff.
    eapply no_new_ffmpeg_elem; [| exact Hin | exact Hff].
    eapply no_new_ffmpeg_trans; [exact Hq1 |].
    eapply no_new_ffmpeg_trans; [exact Hq2 | exact Hq3].
Qed.

Lemma no_segments_gives_audio_failure_witness :
  (forall j line,
      fallback_lines "Climate change causes..." "climate change" !! j
        = Some line ->
      speech_succeeds
        (sample_env (chat_answers "not json at all") speech_down ffmpeg_ok)
        (j, line) = false) /\
  exists w',
    process (sample_env (chat_answers "not json at all") speech_down ffmpeg_ok)
            climate_sources climate_context empty_world
    = (Returned
         (PDict [("flow_type", PStr "podcast");
                 ("sources_found",
                  PStr ("# Podcast Transcript" ++ nl ++ nl
                        ++ str_concat
                             (map line_text
                                (fallback_lines "Climate change causes..."
                                                "climate change"))));
                 ("error", PStr "Failed to generate audio");
                 ("dialogue_segments", PInt 6);
                 ("metadata",
                  PDict [("format", PStr "mp3");
                         ("voices_used",
                          PList [PStr HOST_VOICE_ID; PStr GUEST_VOICE_ID]);
                         ("generated_at", PStr "2024-01-01T12:00:00")])]),
       w').
Proof.
  assert (Hfail : forall j line,
             fallback_lines "Climate change causes..." "climate change" !! j
               = Some line ->
             speech_succeeds
               (sample_env (chat_answers "not json at all") speech_down ffmpeg_ok)
               (j, line) = false).
  { intros j line Hj. unfold speech_succeeds. cbn [fst snd sample_env].
    destruct (py_getitem line "text"); [| reflexivity].
    destruct (py_getitem line "voice_id"); reflexivity. }
  split; [exact Hfail |].
  destruct (no_segments_gives_audio_failure
              (sample_env (chat_answers "not json at all") speech_down ffmpeg_ok)
              climate_sources climate_context empty_world
              "Climate change causes..." (PStr "Intro to Climate") empty_world
              (fallback_lines "Climate change causes..." "climate change")
              (World ∅ ∅
                 [ChatCall (dialogue_request "Climate change causes..."
                              "climate change")]))
    as (_ & r & w' & Hrun & -> & _).
  - reflexivity.
  - reflexivity.
  - repeat constructor.
  - exact Hfail.
  - reflexivity.
  - reflexivity.
  - exists w'. exact Hrun.
Defined.

(** ** Temporary files after the audio stage *)

Lemma path_join_neq (a b : string) : path_join a b <> a.
Proof.
  unfold path_join. intros H. apply (f_equal String.length) in H.
  rewrite !str_length_app in H. simpl in H. lia.
Qed.

Lemma path_join_neq_parent (a b c : string) :
  path_join (path_join a b) c <> a.
Proof.
  unfold path_join. intros H. apply (f_equal String.length) in H.
  rewrite !str_length_app in H. simpl in H. lia.
Qed.

(** The failure path of lines 327-331 in general: when ffmpeg exits
    with an error, the stage returns the empty path and the temporary
    directory, the manifest and every segment file are still there. *)
Lemma muxing_failure_leaves_temp_files E lines topic w :
  Forall (fun l => dialogue_line_ok l = true) lines ->
  List.filter (speech_succeeds E) (enumerate_from 0 lines) <> [] ->
  (forall cmd w0, exists err partial,
      ffmpeg_run E cmd w0 = ProcNonZero err partial) ->
  files w !! uploads_dir E = None ->
  files w !! temp_dir_of E = None ->
  (forall name, path_join (temp_dir_of E) name ∉ dirs w) ->
  exists w',
    _generate_audio E (PList lines) (PStr topic) w = (Returned "", w') /\
    temp_dir_of E ∈ dirs w' /\
    is_Some (files w' !! path_join (temp_dir_of E) "file_list.txt") /\
    (forall il, il ∈ List.filter (speech_succeeds E) (enumerate_from 0 lines) ->
                is_Some (files w' !! path_join (temp_dir_of E)
                                              (segment_name (fst il)))).
Proof.
  intros Hok Hsome Hmux Hup Htmp Hfree.
  unfold _generate_audio.
  unfold bind at 1. unfold lift at 1. cbn [as_str].
  unfold bind at 1. unfold os_makedirs at 1. rewrite Hup.
  unfold bind at 1. unfold os_makedirs at 1. cbn [files dirs calls].
  fold (temp_dir_of E). rewrite Htmp.
  unfold bind at 1. unfold lift at 1. cbn [py_len].
  unfold try_except at 1. unfold bind at 1. unfold lift at 1. cbn [py_iter].
  unfold bind at 1.
  set (w0 := World ({[temp_dir_of E]} ∪ ({[uploads_dir E]} ∪ dirs w))
                   (files w) (calls w)).
  assert (Hfree0 : forall name, path_join (temp_dir_of E) name ∉ dirs w0).
  { intros name. unfold w0. cbn [dirs].
    rewrite !elem_of_union, !elem_of_singleton.
    intros [Heq | [Heq | Hin]].
    - now apply path_join_neq in Heq.
    - unfold temp_dir_of in Heq. now apply path_join_neq_parent in Heq.
    - now apply Hfree in Hin. }
  destruct (synthesize_segments_spec E (temp_dir_of E) lines 0 [] w0 Hok)
    as (w1 & Hrun & Hd1 & _ & _ & Hsegs).
  { intros j. apply Hfree0. }
  { intros p Hp. now apply elem_of_nil in Hp. }
  rewrite Hrun. rewrite app_nil_l in Hsegs |- *.
  destruct (List.filter (speech_succeeds E) (enumerate_from 0 lines))
    as [| il0 ils] eqn:Hfilter; [contradiction |].
  cbn [map].
  unfold bind at 1. unfold write_file at 1.
  destruct (decide (path_join (temp_dir_of E) "file_list.txt" ∈ dirs w1))
    as [Hin | _]; [rewrite Hd1 in Hin; now apply Hfree0 in Hin |].
  unfold try_except_class, try_except. unfold bind at 1.
  unfold run_ffmpeg at 1. unfold bind at 1. unfold log_call at 1.
  cbn [dirs files calls].
  match goal with
  | |- context [ffmpeg_run E ?cmd ?wx] =>
      destruct (Hmux cmd wx) as (err & partial & ->)
  end.
  cbn [exn_class exn_kind_eqb]. unfold ret.
  eexists. split; [reflexivity |].
  assert (Hsegs' : forall il,
             il ∈ il0 :: ils ->
             is_Some (files w1 !! path_join (temp_dir_of E)
                                            (segment_name (fst il)))).
  { intros il Hil. apply Hsegs. apply list_elem_of_In.
    apply (in_map (fun il => path_join (temp_dir_of E) (segment_name (fst il)))).
    now apply list_elem_of_In. }
  destruct partial as [data |]; cbn [dirs files]; (split; [| split]).
  - rewrite Hd1. unfold w0. cbn [dirs].
    apply elem_of_union_l, elem_of_singleton. reflexivity.
  - apply lookup_insert_is_Some'. right. rewrite lookup_insert_eq. eauto.
  - intros il Hil.
    do 2 (apply lookup_insert_is_Some'; right). now apply Hsegs'.
  - rewrite Hd1. unfold w0. cbn [dirs].
    apply elem_of_union_l, elem_of_singleton. reflexivity.
  - rewrite lookup_insert_eq. eauto.
  - intros il Hil.
    apply lookup_insert_is_Some'. right. now apply Hsegs'.
Qed.

Ltac by_compute :=
  match goal with
  | |- _ = _ => vm_compute; reflexivity
  | |- _ => refine (bool_decide_unpack _ _); vm_compute; exact I
  end.

(** C3, evaluated.  When ffmpeg exits with an error the stage returns
    the empty path and leaves the six segment files, the manifest and
    the temporary directory behind; when no segment was synthesized it
    leaves the temporary directory behind.  Only the run in which ffmpeg
    succeeds removes them. *)
Theorem temp_files_left_after_failure :
  (fst (run_audio_stage speech_ok ffmpeg_fails) = Returned "" /\
   (sample_temp_dir ∈ dirs (snd (run_audio_stage speech_ok ffmpeg_fails))) /\
   files (snd (run_audio_stage speech_ok ffmpeg_fails))
     !! (sample_temp_dir ++ "/file_list.txt")
   = Some (FText (manifest_text
                    (map (fun i => sample_temp_dir ++ "/" ++ segment_name i)
                         (seq 0 6)))) /\
   List.length (entries_under sample_temp_dir
                  (snd (run_audio_stage speech_ok ffmpeg_fails))) = 7) /\
  (fst (run_audio_stage speech_down ffmpeg_ok) = Returned "" /\
   (sample_temp_dir ∈ dirs (snd (run_audio_stage speech_down ffmpeg_ok)))) /\
  (fst (run_audio_stage speech_ok ffmpeg_ok)
   = Returned "/srv/uploads/podcast_climate_change_20240101_120000.mp3" /\
   (sample_temp_dir ∉ dirs (snd (run_audio_stage speech_ok ffmpeg_ok))) /\
   entries_under sample_temp_dir (snd (run_audio_stage speech_ok ffmpeg_ok)) = []).
Proof.
  split; [| split].
  - split; [by_compute |]. split; [by_compute |]. split; by_compute.
  - split; by_compute.
  - split; [by_compute |]. split; by_compute.
Qed.

(** ** The content and the title *)

Lemma str_concat_cons (a : string) (l : list string) :
  str_concat (a :: l) = a ++ str_concat l.
Proof.
  unfold str_concat. destruct l as [| b l]; simpl;
    [now rewrite str_app_empty_r | reflexivity].
Qed.

Lemma collect_sources_spec (sources : list pydict) :
  forall content title,
    Forall (fun s => has_str_content s = true) sources ->
    (py_truthy title = false -> title = PNone) ->
    collect_sources sources content title =
      Returned (content ++ str_concat (map content_text sources),
                if py_truthy title then title else first_source_title sources).
Proof.
  induction sources as [| source rest IH]; intros content title Hok Hnone.
  - simpl. rewrite str_app_empty_r.
    destruct (py_truthy title); [reflexivity | now rewrite Hnone].
  - apply Forall_cons in Hok as [Hsrc Hrest].
    unfold has_str_content in Hsrc.
    cbn [collect_sources map]. unfold content_text at 1.
    destruct (dict_get_default source "content" (PStr "")) as [| | | | s | |];
      try discriminate.
    cbn [py_len]. unfold first_source_title. cbn [List.find].
    destruct (py_truthy title) eqn:Ht; cbn [negb andb].
    + rewrite (IH _ _ Hrest) by congruence.
      now rewrite Ht, str_concat_cons, str_app_assoc.
    + destruct (py_truthy (dict_get source "title")) eqn:Hs.
      * rewrite (IH _ _ Hrest) by congruence.
        now rewrite Hs, str_concat_cons, str_app_assoc.
      * rewrite (IH _ _ Hrest) by (intros _; now apply Hnone).
        now rewrite Ht, str_concat_cons, str_app_assoc.
Qed.

Lemma scan_title_lines_some (lines : list string) (line : string) :
  scan_title_lines lines = Some line ->
  exists k raw,
    lines !! k = Some raw /\ line = str_strip raw /\
    title_candidate line = true /\
    forall j raw', j < k -> lines !! j = Some raw' ->
                   title_candidate (str_strip raw') = false.
Proof.
  induction lines as [| l rest IH]; [discriminate |].
  cbn [scan_title_lines].
  destruct (title_candidate (str_strip l)) eqn:Hc.
  - intros [= <-]. exists 0, l. repeat split; auto. intros j raw' Hj. lia.
  - intros (k & raw & Hk & Hl & Hcand & Hbefore)%IH.
    exists (S k), raw. repeat split; auto.
    intros [| j] raw' Hj Hlook.
    + simpl in Hlook. injection Hlook as <-. exact Hc.
    + simpl in Hlook. apply (Hbefore j); [lia | exact Hlook].
Qed.

Lemma scan_title_lines_none (lines : list string) :
  scan_title_lines lines = None ->
  forall j raw, lines !! j = Some raw ->
                title_candidate (str_strip raw) = false.
Proof.
  induction lines as [| l rest IH]; intros Hscan j raw Hlook.
  - rewrite lookup_nil in Hlook. discriminate.
  - cbn [scan_title_lines] in Hscan.
    destruct (title_candidate (str_strip l)) eqn:Hc; [discriminate |].
    destruct j as [| j]; simpl in Hlook.
    + injection Hlook as <-. exact Hc.
    + now apply (IH Hscan j).
Qed.

Lemma first_five (lines : list string) :
  firstn (Nat.min 5 (List.length lines)) lines = take 5 lines.
Proof.
  destruct (Nat.le_ge_cases 5 (List.length lines)) as [H | H].
  - now rewrite Nat.min_l.
  - rewrite Nat.min_r by exact H. rewrite firstn_all.
    symmetry. now apply take_ge.
Qed.

Lemma title_candidate_spec (line : string) :
  title_candidate line = true <->
  3 < String.length line < 100 /\
  str_endswith_any ["."; ":"; ";"; ","; "?"; "!"]%char line = false.
Proof.
  unfold title_candidate.
  rewrite !andb_true_iff, negb_true_iff, !Nat.ltb_lt. tauto.
Qed.

Lemma title_from_first_lines_some (content line : string) :
  title_from_first_lines content = Some line ->
  exists k raw,
    k < 5 /\ str_split "010" content !! k = Some raw /\
    line = str_strip raw /\
    3 < String.length line < 100 /\
    str_endswith_any ["."; ":"; ";"; ","; "?"; "!"]%char line = false /\
    forall j raw', j < k -> str_split "010" content !! j = Some raw' ->
                   title_candidate (str_strip raw') = false.
Proof.
  unfold title_from_first_lines. rewrite first_five.
  intros (k & raw & Hk & Hl & Hc & Hbefore)%scan_title_lines_some.
  apply lookup_take_Some in Hk as [Hk Hlt].
  apply title_candidate_spec in Hc as [Hlen Hend].
  exists k, raw. repeat split; auto; try lia.
  intros j raw' Hj Hlook. apply (Hbefore j raw' Hj).
  apply lookup_take_Some. split; [exact Hlook | lia].
Qed.

Lemma title_from_first_lines_none (content : string) :
  title_from_first_lines content = None ->
  forall j raw, j < 5 -> str_split "010" content !! j = Some raw ->
                title_candidate (str_strip raw) = false.
Proof.
  unfold title_from_first_lines. rewrite first_five.
  intros Hscan j raw Hj Hlook.
  apply (scan_title_lines_none _ Hscan j).
  apply lookup_take_Some. split; [exact Hlook | exact Hj].
Qed.

Lemma title_from_first_lines_truthy (content line : string) :
  title_from_first_lines content = Some line -> py_truthy (PStr line) = true.
Proof.
  intros (k & raw & _ & _ & _ & Hlen & _)%title_from_first_lines_some.
  destruct line; [simpl in Hlen; lia | reflexivity].
Qed.

Lemma extract_title_spec E content w :
  _extract_title_from_content E content w =
    match title_from_first_lines content with
    | Some line => (Returned (PStr line), w)
    | None =>
        (Returned
           match chat_create E (title_request content) with
           | Returned (Some text) => PStr (str_strip text)
           | Returned None | Raised _ => PNone
           end,
         World (dirs w) (files w)
               (calls w ++ [ChatCall (title_request content)]))
    end.
Proof.
  unfold _extract_title_from_content.
  destruct (title_from_first_lines content); [reflexivity |].
  unfold try_except, bind, call_chat, bind, log_call, lift, ret, raise.
  destruct (chat_create E (title_request content)) as [[text |] | e];
    reflexivity.
Qed.

(** C8. For sources whose contents are strings, the content is their
    concatenation in input order and the title is resolved by the chain:
    (a) the title of the first source whose title is non-empty, and then
    no model call is made; else (b) the first of the first five lines of
    the content whose trimmed text has more than 3 and fewer than 100
    characters and does not end in one of [. : ; , ? !], again without a
    model call; else (c) one model call whose request carries the first
    1000 characters of the content, and the trimmed answer when it is
    not empty; else (d) the topic of the context: this is the case when
    the call raises, when the answer has no text, and when the trimmed
    answer is empty.  The step returns in every case. *)
Theorem title_resolution_chain :
  forall (E : env) (sources : list pydict) (context : pydict) (w : world),
    Forall (fun s => has_str_content s = true) sources ->
    exists (title : pyval) (w' : world),
      content_and_title E sources context w
        = (Returned (concat_contents sources, title), w') /\
      (py_truthy (first_source_title sources) = true ->
       title = first_source_title sources /\ w' = w) /\
      (py_truthy (first_source_title sources) = false ->
       forall line,
         title_from_first_lines (concat_contents sources) = Some line ->
         title = PStr line /\ w' = w) /\
      (py_truthy (first_source_title sources) = false ->
       title_from_first_lines (concat_contents sources) = None ->
       calls w' = (calls w ++ [ChatCall (title_request (concat_contents sources))])%list /\
       title =
         match chat_create E (title_request (concat_contents sources)) with
         | Returned (Some text) =>
             if str_is_empty (str_strip text) then topic_of context
             else PStr (str_strip text)
         | Returned None | Raised _ => topic_of context
         end) /\
      (forall content,
          cr_messages (title_request content) =
            [("system", "You are a helpful assistant.");
             ("user",
              "Extract the title or main topic from this text. Respond with ONLY the title, nothing else:"
              ++ nl ++ nl ++ str_take 1000 content)]) /\
      (forall line,
          title_from_first_lines (concat_contents sources) = Some line ->
          exists k raw,
            k < 5 /\
            str_split "010" (concat_contents sources) !! k = Some raw /\
            line = str_strip raw /\
            3 < String.length line < 100 /\
            str_endswith_any ["."; ":"; ";"; ","; "?"; "!"]%char line = false /\
            forall j raw',
              j < k ->
              str_split "010" (concat_contents sources) !! j = Some raw' ->
              title_candidate (str_strip raw') = false) /\
      (title_from_first_lines (concat_contents sources) = None ->
       forall j raw,
         j < 5 ->
         str_split "010" (concat_contents sources) !! j = Some raw ->
         ~ (3 < String.length (str_strip raw) < 100 /\
            str_endswith_any ["."; ":"; ";"; ","; "?"; "!"]%char
                             (str_strip raw) = false)).
Proof.
  intros E sources context w Hok.
  assert (Hrun :
    content_and_title E sources context w =
      if py_truthy (first_source_title sources)
      then (Returned (concat_contents sources, first_source_title sources), w)
      else
        let r := _extract_title_from_content E (concat_contents sources) w in
        match fst r with
        | Returned t =>
            (Returned (concat_contents sources,
                       if py_truthy t then t else topic_of context), snd r)
        | Raised e => (Raised e, snd r)
        end).
  { unfold content_and_title. unfold bind at 1. unfold lift at 1.
    rewrite (collect_sources_spec sources "" PNone Hok) by reflexivity.
    cbn [py_truthy fst snd]. rewrite str_app_nil. fold (concat_contents sources).
    destruct (py_truthy (first_source_title sources)) eqn:Ht; cbn [negb].
    - unfold bind, ret. now rewrite Ht.
    - unfold bind.
      destruct (_extract_title_from_content E (concat_contents sources) w)
        as [[t | e] w1]; cbn [fst snd]; [| reflexivity].
      unfold ret. now destruct (py_truthy t). }
  rewrite Hrun, extract_title_spec.
  destruct (py_truthy (first_source_title sources)) eqn:Ht.
  - eexists _, w. split; [reflexivity |].
    split; [auto |]. split; [discriminate |]. split; [discriminate |].
    split; [reflexivity |].
    split; [apply title_from_first_lines_some |].
    intros Hnone j raw Hj Hlook Hc.
    apply title_candidate_spec in Hc.
    now rewrite (title_from_first_lines_none _ Hnone j raw Hj Hlook) in Hc.
  - destruct (title_from_first_lines (concat_contents sources)) as [line |] eqn:Hl.
    + cbn [fst snd]. rewrite (title_from_first_lines_truthy _ _ Hl).
      eexists _, w. split; [reflexivity |].
      split; [discriminate |].
      split; [intros _ line' [= <-]; auto |]. split; [discriminate |].
      split; [reflexivity |].
      split; [intros line' [= <-]; now apply title_from_first_lines_some |].
      discriminate.
    + cbn [fst snd]. eexists _, _. split; [reflexivity |].
      split; [discriminate |]. split; [discriminate |].
      split.
      { intros _ _. split; [reflexivity |].
        destruct (chat_create E (title_request (concat_contents sources)))
          as [[text |] | e]; cbn [py_truthy]; try reflexivity.
        now destruct (str_is_empty (str_strip text)). }
      split; [reflexivity |]. split; [discriminate |].
      intros _ j raw Hj Hlook Hc.
      apply title_candidate_spec in Hc.
      now rewrite (title_from_first_lines_none _ Hl j raw Hj Hlook) in Hc.
Qed.

Lemma title_resolution_chain_witness :
  Forall (fun s => has_str_content s = true) climate_sources /\
  exists w',
    content_and_title (sample_env chat_down speech_ok ffmpeg_ok)
                      climate_sources climate_context empty_world
    = (Returned ("Climate change causes...", PStr "Intro to Climate"), w').
Proof.
  assert (Hok : Forall (fun s => has_str_content s = true) climate_sources)
    by (repeat constructor).
  split; [exact Hok |].
  destruct (title_resolution_chain (sample_env chat_down speech_ok ffmpeg_ok)
              climate_sources climate_context empty_world Hok)
    as (title & w' & Hrun & Ha & _).
  exists w'. rewrite Hrun. destruct (Ha eq_refl) as [-> _]. reflexivity.
Defined.

(** ** The transcript in the failure records *)

Lemma generate_dialogue_sized E content topic w dialogue w' :
  _generate_podcast_dialogue E content topic w = (Returned dialogue, w') ->
  exists n, py_len dialogue = Returned n.
Proof.
  intros Hrun.
  destruct (generate_dialogue_topic_str _ _ _ _ _ _ Hrun) as [t ->].
  destruct (chat_create E (dialogue_request content (clean_topic_of t)))
    as [response | e] eqn:Hchat.
  - rewrite (generate_dialogue_answered _ _ _ _ _ Hchat) in Hrun.
    injection Hrun as <- _. apply dialogue_of_response_sized.
  - pose proof (generate_dialogue_chat_raises E content t w e Hchat) as Hr.
    rewrite Hrun in Hr. discriminate Hr.
Qed.

(** C9, as the code has it.  The record returned after a failed audio
    stage carries the transcript of the whole dialogue; the record built
    by the [except] clause of [process] carries the fixed text
    ["Failed to generate podcast"] in its place, with the message of
    the exception under ["error"]. *)
Theorem failure_records_and_transcript :
  forall (E : env) (sources : list pydict) (context : pydict) (w : world),
    (forall e w1,
        process_try E sources context w = (Raised e, w1) ->
        exists r,
          process E sources context w = (Returned r, w1) /\
          record_field "sources_found" r
            = Some (PStr "Failed to generate podcast") /\
          record_field "error" r
            = Some (PStr ("Error in podcast generation: " ++ exn_str e))) /\
    (forall ct w1 dialogue w2 w3 transcript,
        content_and_title E sources context w = (Returned ct, w1) ->
        _generate_podcast_dialogue E (fst ct) (topic_of context) w1
          = (Returned dialogue, w2) ->
        _generate_audio E dialogue (topic_of context) w2 = (Returned "", w3) ->
        _format_dialogue_as_text dialogue = Returned transcript ->
        exists r,
          process E sources context w = (Returned r, w3) /\
          record_field "sources_found" r = Some (PStr transcript) /\
          record_field "error" r = Some (PStr "Failed to generate audio")).
Proof.
  intros E sources context w. split.
  - intros e w1 Hbody. exists (exception_record E e).
    unfold process, try_except. rewrite Hbody. repeat split.
  - intros ct w1 dialogue w2 w3 transcript Hct Hdlg Haudio Hfmt.
    destruct (generate_dialogue_sized _ _ _ _ _ _ Hdlg) as [n Hn].
    exists (audio_failure_record E transcript n).
    split; [| split; reflexivity].
    unfold process, try_except, process_try.
    rewrite (bind_returned _ _ _ _ _ Hct), (bind_returned _ _ _ _ _ Hdlg).
    unfold bind at 1. unfold lift at 1. rewrite Hn.
    rewrite (bind_returned _ _ _ _ _ Haudio). cbn [str_is_empty].
    unfold bind at 1. unfold lift at 1. rewrite Hfmt.
    unfold bind at 1. unfold lift at 1. reflexivity.
Qed.

Lemma failure_records_and_transcript_witness :
  exists r w',
    process (sample_env chat_down speech_ok ffmpeg_ok)
            climate_sources climate_context empty_world = (Returned r, w') /\
    record_field "sources_found" r = Some (PStr "Failed to generate podcast") /\
    record_field "error" r
      = Some (PStr "Error in podcast generation: Connection error.").
Proof.
  destruct (failure_records_and_transcript
              (sample_env chat_down speech_ok ffmpeg_ok)
              climate_sources climate_context empty_world) as [Hexc _].
  destruct (Hexc (Exn ServiceError "Connection error.")
                 (World ∅ ∅
                    [ChatCall (dialogue_request "Climate change causes..."
                                 "climate change")])
                 eq_refl) as (r & Hrun & Hfound & Herr).
  eexists r, _. split; [exact Hrun |]. split; [exact Hfound | exact Herr].
Defined.

(** C9 as stated fails on the code.  With a chat answer whose second
    line lacks its text, and with the complete fallback script when a
    regular file occupies the uploads path, a dialogue has been produced
    and [process] returns the record of its [except] clause, whose
    ["sources_found"] is the fixed text and not a transcript. *)
Lemma exception_record_drops_transcript :
  (fst (_generate_podcast_dialogue
          (sample_env (chat_answers missing_keys_answer) speech_ok ffmpeg_ok)
          "Climate change causes..." (PStr "climate change") empty_world)
     = Returned (PList [dialogue_line "Host" "Hello" HOST_VOICE_ID;
                        PDict [("speaker", PStr "Guest")]]) /\
   fst (process
          (sample_env (chat_answers missing_keys_answer) speech_ok ffmpeg_ok)
          climate_sources climate_context empty_world)
     = Returned
         (PDict [("flow_type", PStr "podcast");
                 ("error", PStr "Error in podcast generation: 'text'");
                 ("sources_found", PStr "Failed to generate podcast");
                 ("metadata",
                  PDict [("error_details",
                          PStr "Traceback (most recent call last): 'text'");
                         ("generated_at", PStr "2024-01-01T12:00:00")])])) /\
  (fst (_generate_podcast_dialogue
          (sample_env (chat_answers "not json at all") speech_ok ffmpeg_ok)
          "Climate change causes..." (PStr "climate change") blocked_world)
     = Returned (fallback_dialogue "Climate change causes..." "climate change") /\
   _format_dialogue_as_text
     (fallback_dialogue "Climate change causes..." "climate change")
     = Returned ("# Podcast Transcript" ++ nl ++ nl
                 ++ str_concat
                      (map line_text
                           (fallback_lines "Climate change causes..."
                                           "climate change"))) /\
   fst (process
          (sample_env (chat_answers "not json at all") speech_ok ffmpeg_ok)
          climate_sources climate_context blocked_world)
     = Returned
         (PDict [("flow_type", PStr "podcast");
                 ("error",
                  PStr "Error in podcast generation: [Errno 17] File exists: '/srv/uploads'");
                 ("sources_found", PStr "Failed to generate podcast");
                 ("metadata",
                  PDict [("error_details",
                          PStr "Traceback (most recent call last): [Errno 17] File exists: '/srv/uploads'");
                         ("generated_at", PStr "2024-01-01T12:00:00")])])).
Proof.
  split; [split | split; [| split]]; vm_compute; reflexivity.
Qed.

(** ** Segment names *)

Lemma list_ascii_app (a b : string) :
  list_ascii_of_string (a ++ b)
  = (list_ascii_of_string a ++ list_ascii_of_string b)%list.
Proof.
  induction a as [| c a IH]; [reflexivity |].
  rewrite str_app_cons. simpl. now rewrite IH.
Qed.

Lemma digits_of_uint_acc (d : Decimal.uint) :
  forall a : nat,
    fold_left (fun acc c => 10 * acc + digit_value c)%Z
              (list_ascii_of_string (NilEmpty.string_of_uint d)) (Z.of_nat a)
    = Z.of_nat (Nat.of_uint_acc d a).
Proof.
  induction d; intros a; simpl; [reflexivity | ..];
    rewrite <- IHd, Nat.tail_mul_spec; f_equal;
    match goal with
    | |- context [digit_value ?c] =>
        let v := eval vm_compute in (digit_value c) in
        change (digit_value c) with v
    end; lia.
Qed.

Lemma digits_of_str_of_nat (n : nat) : digits_to_Z (str_of_nat n) = Z.of_nat n.
Proof.
  unfold digits_to_Z, str_of_nat.
  rewrite <- (Unsigned.of_to n) at 2. unfold Nat.of_uint.
  rewrite <- digits_of_uint_acc.
  destruct (Nat.to_uint n) eqn:Hd; try reflexivity.
Qed.

Lemma digits_skip_zeros (k : nat) (d : string) :
  digits_to_Z (str_repeat "0" k ++ d) = digits_to_Z d.
Proof.
  unfold digits_to_Z. rewrite list_ascii_app, fold_left_app. f_equal.
  induction k as [| k IH]; [reflexivity | exact IH].
Qed.

Lemma str_app_inv_suffix (a b s : string) : a ++ s = b ++ s -> a = b.
Proof.
  intros H.
  assert (Hlen : String.length a = String.length b).
  { apply (f_equal String.length) in H. rewrite !str_length_app in H. lia. }
  revert b H Hlen. induction a as [| x a IH]; intros [| y b] H Hlen;
    try discriminate; [reflexivity |].
  rewrite !str_app_cons in H. injection H as -> H. f_equal.
  apply IH; [exact H | simpl in Hlen; lia].
Qed.

Lemma format_03d_reads_back (n : nat) :
  digits_to_Z (format_03d n) = Z.of_nat n.
Proof.
  unfold format_03d. cbv zeta.
  now rewrite digits_skip_zeros, digits_of_str_of_nat.
Qed.

Lemma segment_name_inj (i j : nat) : segment_name i = segment_name j -> i = j.
Proof.
  unfold segment_name. intros H. apply String.app_inj in H.
  apply str_app_inv_suffix in H.
  apply (f_equal digits_to_Z) in H. rewrite !format_03d_reads_back in H. lia.
Qed.

Lemma segment_path_inj (temp_dir : string) (i j : nat) :
  path_join temp_dir (segment_name i) = path_join temp_dir (segment_name j) ->
  i = j.
Proof.
  unfold path_join. intros H.
  apply String.app_inj in H. apply String.app_inj in H.
  now apply segment_name_inj.
Qed.

(** X1. The three-digit format is faithful for every position, not only
    below 1000: the digits read back as the position, the text has at
    least three characters, and two lines of a script never share a
    segment file. *)
Theorem segment_names_are_distinct :
  forall (i j : nat) (temp_dir : string),
    digits_to_Z (format_03d i) = Z.of_nat i /\
    3 <= String.length (format_03d i) /\
    (segment_name i = segment_name j -> i = j) /\
    (path_join temp_dir (segment_name i) = path_join temp_dir (segment_name j)
     -> i = j).
Proof.
  intros i j temp_dir.
  split; [apply format_03d_reads_back |]. split.
  - unfold format_03d. cbv zeta. rewrite str_length_app.
    assert (Hrep : forall k, String.length (str_repeat "0" k) = k).
    { induction k as [| k IH]; simpl; [reflexivity | now rewrite IH]. }
    rewrite Hrep. lia.
  - split; [apply segment_name_inj | apply segment_path_inj].
Qed.

(** ** The synthesis loop, file by file *)

Lemma synthesize_segments_step_exact E temp_dir i line rest acc w :
  dialogue_line_ok line = true ->
  path_join temp_dir (segment_name i) ∉ dirs w ->
  exists files1,
    synthesize_segments E temp_dir i (line :: rest) acc w =
      synthesize_segments E temp_dir (S i) rest
        (acc ++ (if speech_succeeds E (i, line)
                 then [path_join temp_dir (segment_name i)] else []))%list
        (World (dirs w) files1 (calls w ++ [speech_call_of line])) /\
    (if speech_succeeds E (i, line)
     then exists audio,
         files1 = <[path_join temp_dir (segment_name i) := FBytes audio]> (files w)
     else files1 = files w).
Proof.
  intros (speaker & text & voice & Hs & Ht & Hv)%dialogue_line_ok_inv Hdir.
  unfold speech_succeeds, speech_call_of. cbn [fst snd synthesize_segments].
  unfold bind, lift, try_except, call_speech, bind, log_call, lift, write_file, ret.
  rewrite Hs, Ht, Hv. cbn [py_len dirs files calls].
  destruct (elevenlabs_generate E i (PStr text) voice "eleven_multilingual_v2")
    as [audio | e].
  - destruct (decide (path_join temp_dir (segment_name i) ∈ dirs w))
      as [Hin | _]; [contradiction |].
    eexists. split; [reflexivity |]. eauto.
  - rewrite app_nil_r. eexists. split; reflexivity.
Qed.

Lemma kept_segments_cons E temp_dir i line rest :
  kept_segments E temp_dir i (line :: rest) =
    ((if speech_succeeds E (i, line)
      then [path_join temp_dir (segment_name i)] else [])
     ++ kept_segments E temp_dir (S i) rest)%list.
Proof.
  unfold kept_segments. rewrite enumerate_from_cons. cbn [List.filter].
  now destruct (speech_succeeds E (i, line)).
Qed.

Lemma synthesize_segments_exact E temp_dir lines :
  forall i acc w,
    Forall (fun l => dialogue_line_ok l = true) lines ->
    (forall j, path_join temp_dir (segment_name j) ∉ dirs w) ->
    exists files',
      synthesize_segments E temp_dir i lines acc w =
        (Returned (acc ++ kept_segments E temp_dir i lines)%list,
         World (dirs w) files' (calls w ++ map speech_call_of lines)) /\
      (forall p, p ∉ kept_segments E temp_dir i lines ->
                 files' !! p = files w !! p) /\
      (forall p, p ∈ kept_segments E temp_dir i lines -> is_Some (files' !! p)).
Proof.
  induction lines as [| line rest IH]; intros i acc w Hok Hdirs.
  - exists (files w). cbn [synthesize_segments map]. unfold ret.
    rewrite !app_nil_r. destruct w. split; [reflexivity |].
    split; [reflexivity |]. intros p Hp. now apply elem_of_nil in Hp.
  - apply Forall_cons in Hok as [Hline Hrest].
    destruct (synthesize_segments_step_exact E temp_dir i line rest acc w
                Hline (Hdirs i)) as (files1 & Hstep & Hfiles1).
    destruct (IH (S i)
                 (acc ++ (if speech_succeeds E (i, line)
                          then [path_join temp_dir (segment_name i)] else []))%list
                 (World (dirs w) files1 (calls w ++ [speech_call_of line]))
                 Hrest Hdirs) as (files' & Hrun & Hout & Hin).
    exists files'. rewrite Hstep, Hrun, kept_segments_cons. cbn [dirs files calls map].
    rewrite <- !app_assoc. split; [reflexivity |].
    cbn [files] in Hout. split.
    + intros p Hp. rewrite elem_of_app in Hp.
      rewrite Hout by tauto.
      destruct (speech_succeeds E (i, line)); [| now rewrite Hfiles1].
      destruct Hfiles1 as [audio ->]. apply lookup_insert_ne.
      intros <-. apply Hp. left. apply list_elem_of_singleton. reflexivity.
    + intros p Hp.
      destruct (decide (p ∈ kept_segments E temp_dir (S i) rest)) as [Hk | Hk];
        [now apply Hin |].
      rewrite Hout by exact Hk.
      apply elem_of_app in Hp as [Hp | Hp]; [| contradiction].
      destruct (speech_succeeds E (i, line)); [| now apply elem_of_nil in Hp].
      apply list_elem_of_singleton in Hp as ->.
      destruct Hfiles1 as [audio ->]. rewrite lookup_insert_eq. eauto.
Qed.

Lemma kept_segments_from E temp_dir lines :
  forall i p, p ∈ kept_segments E temp_dir i lines ->
              exists j, i <= j /\ p = path_join temp_dir (segment_name j).
Proof.
  induction lines as [| line rest IH]; intros i p Hp.
  - now apply elem_of_nil in Hp.
  - rewrite kept_segments_cons in Hp. apply elem_of_app in Hp as [Hp | Hp].
    + destruct (speech_succeeds E (i, line)); [| now apply elem_of_nil in Hp].
      apply list_elem_of_singleton in Hp as ->. exists i. auto.
    + destruct (IH (S i) p Hp) as (j & Hj & ->). exists j. split; [lia | auto].
Qed.

Lemma kept_segments_NoDup E temp_dir lines :
  forall i, NoDup (kept_segments E temp_dir i lines).
Proof.
  induction lines as [| line rest IH]; intros i.
  - apply NoDup_nil_2.
  - rewrite kept_segments_cons.
    destruct (speech_succeeds E (i, line)); [| apply IH].
    apply NoDup_cons. split; [| apply IH].
    intros (j & Hj & Heq)%kept_segments_from.
    apply segment_path_inj in Heq. lia.
Qed.

(** ** Paths under the temporary directory *)

Lemma prefix_app_same (a x y : string) :
  String.prefix (a ++ x) (a ++ y) = String.prefix x y.
Proof.
  induction a as [| c a IH]; [reflexivity |].
  rewrite !str_app_cons. simpl. destruct (ascii_dec c c); [exact IH | congruence].
Qed.

Lemma prefix_app_r (a b : string) : String.prefix a (a ++ b) = true.
Proof.
  rewrite <- (str_app_empty_r a) at 1. rewrite prefix_app_same.
  now destruct b.
Qed.

Lemma prefix_length (a b : string) :
  String.prefix a b = true -> String.length a <= String.length b.
Proof.
  revert b. induction a as [| c a IH]; intros b H; [simpl; lia |].
  destruct b as [| d b]; [discriminate H |]. simpl in H.
  destruct (ascii_dec c d); [| discriminate].
  simpl. apply IH in H. lia.
Qed.

Lemma under_path_join (dir name : string) : under dir (path_join dir name) = true.
Proof.
  unfold under, path_join. rewrite <- str_app_assoc. apply prefix_app_r.
Qed.

Lemma under_self (dir : string) : under dir dir = false.
Proof.
  unfold under. destruct (String.prefix (dir ++ "/") dir) eqn:H; [| reflexivity].
  apply prefix_length in H. rewrite str_length_app in H. simpl in H. lia.
Qed.

Lemma under_parent (a b : string) : under (path_join a b) a = false.
Proof.
  unfold under, path_join.
  destruct (String.prefix ((a ++ "/" ++ b) ++ "/") a) eqn:H; [| reflexivity].
  apply prefix_length in H. rewrite !str_length_app in H. simpl in H. lia.
Qed.

Lemma output_not_under_temp E topic :
  under (temp_dir_of E) (output_path_of E topic) = false.
Proof.
  unfold under, temp_dir_of, output_path_of, path_join.
  rewrite !str_app_assoc, prefix_app_same. reflexivity.
Qed.

Lemma manifest_not_segment E i :
  manifest_path E <> path_join (temp_dir_of E) (segment_name i).
Proof.
  unfold manifest_path, path_join, segment_name. intros H.
  apply String.app_inj in H. discriminate H.
Qed.

Lemma path_join_nonempty (a b : string) : str_is_empty (path_join a b) = false.
Proof. unfold path_join. now destruct a. Qed.

(** ** Removing the temporary files *)

Lemma remove_all_spec (paths : list string) :
  forall w,
    NoDup paths ->
    (forall p, p ∈ paths -> is_Some (files w !! p)) ->
    exists files',
      remove_all paths w = (Returned tt, World (dirs w) files' (calls w)) /\
      (forall p, p ∈ paths -> files' !! p = None) /\
      (forall p, p ∉ paths -> files' !! p = files w !! p).
Proof.
  induction paths as [| q rest IH]; intros w Hnd Hall.
  - exists (files w). destruct w. simpl. unfold ret. repeat split.
    intros p Hp. now apply elem_of_nil in Hp.
  - apply NoDup_cons in Hnd as [Hq Hnd].
    cbn [remove_all]. unfold bind at 1. unfold os_remove at 1.
    destruct (Hall q) as [v Hv]; [apply list_elem_of_here |]. rewrite Hv.
    destruct (IH (World (dirs w) (delete q (files w)) (calls w)) Hnd)
      as (files' & Hrun & Hgone & Hkept).
    { intros p Hp. cbn [files]. rewrite lookup_delete_ne.
      - apply Hall. now apply list_elem_of_further.
      - intros <-. contradiction. }
    exists files'. split; [exact Hrun |]. cbn [files] in Hkept. split.
    + intros p [-> | Hp]%elem_of_cons; [| now apply Hgone].
      rewrite Hkept by exact Hq. apply lookup_delete_eq.
    + intros p Hp. rewrite not_elem_of_cons in Hp. destruct Hp as [Hne Hp].
      rewrite Hkept by exact Hp. now apply lookup_delete_ne.
Qed.

Lemma os_rmdir_empty (path : string) (w : world) :
  path ∈ dirs w ->
  (forall p, is_Some (files w !! p) -> under path p = false) ->
  (forall d, d ∈ dirs w -> under path d = false) ->
  os_rmdir path w = (Returned tt, World (dirs w ∖ {[path]}) (files w) (calls w)).
Proof.
  intros Hin Hfiles Hdirs. unfold os_rmdir.
  destruct (decide (path ∈ dirs w)) as [_ | Hn]; [| contradiction].
  assert (Hall :
    forallb (fun p => negb (under path p))
            (map fst (map_to_list (files w)) ++ elements (dirs w)) = true).
  { apply forallb_forall. intros p Hp. apply in_app_or in Hp as [Hp | Hp].
    - apply in_map_iff in Hp as ([q v] & <- & Hqv).
      apply list_elem_of_In, elem_of_map_to_list in Hqv. cbn [fst].
      rewrite Hfiles; [reflexivity | eauto].
    - apply list_elem_of_In, elem_of_elements in Hp.
      now rewrite Hdirs. }
  now rewrite Hall.
Qed.

(** ** The audio stage when ffmpeg succeeds *)

Lemma temp_paths_free E w :
  (forall d, d ∈ dirs w -> under (temp_dir_of E) d = false) ->
  forall name,
    path_join (temp_dir_of E) name
      ∉ {[temp_dir_of E]} ∪ ({[uploads_dir E]} ∪ dirs w).
Proof.
  intros Hdirs name. rewrite !elem_of_union, !elem_of_singleton.
  intros [Heq | [Heq | Hin]].
  - now apply path_join_neq in Heq.
  - unfold temp_dir_of in Heq. now apply path_join_neq_parent in Heq.
  - apply Hdirs in Hin. now rewrite under_path_join in Hin.
Qed.

Lemma kept_segments_under E lines i p :
  p ∈ kept_segments E (temp_dir_of E) i lines -> under (temp_dir_of E) p = true.
Proof.
  intros (j & _ & ->)%kept_segments_from. apply under_path_join.
Qed.

Lemma match_nonempty {A B} (l : list A) (x y : B) :
  l <> [] -> match l with _ :: _ => x | [] => y end = x.
Proof. now destruct l. Qed.

(** X2. The success path of the audio stage.  For a script of
    well-formed lines of which at least one is synthesized, in a file
    system that holds nothing under the temporary directory and no
    regular file on the two directory paths, and with ffmpeg exiting
    with status 0: the stage returns the output path, the output file
    holds what ffmpeg wrote, the temporary directory is gone and no file
    is left under it, every other file is as before, and the log has
    gained one speech call per line followed by the one ffmpeg call on
    the manifest. *)
Theorem generate_audio_success :
  forall (E : env) (lines : list pyval) (topic : string) (w : world)
         (data : list Byte.byte),
    Forall (fun l => dialogue_line_ok l = true) lines ->
    kept_segments E (temp_dir_of E) 0 lines <> [] ->
    (forall w0,
        ffmpeg_run E (ffmpeg_cmd (manifest_path E) (output_path_of E topic)) w0
        = ProcExit0 data) ->
    files w !! uploads_dir E = None ->
    files w !! temp_dir_of E = None ->
    (forall p, is_Some (files w !! p) -> under (temp_dir_of E) p = false) ->
    (forall d, d ∈ dirs w -> under (temp_dir_of E) d = false) ->
    exists w',
      _generate_audio E (PList lines) (PStr topic) w
        = (Returned (output_path_of E topic), w') /\
      files w' !! output_path_of E topic = Some (FBytes data) /\
      (temp_dir_of E ∉ dirs w') /\
      (uploads_dir E ∈ dirs w') /\
      (forall p, under (temp_dir_of E) p = true -> files w' !! p = None) /\
      (forall p, under (temp_dir_of E) p = false ->
                 p <> output_path_of E topic ->
                 files w' !! p = files w !! p) /\
      calls w' =
        (calls w ++ map speech_call_of lines
         ++ [FfmpegCall (ffmpeg_cmd (manifest_path E) (output_path_of E topic))])%list.
Proof.
  intros E lines topic w data Hok Hsome Hmux Hup Htmp Hfiles Hdirs.
  pose proof (temp_paths_free E w Hdirs) as Hfree.
  unfold _generate_audio.
  unfold bind at 1. unfold lift at 1. cbn [as_str].
  unfold bind at 1. unfold os_makedirs at 1. rewrite Hup.
  unfold bind at 1. unfold os_makedirs at 1. cbn [files dirs calls].
  fold (temp_dir_of E). rewrite Htmp.
  unfold bind at 1. unfold lift at 1. cbn [py_len].
  unfold try_except at 1. unfold bind at 1. unfold lift at 1. cbn [py_iter].
  unfold bind at 1.
  fold (output_path_of E topic). fold (manifest_path E).
  set (dirs0 := {[temp_dir_of E]} ∪ ({[uploads_dir E]} ∪ dirs w)) in *.
  destruct (synthesize_segments_exact E (temp_dir_of E) lines 0 []
              (World dirs0 (files w) (calls w)) Hok)
    as (files1 & Hrun & Hout1 & Hin1).
  { intros j. apply Hfree. }
  rewrite Hrun. cbn [dirs files calls] in *. rewrite app_nil_l.
  rewrite (match_nonempty _ _ _ Hsome).
  set (segs := kept_segments E (temp_dir_of E) 0 lines) in *.
  unfold bind at 1. unfold write_file at 1. cbn [dirs files calls].
  destruct (decide (manifest_path E ∈ dirs0)) as [Hin | _];
    [now apply Hfree in Hin |].
  unfold try_except_class, try_except. unfold bind at 1.
  unfold run_ffmpeg at 1. unfold bind at 1. unfold log_call at 1.
  cbn [dirs files calls]. rewrite Hmux.
  unfold bind at 1.
  set (files3 := <[output_path_of E topic := FBytes data]>
                   (<[manifest_path E := FText (manifest_text segs)]> files1)).
  set (calls3 := ((calls w ++ map speech_call_of lines) ++
                  [FfmpegCall (ffmpeg_cmd (manifest_path E) (output_path_of E topic))])%list).
  assert (Hseg_ne_out : forall p, p ∈ segs -> p <> output_path_of E topic).
  { intros p Hp ->. apply kept_segments_under in Hp.
    now rewrite output_not_under_temp in Hp. }
  assert (Hseg_ne_man : forall p, p ∈ segs -> p <> manifest_path E).
  { intros p (j & _ & ->)%kept_segments_from Heq.
    now apply (manifest_not_segment E j). }
  assert (Hman_ne_out : manifest_path E <> output_path_of E topic).
  { intros Heq. pose proof (under_path_join (temp_dir_of E) "file_list.txt") as Hu.
    fold (manifest_path E) in Hu. rewrite Heq in Hu.
    now rewrite output_not_under_temp in Hu. }
  destruct (remove_all_spec segs (World dirs0 files3 calls3))
    as (files4 & Hrm & Hgone & Hkept).
  { apply kept_segments_NoDup. }
  { intros p Hp. cbn [files]. unfold files3.
    rewrite lookup_insert_ne by (intros Heq; now apply (Hseg_ne_out p Hp)).
    rewrite lookup_insert_ne by (intros Heq; now apply (Hseg_ne_man p Hp)).
    now apply Hin1. }
  rewrite Hrm. cbn [dirs files calls] in *.
  unfold bind at 1. unfold os_remove at 1. cbn [dirs files calls].
  assert (Hman4 : files4 !! manifest_path E = Some (FText (manifest_text segs))).
  { rewrite Hkept.
    - unfold files3. rewrite lookup_insert_ne by (intros Heq; now apply Hman_ne_out).
      apply lookup_insert_eq.
    - intros Hp. now apply (Hseg_ne_man _ Hp). }
  rewrite Hman4.
  unfold bind at 1.
  assert (Hfiles5 : forall p,
             is_Some (delete (manifest_path E) files4 !! p) ->
             p = output_path_of E topic \/
             ((p ∉ segs) /\ p <> manifest_path E /\ is_Some (files w !! p))).
  { intros p Hp.
    destruct (decide (p = manifest_path E)) as [-> | Hnm];
      [rewrite lookup_delete_eq in Hp; now destruct Hp |].
    rewrite lookup_delete_ne in Hp by congruence.
    destruct (decide (p ∈ segs)) as [Hs | Hns];
      [rewrite Hgone in Hp by exact Hs; now destruct Hp |].
    rewrite Hkept in Hp by exact Hns. unfold files3 in Hp.
    destruct (decide (p = output_path_of E topic)) as [-> | Hno]; [now left |].
    rewrite lookup_insert_ne in Hp by congruence.
    rewrite lookup_insert_ne in Hp by congruence.
    rewrite Hout1 in Hp by exact Hns. right. auto. }
  rewrite os_rmdir_empty; cbn [dirs files calls].
  - eexists. split; [reflexivity |]. cbn [dirs files calls].
    split; [| split; [| split; [| split; [| split]]]].
    + rewrite lookup_delete_ne by exact Hman_ne_out.
      rewrite Hkept by (intros Hp; now apply (Hseg_ne_out _ Hp)).
      unfold files3. apply lookup_insert_eq.
    + unfold dirs0. rewrite elem_of_difference, elem_of_singleton. tauto.
    + unfold dirs0. rewrite elem_of_difference, !elem_of_union, !elem_of_singleton.
      split; [tauto |]. unfold temp_dir_of. intros Heq. symmetry in Heq.
      now apply path_join_neq in Heq.
    + intros p Hu.
      destruct (delete (manifest_path E) files4 !! p) as [v |] eqn:Hp;
        [| reflexivity].
      destruct (Hfiles5 p) as [-> | (_ & _ & Hw)]; [rewrite Hp; eauto | |].
      * now rewrite output_not_under_temp in Hu.
      * apply Hfiles in Hw. congruence.
    + intros p Hu Hno.
      assert (Hnm : p <> manifest_path E).
      { intros ->. unfold manifest_path in Hu.
        now rewrite under_path_join in Hu. }
      assert (Hns : p ∉ segs).
      { intros Hs. apply kept_segments_under in Hs. congruence. }
      rewrite lookup_delete_ne by congruence.
      rewrite Hkept by exact Hns. unfold files3.
      rewrite !lookup_insert_ne by congruence. now apply Hout1.
    + unfold calls3. now rewrite <- app_assoc.
  - unfold dirs0. apply elem_of_union_l, elem_of_singleton. reflexivity.
  - intros p Hp. destruct (Hfiles5 p Hp) as [-> | (_ & _ & Hw)].
    + apply output_not_under_temp.
    + now apply Hfiles.
  - intros d. unfold dirs0. rewrite !elem_of_union, !elem_of_singleton.
    intros [-> | [-> | Hd]].
    + apply under_self.
    + unfold temp_dir_of. apply under_parent.
    + now apply Hdirs.
Qed.

Lemma generate_audio_success_witness :
  exists w',
    _generate_audio
      (sample_env (chat_answers "not json at all") speech_ok ffmpeg_ok)
      (PList (fallback_lines "Climate change causes..." "climate change"))
      (PStr "climate change") empty_world
    = (Returned "/srv/uploads/podcast_climate_change_20240101_120000.mp3", w') /\
    files w' !! "/srv/uploads/podcast_climate_change_20240101_120000.mp3"
      = Some (FBytes [Byte.x49; Byte.x44; Byte.x33]).
Proof.
  destruct (generate_audio_success
              (sample_env (chat_answers "not json at all") speech_ok ffmpeg_ok)
              (fallback_lines "Climate change causes..." "climate change")
              "climate change" empty_world [Byte.x49; Byte.x44; Byte.x33])
    as (w' & Hrun & Hout & _).
  - repeat constructor.
  - vm_compute. discriminate.
  - intros w0. reflexivity.
  - reflexivity.
  - reflexivity.
  - intros p [v Hv]. cbn [files empty_world] in Hv.
    rewrite lookup_empty in Hv. discriminate Hv.
  - intros d Hd. cbn [dirs empty_world] in Hd. now apply elem_of_empty in Hd.
  - exists w'. split; [exact Hrun | exact Hout].
Defined.

(** ** [process] when the podcast is produced *)

Lemma get_audio_duration_spec E audio_path w :
  _get_audio_duration E audio_path w =
    (Returned
       (PFloat
          match ffprobe_run E (ffprobe_cmd audio_path)
                  (World (dirs w) (files w)
                         (calls w ++ [FfprobeCall (ffprobe_cmd audio_path)])) with
          | Returned stdout =>
              match float_of_str E (str_strip stdout) with
              | Returned d => d
              | Raised _ => "0.0"
              end
          | Raised _ => "0.0"
          end),
     World (dirs w) (files w)
           (calls w ++ [FfprobeCall (ffprobe_cmd audio_path)])).
Proof.
  unfold _get_audio_duration, try_except, bind, run_ffprobe, bind, log_call,
    lift, ret.
  destruct (ffprobe_run E _ _) as [stdout | e]; [| reflexivity].
  destruct (float_of_str E (str_strip stdout)); reflexivity.
Qed.

Lemma dialogue_line_ok_printable (line : pyval) :
  dialogue_line_ok line = true -> printable_line line = true.
Proof.
  intros (speaker & text & voice & Hs & Ht & _)%dialogue_line_ok_inv.
  unfold printable_line. now rewrite Hs, Ht.
Qed.

(** X3. The success path of [process].  When the content and the
    dialogue are produced, the script is well formed, at least one line
    is synthesized and ffmpeg exits with status 0, [process] returns the
    success record: the transcript of the whole script, the output path
    [podcast_<topic with underscores>_<timestamp>.mp3] in the uploads
    directory, the number of script lines (not of segments), and a
    duration that is [0.0] when the probe or the parse of its output
    fails.  The output file exists, the temporary directory does not,
    and the last two calls of the run are ffmpeg then ffprobe. *)
Theorem process_success_record :
  forall (E : env) (sources : list pydict) (context : pydict) (w : world)
         (content : string) (title : pyval) (w1 : world)
         (lines : list pyval) (w2 : world) (topic : string)
         (data : list Byte.byte),
    content_and_title E sources context w = (Returned (content, title), w1) ->
    topic_of context = PStr topic ->
    _generate_podcast_dialogue E content (PStr topic) w1
      = (Returned (PList lines), w2) ->
    Forall (fun l => dialogue_line_ok l = true) lines ->
    kept_segments E (temp_dir_of E) 0 lines <> [] ->
    (forall w0,
        ffmpeg_run E (ffmpeg_cmd (manifest_path E) (output_path_of E topic)) w0
        = ProcExit0 data) ->
    files w !! uploads_dir E = None ->
    files w !! temp_dir_of E = None ->
    (forall p, is_Some (files w !! p) -> under (temp_dir_of E) p = false) ->
    (forall d, d ∈ dirs w -> under (temp_dir_of E) d = false) ->
    exists (duration : string) (w' : world) (earlier : list event),
      process E sources context w =
        (Returned
           (PDict [("flow_type", PStr "podcast");
                   ("sources_found",
                    PStr ("# Podcast Transcript" ++ nl ++ nl
                          ++ str_concat (map line_text lines)));
                   ("audio_output", PStr (output_path_of E topic));
                   ("dialogue_segments", PInt (Z.of_nat (List.length lines)));
                   ("metadata",
                    PDict [("duration_seconds", PFloat duration);
                           ("format", PStr "mp3");
                           ("voices_used",
                            PList [PStr HOST_VOICE_ID; PStr GUEST_VOICE_ID]);
                           ("generated_at", PStr (now_isoformat E))])]),
         w') /\
      files w' !! output_path_of E topic = Some (FBytes data) /\
      (temp_dir_of E ∉ dirs w') /\
      calls w' =
        (earlier
         ++ [FfmpegCall (ffmpeg_cmd (manifest_path E) (output_path_of E topic));
             FfprobeCall (ffprobe_cmd (output_path_of E topic))])%list /\
      ((forall w0, exists e,
           ffprobe_run E (ffprobe_cmd (output_path_of E topic)) w0 = Raised e) ->
       duration = "0.0") /\
      (forall stdout,
          (forall w0,
              ffprobe_run E (ffprobe_cmd (output_path_of E topic)) w0
              = Returned stdout) ->
          duration = match float_of_str E (str_strip stdout) with
                     | Returned d => d
                     | Raised _ => "0.0"
                     end).
Proof.
  intros E sources context w content title w1 lines w2 topic data
         Hct Htopic Hdlg Hok Hsome Hmux Hup Htmp Hfiles Hdirs.
  pose proof (content_and_title_quiet E sources context w) as [[Hd1 Hf1] _].
  rewrite Hct in Hd1, Hf1. simpl in Hd1, Hf1.
  pose proof (generate_dialogue_quiet E content (PStr topic) w1) as [[Hd2 Hf2] _].
  rewrite Hdlg in Hd2, Hf2. simpl in Hd2, Hf2.
  destruct (generate_audio_success E lines topic w2 data Hok Hsome Hmux)
    as (w3 & Haudio & Hout & Hnotemp & _ & _ & _ & Hcalls).
  { now rewrite Hf2, Hf1. }
  { now rewrite Hf2, Hf1. }
  { intros p Hp. apply Hfiles. now rewrite <- Hf1, <- Hf2. }
  { intros d Hd. apply Hdirs. now rewrite <- Hd1, <- Hd2. }
  assert (Hprint : Forall (fun l => printable_line l = true) lines).
  { eapply Forall_impl; [exact Hok |]. apply dialogue_line_ok_printable. }
  eexists _, _, (calls w2 ++ map speech_call_of lines)%list.
  split; [| split; [| split; [| split; [| split]]]].
  - unfold process, try_except, process_try.
    rewrite (bind_returned _ _ _ _ _ Hct). cbn [fst].
    rewrite Htopic, (bind_returned _ _ _ _ _ Hdlg).
    unfold bind at 1. unfold lift at 1. cbn [py_len].
    rewrite (bind_returned _ _ _ _ _ Haudio).
    unfold output_path_of at 1. rewrite path_join_nonempty.
    fold (output_path_of E topic).
    unfold bind at 1. unfold lift at 1. unfold _format_dialogue_as_text.
    cbn [py_iter]. rewrite (format_lines_printable _ _ Hprint).
    unfold bind at 1. unfold lift at 1. cbn [py_len].
    unfold bind at 1. rewrite get_audio_duration_spec.
    unfold ret, success_record. rewrite !str_app_assoc. reflexivity.
  - cbn [files]. exact Hout.
  - cbn [dirs]. exact Hnotemp.
  - cbn [calls]. rewrite Hcalls, <- !app_assoc. reflexivity.
  - intros Hfail.
    match goal with
    | |- context [ffprobe_run E ?c ?wx] => destruct (Hfail wx) as [e ->]
    end. reflexivity.
  - intros stdout Hprobe. now rewrite Hprobe.
Qed.

Lemma process_success_record_witness :
  exists w',
    fst (process
           (sample_env (chat_answers "not json at all") speech_ok ffmpeg_ok)
           climate_sources climate_context empty_world)
    = Returned
        (success_record
           (sample_env (chat_answers "not json at all") speech_ok ffmpeg_ok)
           ("# Podcast Transcript" ++ nl ++ nl
            ++ str_concat
                 (map line_text
                      (fallback_lines "Climate change causes..." "climate change")))
           "/srv/uploads/podcast_climate_change_20240101_120000.mp3"
           6 (PFloat "12.5")) /\
    files w' !! "/srv/uploads/podcast_climate_change_20240101_120000.mp3"
      = Some (FBytes [Byte.x49; Byte.x44; Byte.x33]).
Proof.
  destruct (process_success_record
              (sample_env (chat_answers "not json at all") speech_ok ffmpeg_ok)
              climate_sources climate_context empty_world
              "Climate change causes..." (PStr "Intro to Climate") empty_world
              (fallback_lines "Climate change causes..." "climate change")
              (World ∅ ∅
                 [ChatCall (dialogue_request "Climate change causes..."
                              "climate change")])
              "climate change" [Byte.x49; Byte.x44; Byte.x33])
    as (duration & w' & earlier & Hrun & Hout & _ & _ & _ & Hdur).
  - reflexivity.
  - reflexivity.
  - reflexivity.
  - repeat constructor.
  - vm_compute. discriminate.
  - intros w0. reflexivity.
  - reflexivity.
  - reflexivity.
  - intros p [v Hv]. cbn [files empty_world] in Hv.
    rewrite lookup_empty in Hv. discriminate Hv.
  - intros d Hd. cbn [dirs empty_world] in Hd. now apply elem_of_empty in Hd.
  - exists w'. split; [| exact Hout]. rewrite Hrun.
    rewrite (Hdur ("12.5" ++ nl) (fun _ => eq_refl)). reflexivity.
Defined.

(** ** Where the audio stage can raise *)

Lemma audio_try_body_result E temp_dir output_path lines w a w' :
  bind (synthesize_segments E temp_dir 0 lines [])
       (fun segment_files =>
          match segment_files with
          | _ :: _ =>
              let file_list_path := path_join temp_dir "file_list.txt" in
              bind (write_file file_list_path (FText (manifest_text segment_files)))
                (fun _ =>
                   try_except_class CalledProcessError
                     (bind (run_ffmpeg E (ffmpeg_cmd file_list_path output_path)
                                       output_path)
                        (fun _ =>
                           bind (remove_all segment_files)
                             (fun _ =>
                                bind (os_remove file_list_path)
                                  (fun _ =>
                                     bind (os_rmdir temp_dir)
                                       (fun _ => ret output_path)))))
                     (fun _ => ret ""))
          | [] => ret ""
          end) w = (Returned a, w') ->
  a = "" \/ a = output_path.
Proof.
  intros H. bind_inv H. destruct a0 as [| seg segs].
  - injection H as <- _. now left.
  - cbv zeta in H. bind_inv H.
    unfold try_except_class, try_except in H.
    match type of H with
    | context [bind ?m ?k ?wx] => destruct (bind m k wx) as [[b | e] wy] eqn:Hb
    end.
    + injection H as <- _. bind_inv Hb. bind_inv Hb. bind_inv Hb. bind_inv Hb.
      injection Hb as <- _. now right.
    + destruct (exn_kind_eqb (exn_class e) CalledProcessError).
      * injection H as <- _. now left.
      * discriminate H.
Qed.

Lemma generate_audio_returns E dialogue t w n :
  files w !! uploads_dir E = None ->
  files w !! temp_dir_of E = None ->
  py_len dialogue = Returned n ->
  exists p w',
    _generate_audio E dialogue (PStr t) w = (Returned p, w') /\
    (p = "" \/ p = output_path_of E t).
Proof.
  intros Hup Htmp Hlen. unfold _generate_audio.
  unfold bind at 1. unfold lift at 1. cbn [as_str].
  unfold bind at 1. unfold os_makedirs at 1. rewrite Hup.
  unfold bind at 1. unfold os_makedirs at 1. cbn [files dirs calls].
  fold (temp_dir_of E). rewrite Htmp.
  unfold bind at 1. unfold lift at 1. rewrite Hlen.
  fold (output_path_of E t).
  unfold try_except at 1.
  match goal with
  | |- context [bind ?m ?k ?wx] => destruct (bind m k wx) as [[a | e] w'] eqn:Hbody
  end.
  - exists a, w'. split; [reflexivity |].
    bind_inv Hbody. now apply audio_try_body_result in Hbody.
  - eexists _, _. split; [reflexivity | now left].
Qed.

(** X4. The audio stage raises only while it sets up: when the topic is
    not a string, when a regular file occupies the uploads or the
    temporary directory path, or when the dialogue has no length; it
    has then written no file and called no service.  In every other
    case it returns, whatever the dialogue holds and whatever the
    services and ffmpeg do, and its result is the empty path or the
    output path. *)
Theorem generate_audio_raises_only_in_setup :
  forall (E : env) (dialogue topic : pyval) (w : world),
    match as_str "replace" topic, files w !! uploads_dir E,
          files w !! temp_dir_of E, py_len dialogue with
    | Returned t, None, None, Returned _ =>
        exists p w',
          _generate_audio E dialogue topic w = (Returned p, w') /\
          (p = "" \/ p = output_path_of E t)
    | _, _, _, _ =>
        exists e w',
          _generate_audio E dialogue topic w = (Raised e, w') /\
          files w' = files w /\ calls w' = calls w
    end.
Proof.
  intros E dialogue topic w.
  destruct topic as [| b | z | r | t | l | d];
    try (eexists _, _; split; [reflexivity | split; reflexivity]).
  cbn [as_str].
  destruct (files w !! uploads_dir E) as [f |] eqn:Hup.
  { unfold _generate_audio, bind, lift, os_makedirs. cbn [as_str].
    rewrite Hup. eexists _, _. split; [reflexivity | split; reflexivity]. }
  destruct (files w !! temp_dir_of E) as [f |] eqn:Htmp.
  { unfold _generate_audio, bind, lift, os_makedirs. cbn [as_str].
    rewrite Hup. cbn [files]. fold (temp_dir_of E). rewrite Htmp.
    eexists _, _. split; [reflexivity | split; reflexivity]. }
  destruct (py_len dialogue) as [n | e1] eqn:Hlen.
  - now apply generate_audio_returns with n.
  - unfold _generate_audio, bind, lift, os_makedirs. cbn [as_str].
    rewrite Hup. cbn [files]. fold (temp_dir_of E). rewrite Htmp, Hlen.
    eexists _, _. split; [reflexivity | split; reflexivity].
Qed.

(** ** What every result of [process] says about the dialogue *)

(** X5. Every result of [process] is either the record of the [except]
    clause, built from the exception that the body raised, or a record
    made after the dialogue was produced: its ["sources_found"] is the
    transcript of that dialogue, its ["dialogue_segments"] is the number
    of lines of the dialogue (not of the segments synthesized), and it
    has an ["audio_output"] exactly when it has no ["error"]. *)
Theorem process_reports_the_dialogue :
  forall (E : env) (sources : list pydict) (context : pydict) (w : world),
  exists (r : pyval) (w' : world),
    process E sources context w = (Returned r, w') /\
    ((exists e, process_try E sources context w = (Raised e, w') /\
                r = exception_record E e) \/
     (exists ct w1 dialogue w2 transcript n,
         content_and_title E sources context w = (Returned ct, w1) /\
         _generate_podcast_dialogue E (fst ct) (topic_of context) w1
           = (Returned dialogue, w2) /\
         _format_dialogue_as_text dialogue = Returned transcript /\
         py_len dialogue = Returned n /\
         record_field "sources_found" r = Some (PStr transcript) /\
         record_field "dialogue_segments" r = Some (PInt (Z.of_nat n)) /\
         ((record_field "audio_output" r = None /\
           record_field "error" r = Some (PStr "Failed to generate audio")) \/
          (exists path, record_field "audio_output" r = Some (PStr path) /\
                        str_is_empty path = false /\
                        record_field "error" r = None)))).
Proof.
  intros E sources context w. unfold process, try_except.
  destruct (process_try E sources context w) as [[r | e] w'] eqn:Hbody.
  - exists r, w'. split; [reflexivity |]. right.
    unfold process_try in Hbody.
    apply bind_returned_inv in Hbody as (ct & w1 & Hct & Hbody).
    apply bind_returned_inv in Hbody as (dialogue & w2 & Hdlg & Hbody).
    apply bind_returned_inv in Hbody as (n0 & w2' & Hlen0 & Hbody).
    apply bind_returned_inv in Hbody as (path & w3 & Haudio & Hbody).
    destruct (str_is_empty path) eqn:Hpath.
    + apply bind_returned_inv in Hbody as (t & w4 & Hfmt & Hbody).
      apply bind_returned_inv in Hbody as (n & w5 & Hlen & Hbody).
      injection Hfmt as Hfmt _. injection Hlen as Hlen _.
      injection Hbody as <- _.
      exists ct, w1, dialogue, w2, t, n. repeat split; auto.
    + apply bind_returned_inv in Hbody as (t & w4 & Hfmt & Hbody).
      apply bind_returned_inv in Hbody as (n & w5 & Hlen & Hbody).
      apply bind_returned_inv in Hbody as (d & w6 & Hdur & Hbody).
      injection Hfmt as Hfmt _. injection Hlen as Hlen _.
      injection Hbody as <- _.
      exists ct, w1, dialogue, w2, t, n. repeat split; auto.
      right. exists path. repeat split; auto.
  - exists (exception_record E e), w'. split; [reflexivity |]. left. eauto.
Qed.

(** ** Ill-typed inputs *)

Lemma collect_sources_type_error (sources : list pydict) :
  forall content title,
    Exists (fun s => has_str_content s = false) sources ->
    exists e, collect_sources sources content title = Raised e /\
              exn_class e = TypeError.
Proof.
  induction sources as [| source rest IH]; intros content title Hbad.
  - inversion Hbad.
  - cbn [collect_sources].
    destruct (dict_get_default source "content" (PStr "")) as [| | | | s | |] eqn:Hc;
      cbn [py_len]; try (eexists; split; reflexivity).
    apply IH. apply Exists_cons in Hbad as [Hhere | Hrest]; [| exact Hrest].
    unfold has_str_content in Hhere. now rewrite Hc in Hhere.
Qed.

(** X6. When the content of some source is not a string, [process]
    returns the record of its [except] clause for a [TypeError]; it has
    called no service and has not touched the file system. *)
Theorem process_rejects_non_string_content :
  forall (E : env) (sources : list pydict) (context : pydict) (w : world),
    Exists (fun s => has_str_content s = false) sources ->
    exists e,
      process E sources context w = (Returned (exception_record E e), w) /\
      exn_class e = TypeError /\
      record_field "sources_found" (exception_record E e)
        = Some (PStr "Failed to generate podcast").
Proof.
  intros E sources context w Hbad.
  destruct (collect_sources_type_error sources "" PNone Hbad) as (e & Hraise & Hcls).
  exists e. split; [| split; [exact Hcls | reflexivity]].
  unfold process, try_except, process_try, content_and_title.
  unfold bind at 1. unfold bind at 1. unfold lift at 1. rewrite Hraise.
  reflexivity.
Qed.

Lemma process_rejects_non_string_content_witness :
  exists e,
    process (sample_env chat_down speech_ok ffmpeg_ok)
            [[("content", PList [PStr "Climate change causes..."])]]
            climate_context empty_world
    = (Returned (exception_record (sample_env chat_down speech_ok ffmpeg_ok) e),
       empty_world) /\
    exn_class e = TypeError.
Proof.
  destruct (process_rejects_non_string_content
              (sample_env chat_down speech_ok ffmpeg_ok)
              [[("content", PList [PStr "Climate change causes..."])]]
              climate_context empty_world) as (e & Hrun & Hcls & _).
  - apply Exists_cons_hd. reflexivity.
  - exists e. split; [exact Hrun | exact Hcls].
Defined.

(** ** The transcript of any dialogue *)

Lemma format_lines_spec (lines : list pyval) :
  forall acc,
    format_lines lines acc =
      match first_line_error lines with
      | Some e => Raised e
      | None => Returned (acc ++ str_concat (map line_text lines))
      end.
Proof.
  induction lines as [| line rest IH]; intros acc.
  - simpl. now rewrite str_app_empty_r.
  - cbn [format_lines first_line_error map]. unfold line_error, line_text.
    destruct (py_getitem line "speaker") as [speaker | e]; [| reflexivity].
    destruct (py_getitem line "text") as [text | e]; [| reflexivity].
    rewrite IH. destruct (first_line_error rest); [reflexivity |].
    now rewrite str_concat_cons, !str_app_assoc.
Qed.

Lemma str_concat_app (a b : list string) :
  str_concat (a ++ b) = str_concat a ++ str_concat b.
Proof.
  induction a as [| x a IH]; [reflexivity |].
  rewrite <- app_comm_cons, !str_concat_cons, IH. now rewrite str_app_assoc.
Qed.

Lemma first_line_error_app (a b : list pyval) :
  first_line_error (a ++ b) =
    match first_line_error a with
    | Some e => Some e
    | None => first_line_error b
    end.
Proof.
  induction a as [| x a IH]; [reflexivity |].
  rewrite <- app_comm_cons. cbn [first_line_error].
  destruct (line_error x); [reflexivity | exact IH].
Qed.

(** X7. The transcript of a list of lines is the header followed by one
    paragraph per line in order when every line has a speaker and a
    text, and otherwise the exception of the first line that lacks one:
    nothing is formatted around a bad line.  An empty list, an empty
    object and an empty string give the bare header; a non-empty object
    or string raises an exception of class [TypeError], because its
    elements are strings and a string is indexed by ["speaker"].
    The transcript of a script followed by more lines is the transcript
    of the script followed by the paragraphs of the new lines, and a bad
    line in the script fails the whole. *)
Theorem transcript_of_any_dialogue :
  forall (lines more : list pyval) (d : pydict) (k : string) (v : pyval)
         (c : ascii) (s : string),
    _format_dialogue_as_text (PList lines) =
      match first_line_error lines with
      | Some e => Raised e
      | None =>
          Returned ("# Podcast Transcript" ++ nl ++ nl
                    ++ str_concat (map line_text lines))
      end /\
    _format_dialogue_as_text (PList (lines ++ more)) =
      match _format_dialogue_as_text (PList lines), first_line_error more with
      | Returned t, None => Returned (t ++ str_concat (map line_text more))
      | Returned _, Some e => Raised e
      | Raised e, _ => Raised e
      end /\
    _format_dialogue_as_text (PList []) = Returned ("# Podcast Transcript" ++ nl ++ nl) /\
    _format_dialogue_as_text (PDict []) = Returned ("# Podcast Transcript" ++ nl ++ nl) /\
    _format_dialogue_as_text (PStr "") = Returned ("# Podcast Transcript" ++ nl ++ nl) /\
    (exists e,
        _format_dialogue_as_text (PDict ((k, v) :: d)) = Raised e /\
        exn_class e = TypeError) /\
    (exists e,
        _format_dialogue_as_text (PStr (String c s)) = Raised e /\
        exn_class e = TypeError).
Proof.
  intros lines more d k v c s. split; [| split].
  - unfold _format_dialogue_as_text. cbn [py_iter]. rewrite format_lines_spec.
    destruct (first_line_error lines); [reflexivity |].
    now rewrite !str_app_assoc.
  - unfold _format_dialogue_as_text. cbn [py_iter].
    rewrite !format_lines_spec, first_line_error_app.
    destruct (first_line_error lines); [reflexivity |].
    destruct (first_line_error more); [reflexivity |].
    now rewrite map_app, str_concat_app, !str_app_assoc.
  - do 3 (split; [reflexivity |]).
    split; eexists; (split; [reflexivity | reflexivity]).
Qed.

(** ** The topic in the request and in the fallback *)

Lemma str_take_app (a b : string) : str_take (String.length a) (a ++ b) = a.
Proof.
  unfold str_take. induction a as [| c a IH].
  - now destruct b.
  - rewrite str_app_cons. simpl. now rewrite IH.
Qed.

Lemma str_drop_app (a b : string) : str_drop (String.length a) (a ++ b) = b.
Proof.
  unfold str_drop. rewrite str_length_app.
  replace (String.length a + String.length b - String.length a)
    with (String.length b) by lia.
  induction a as [| c a IH]; [apply substring_all |].
  rewrite str_app_cons. simpl String.length. rewrite substring_skip. exact IH.
Qed.

Lemma str_endswith_app (a suf : string) : str_endswith suf (a ++ suf) = true.
Proof.
  unfold str_endswith. rewrite str_length_app.
  replace (String.length a + String.length suf - String.length suf)
    with (String.length a) by lia.
  rewrite str_drop_app, String.eqb_refl, andb_true_r.
  apply Nat.leb_le. lia.
Qed.

Lemma str_endswith_inv (suf s : string) :
  str_endswith suf s = true ->
  s = str_take (String.length s - String.length suf) s ++ suf.
Proof.
  unfold str_endswith. intros [_ Heq%String.eqb_eq]%andb_true_iff.
  transitivity (str_take (String.length s - String.length suf) s
                ++ str_drop (String.length s - String.length suf) s).
  - symmetry. apply str_take_drop.
  - f_equal. exact Heq.
Qed.

(** X8. The topic sent to the model loses exactly one trailing [.pdf]:
    a topic [name.pdf] is sent as [name], any other topic is sent as it
    is (the test is case sensitive, so [.PDF] stays), and in both cases
    [topic = clean topic] or [topic = clean topic ++ ".pdf"].  The
    fallback script does not use the cleaned topic: its welcome line
    names the topic with the extension. *)
Theorem topic_extension_is_stripped_for_the_model_only :
  forall (E : env) (content name topic : string) (w : world),
    clean_topic_of (name ++ ".pdf") = name /\
    (str_endswith ".pdf" topic = false -> clean_topic_of topic = topic) /\
    clean_topic_of "notes.PDF" = "notes.PDF" /\
    (topic = clean_topic_of topic \/ topic = clean_topic_of topic ++ ".pdf") /\
    calls (snd (_generate_podcast_dialogue E content (PStr (name ++ ".pdf")) w))
      = (calls w ++ [ChatCall (dialogue_request content name)])%list /\
    (forall response,
        chat_create E (dialogue_request content name) = Returned response ->
        (forall text, response = Some text ->
           exists e, json_loads E (strip_code_fence (str_strip text)) = Raised e) ->
        fst (_generate_podcast_dialogue E content (PStr (name ++ ".pdf")) w)
        = Returned
            (PList
               (dialogue_line "Host"
                  ("Welcome to this educational podcast about "
                   ++ name ++ ".pdf.") HOST_VOICE_ID
                :: tl (fallback_lines content (name ++ ".pdf"))))).
Proof.
  intros E content name topic w.
  assert (Hclean : clean_topic_of (name ++ ".pdf") = name).
  { unfold clean_topic_of. rewrite str_endswith_app, str_length_app.
    replace (String.length name + String.length ".pdf" - 4)
      with (String.length name) by (simpl; lia).
    apply str_take_app. }
  split; [exact Hclean |]. split.
  { intros H. unfold clean_topic_of. now rewrite H. }
  split; [reflexivity |]. split.
  { unfold clean_topic_of. destruct (str_endswith ".pdf" topic) eqn:H.
    - right. now apply str_endswith_inv in H.
    - now left. }
  split.
  { rewrite generate_dialogue_world, Hclean. reflexivity. }
  intros response Hchat Hbad.
  rewrite (generate_dialogue_answered E content (name ++ ".pdf") w response)
    by (now rewrite Hclean).
  cbn [fst]. f_equal.
  assert (Hfb : fallback_dialogue content (name ++ ".pdf") =
                PList
                  (dialogue_line "Host"
                     ("Welcome to this educational podcast about "
                      ++ name ++ ".pdf.") HOST_VOICE_ID
                   :: tl (fallback_lines content (name ++ ".pdf")))).
  { unfold fallback_dialogue, fallback_lines. cbn [tl].
    now rewrite !str_app_assoc. }
  unfold dialogue_of_response. destruct response as [text |]; [| exact Hfb].
  destruct (Hbad text eq_refl) as [e ->]. exact Hfb.
Qed.

(** ** The synthesis loop on incomplete lines *)

Lemma synthesize_segments_step_any E temp_dir i line rest acc w :
  printable_line line = true ->
  path_join temp_dir (segment_name i) ∉ dirs w ->
  exists files1,
    synthesize_segments E temp_dir i (line :: rest) acc w =
      synthesize_segments E temp_dir (S i) rest
        (acc ++ (if line_synthesized E (i, line)
                 then [path_join temp_dir (segment_name i)] else []))%list
        (World (dirs w) files1
               (calls w ++ (if reaches_speech_call line
                            then [speech_call_of line] else []))).
Proof.
  intros (speaker & text & Hs & Ht)%printable_line_inv Hdir.
  unfold line_synthesized, reaches_speech_call, speech_succeeds, speech_call_of.
  cbn [fst snd synthesize_segments].
  unfold bind, lift, try_except, call_speech, bind, log_call, lift, write_file, ret.
  rewrite Hs, Ht.
  destruct (py_getitem line "voice_id") as [voice | e1].
  - destruct (py_len text) as [n | e2]; cbn [andb].
    + destruct (elevenlabs_generate E i text voice "eleven_multilingual_v2")
        as [audio | e]; cbn [dirs files calls].
      * destruct (decide (path_join temp_dir (segment_name i) ∈ dirs w))
          as [Hin | _]; [contradiction |].
        eexists. reflexivity.
      * rewrite app_nil_r. eexists. reflexivity.
    + rewrite !app_nil_r. exists (files w). now destruct w.
  - cbn [andb]. rewrite !app_nil_r. exists (files w). now destruct w.
Qed.

(** X9. The loop on lines that have a speaker and a text but may lack a
    voice or carry a text without a length.  Such a line is skipped
    without any call to the speech service, and the loop goes on: it
    returns, the segments are those of the lines that reach the call and
    whose call succeeds, in script order, and the calls logged are those
    of the lines that reach the call, in script order. *)
Theorem synthesize_skips_incomplete_lines :
  forall (E : env) (temp_dir : string) (lines : list pyval) (i : nat)
         (acc : list string) (w : world),
    Forall (fun l => printable_line l = true) lines ->
    (forall j, path_join temp_dir (segment_name j) ∉ dirs w) ->
    exists files',
      synthesize_segments E temp_dir i lines acc w =
        (Returned
           (acc ++ map (fun il => path_join temp_dir (segment_name (fst il)))
                       (List.filter (line_synthesized E) (enumerate_from i lines)))%list,
         World (dirs w) files'
               (calls w ++ map speech_call_of
                               (List.filter reaches_speech_call lines))).
Proof.
  intros E temp_dir lines. induction lines as [| line rest IH];
    intros i acc w Hok Hdirs.
  - exists (files w). cbn [synthesize_segments List.filter map enumerate_from].
    unfold ret. rewrite !app_nil_r. now destruct w.
  - apply Forall_cons in Hok as [Hline Hrest].
    destruct (synthesize_segments_step_any E temp_dir i line rest acc w
                Hline (Hdirs i)) as (files1 & Hstep).
    destruct (IH (S i)
                 (acc ++ (if line_synthesized E (i, line)
                          then [path_join temp_dir (segment_name i)] else []))%list
                 (World (dirs w) files1
                        (calls w ++ (if reaches_speech_call line
                                     then [speech_call_of line] else [])))
                 Hrest Hdirs) as (files' & Hrun).
    exists files'. rewrite Hstep, Hrun, enumerate_from_cons.
    cbn [List.filter dirs calls]. rewrite <- !app_assoc.
    destruct (line_synthesized E (i, line)), (reaches_speech_call line);
      reflexivity.
Qed.

Lemma synthesize_skips_incomplete_lines_witness :
  exists files',
    synthesize_segments
      (sample_env chat_down speech_ok ffmpeg_ok) "/srv/tmp" 0
      [PDict [("speaker", PStr "Host"); ("text", PStr "Hello")];
       dialogue_line "Guest" "Hi" GUEST_VOICE_ID;
       PDict [("speaker", PStr "Host"); ("text", PInt 3);
              ("voice_id", PStr HOST_VOICE_ID)]]
      [] empty_world
    = (Returned ["/srv/tmp/segment_001.mp3"],
       World ∅ files'
             [SpeechCall (PStr "Hi") (PStr GUEST_VOICE_ID)
                         "eleven_multilingual_v2"]).
Proof.
  destruct (synthesize_skips_incomplete_lines
              (sample_env chat_down speech_ok ffmpeg_ok) "/srv/tmp"
              [PDict [("speaker", PStr "Host"); ("text", PStr "Hello")];
               dialogue_line "Guest" "Hi" GUEST_VOICE_ID;
               PDict [("speaker", PStr "Host"); ("text", PInt 3);
                      ("voice_id", PStr HOST_VOICE_ID)]]
              0 [] empty_world) as (files' & Hrun).
  - repeat constructor.
  - intros j. apply not_elem_of_empty.
  - exists files'. exact Hrun.
Defined.

(** ** A script with a line that cannot be printed *)

(** X10. When the dialogue is a list in which some line lacks its
    speaker or its text, [process] ends in its [except] clause whatever
    the speech service and ffmpeg do: the audio stage swallows the
    exception of that line, and the transcript then raises it again.
    The record carries the message of that exception and no transcript,
    also for the lines before the bad one. *)
Theorem process_fails_on_unprintable_line :
  forall (E : env) (sources : list pydict) (context : pydict) (w : world)
         (content : string) (title : pyval) (w1 : world)
         (lines : list pyval) (w2 : world) (e : exn),
    content_and_title E sources context w = (Returned (content, title), w1) ->
    _generate_podcast_dialogue E content (topic_of context) w1
      = (Returned (PList lines), w2) ->
    first_line_error lines = Some e ->
    files w !! uploads_dir E = None ->
    files w !! temp_dir_of E = None ->
    exists w',
      process E sources context w =
        (Returned
           (PDict [("flow_type", PStr "podcast");
                   ("error",
                    PStr ("Error in podcast generation: " ++ exn_str e));
                   ("sources_found", PStr "Failed to generate podcast");
                   ("metadata",
                    PDict [("error_details",
                            PStr (traceback_format_exc E e));
                           ("generated_at", PStr (now_isoformat E))])]),
         w').
Proof.
  intros E sources context w content title w1 lines w2 e
         Hct Hdlg Hbad Hup Htmp.
  destruct (generate_dialogue_topic_str _ _ _ _ _ _ Hdlg) as [topic Htopic].
  pose proof (content_and_title_quiet E sources context w) as [[_ Hf1] _].
  rewrite Hct in Hf1. simpl in Hf1.
  pose proof (generate_dialogue_quiet E content (topic_of context) w1)
    as [[_ Hf2] _].
  rewrite Hdlg in Hf2. simpl in Hf2.
  destruct (generate_audio_returns E (PList lines) topic w2 (List.length lines))
    as (p & w3 & Haudio & _); [now rewrite Hf2, Hf1 .. | reflexivity |].
  assert (Hfmt : _format_dialogue_as_text (PList lines) = Raised e).
  { unfold _format_dialogue_as_text. cbn [py_iter].
    now rewrite format_lines_spec, Hbad. }
  exists w3. unfold process, try_except, process_try.
  rewrite (bind_returned _ _ _ _ _ Hct). cbn [fst].
  rewrite (bind_returned _ _ _ _ _ Hdlg).
  unfold bind at 1. unfold lift at 1. cbn [py_len].
  rewrite Htopic, (bind_returned _ _ _ _ _ Haudio).
  destruct (str_is_empty p); unfold bind at 1; unfold lift at 1;
    rewrite Hfmt; reflexivity.
Qed.

Lemma process_fails_on_unprintable_line_witness :
  exists w',
    process (sample_env (chat_answers missing_keys_answer) speech_ok ffmpeg_ok)
            climate_sources climate_context empty_world
    = (Returned
         (exception_record
            (sample_env (chat_answers missing_keys_answer) speech_ok ffmpeg_ok)
            (Exn KeyError "'text'")),
       w').
Proof.
  destruct (process_fails_on_unprintable_line
              (sample_env (chat_answers missing_keys_answer) speech_ok ffmpeg_ok)
              climate_sources climate_context empty_world
              "Climate change causes..." (PStr "Intro to Climate") empty_world
              [dialogue_line "Host" "Hello" HOST_VOICE_ID;
               PDict [("speaker", PStr "Guest")]]
              (World ∅ ∅
                 [ChatCall (dialogue_request "Climate change causes..."
                              "climate change")])
              (Exn KeyError "'text'"))
    as (w' & Hrun).
  - reflexivity.
  - vm_compute. reflexivity.
  - reflexivity.
  - reflexivity.
  - reflexivity.
  - exists w'. exact Hrun.
Defined.

(** ** The manifest and the ffmpeg call *)

(** X11. What ffmpeg is given, and what its failure leaves.  For a
    script of well-formed lines of which at least one is synthesized,
    when ffmpeg exits with an error the stage returns the empty path and
    the world shows what the call was made on: the manifest holds one
    line [file '<path>'] per synthesized segment, in script order; the
    log ends with the speech calls and then exactly one ffmpeg call,
    [ffmpeg -f concat -safe 0 -i <manifest> -c copy <output path>].
    Lines 327-331 remove nothing: a partial output that ffmpeg wrote
    before it failed is still on the output path when the stage returns
    the empty path, and when ffmpeg wrote nothing the output path is as
    it was.  Every other file outside the temporary directory is
    unchanged. *)
Theorem muxing_failure_shows_the_manifest :
  forall (E : env) (lines : list pyval) (topic : string) (w : world)
         (partial : option (list Byte.byte)),
    Forall (fun l => dialogue_line_ok l = true) lines ->
    kept_segments E (temp_dir_of E) 0 lines <> [] ->
    (forall w0, exists err,
        ffmpeg_run E (ffmpeg_cmd (manifest_path E) (output_path_of E topic)) w0
        = ProcNonZero err partial) ->
    files w !! uploads_dir E = None ->
    files w !! temp_dir_of E = None ->
    (forall d, d ∈ dirs w -> under (temp_dir_of E) d = false) ->
    exists w',
      _generate_audio E (PList lines) (PStr topic) w = (Returned "", w') /\
      files w' !! manifest_path E
        = Some (FText
                  (str_concat
                     (map (fun p => "file '" ++ p ++ "'" ++ nl)
                          (kept_segments E (temp_dir_of E) 0 lines)))) /\
      calls w' =
        (calls w ++ map speech_call_of lines
         ++ [FfmpegCall ["ffmpeg"; "-f"; "concat"; "-safe"; "0"; "-i";
                         manifest_path E; "-c"; "copy";
                         output_path_of E topic]])%list /\
      files w' !! output_path_of E topic =
        match partial with
        | Some data => Some (FBytes data)
        | None => files w !! output_path_of E topic
        end /\
      (forall p, under (temp_dir_of E) p = false ->
                 p <> output_path_of E topic ->
                 files w' !! p = files w !! p).
Proof.
  intros E lines topic w partial Hok Hsome Hmux Hup Htmp Hdirs.
  pose proof (temp_paths_free E w Hdirs) as Hfree.
  unfold _generate_audio.
  unfold bind at 1. unfold lift at 1. cbn [as_str].
  unfold bind at 1. unfold os_makedirs at 1. rewrite Hup.
  unfold bind at 1. unfold os_makedirs at 1. cbn [files dirs calls].
  fold (temp_dir_of E). rewrite Htmp.
  unfold bind at 1. unfold lift at 1. cbn [py_len].
  unfold try_except at 1. unfold bind at 1. unfold lift at 1. cbn [py_iter].
  unfold bind at 1.
  fold (output_path_of E topic). fold (manifest_path E).
  set (dirs0 := {[temp_dir_of E]} ∪ ({[uploads_dir E]} ∪ dirs w)) in *.
  destruct (synthesize_segments_exact E (temp_dir_of E) lines 0 []
              (World dirs0 (files w) (calls w)) Hok)
    as (files1 & Hrun & Hout1 & _).
  { intros j. apply Hfree. }
  rewrite Hrun. cbn [dirs files calls] in *. rewrite app_nil_l.
  rewrite (match_nonempty _ _ _ Hsome).
  set (segs := kept_segments E (temp_dir_of E) 0 lines) in *.
  unfold bind at 1. unfold write_file at 1. cbn [dirs files calls].
  destruct (decide (manifest_path E ∈ dirs0)) as [Hin | _];
    [now apply Hfree in Hin |].
  unfold try_except_class, try_except. unfold bind at 1.
  unfold run_ffmpeg at 1. unfold bind at 1. unfold log_call at 1.
  cbn [dirs files calls].
  match goal with
  | |- context [ffmpeg_run E ?cmd ?wx] => destruct (Hmux wx) as [err ->]
  end.
  cbn [exn_class exn_kind_eqb]. unfold ret.
  assert (Hman : manifest_path E <> output_path_of E topic).
  { intros Heq. pose proof (output_not_under_temp E topic) as Hu.
    rewrite <- Heq in Hu. unfold manifest_path in Hu.
    now rewrite under_path_join in Hu. }
  assert (Hkeep : forall p, under (temp_dir_of E) p = false ->
                            files1 !! p = files w !! p).
  { intros p Hu. apply Hout1. intros Hs.
    apply kept_segments_under in Hs. congruence. }
  assert (Hnm : forall p, under (temp_dir_of E) p = false ->
                          manifest_path E <> p).
  { intros p Hu <-. unfold manifest_path in Hu.
    now rewrite under_path_join in Hu. }
  eexists. split; [reflexivity |].
  destruct partial as [data |]; cbn [dirs files calls].
  - split; [rewrite lookup_insert_ne by congruence; apply lookup_insert_eq |].
    split; [now rewrite <- app_assoc |].
    split; [apply lookup_insert_eq |].
    intros p Hu Hp.
    rewrite lookup_insert_ne by congruence.
    rewrite lookup_insert_ne by now apply Hnm.
    now apply Hkeep.
  - split; [apply lookup_insert_eq |].
    split; [now rewrite <- app_assoc |].
    split.
    + rewrite lookup_insert_ne by exact Hman.
      apply Hkeep, output_not_under_temp.
    + intros p Hu Hp.
      rewrite lookup_insert_ne by now apply Hnm.
      now apply Hkeep.
Qed.

Lemma muxing_failure_shows_the_manifest_witness :
  exists w',
    _generate_audio
      (sample_env (chat_answers "not json at all") (speech_fails_at 1)
                  ffmpeg_fails_midway)
      (PList (fallback_lines "Climate change causes..." "climate change"))
      (PStr "climate change") empty_world = (Returned "", w') /\
    files w' !! (sample_temp_dir ++ "/file_list.txt")
      = Some (FText
                (manifest_text
                   (map (fun i => sample_temp_dir ++ "/" ++ segment_name i)
                        [0; 2; 3; 4; 5]))) /\
    files w' !! "/srv/uploads/podcast_climate_change_20240101_120000.mp3"
      = Some (FBytes [Byte.x49; Byte.x44]).
Proof.
  destruct (muxing_failure_shows_the_manifest
              (sample_env (chat_answers "not json at all") (speech_fails_at 1)
                          ffmpeg_fails_midway)
              (fallback_lines "Climate change causes..." "climate change")
              "climate change" empty_world (Some [Byte.x49; Byte.x44]))
    as (w' & Hrun & Hman & _ & Hout & _).
  - repeat constructor.
  - vm_compute. discriminate.
  - intros w0. eexists. reflexivity.
  - reflexivity.
  - reflexivity.
  - intros d Hd. cbn [dirs empty_world] in Hd. now apply elem_of_empty in Hd.
  - exists w'. split; [exact Hrun |]. split; [exact Hman | exact Hout].
Defined.

(** ** The order of the calls *)

Lemma synthesize_segments_calls E temp_dir lines :
  forall i acc w,
  exists speeches,
    calls (snd (synthesize_segments E temp_dir i lines acc w))
      = (calls w ++ speeches)%list /\
    forallb is_speech_call speeches = true.
Proof.
  induction lines as [| line rest IH]; intros i acc w.
  - exists []. cbn. now rewrite app_nil_r.
  - cbn [synthesize_segments].
    unfold bind at 1. unfold lift at 1.
    destruct (py_getitem line "speaker") as [speaker | e];
      [| exists []; cbn; now rewrite app_nil_r].
    unfold bind at 1. unfold lift at 1.
    destruct (py_getitem line "text") as [text | e];
      [| exists []; cbn; now rewrite app_nil_r].
    unfold bind at 1.
    assert (Htry : exists acc' w1,
      try_except
        (bind (lift (py_getitem line "voice_id"))
           (fun voice =>
              bind (lift (Returned text))
                (fun text0 =>
                   bind (lift (py_len text0))
                     (fun _ =>
                        bind (call_speech E i text0 voice "eleven_multilingual_v2")
                          (fun audio_bytes =>
                             bind (write_file (path_join temp_dir (segment_name i))
                                              (FBytes audio_bytes))
                               (fun _ =>
                                  ret (acc ++ [path_join temp_dir (segment_name i)])%list))))))
        (fun _ => ret acc) w = (Returned acc', w1) /\
      (calls w1 = calls w \/ exists ev, calls w1 = (calls w ++ [ev])%list /\
                                         is_speech_call ev = true)).
    { unfold try_except, bind, lift, call_speech, bind, log_call, lift,
        write_file, ret.
      destruct (py_getitem line "voice_id") as [voice | e1]; [| eauto].
      destruct (py_len text) as [n | e2]; [| eauto].
      destruct (elevenlabs_generate E i text voice "eleven_multilingual_v2")
        as [audio | e3]; cbn [dirs files calls].
      - destruct (decide (path_join temp_dir (segment_name i) ∈ dirs w));
          eexists _, _; (split; [reflexivity |]); right; eexists;
          split; reflexivity.
      - eexists _, _. split; [reflexivity |]. right. eexists. split; reflexivity. }
    destruct Htry as (acc' & w1 & -> & Hcalls).
    destruct (IH (S i) acc' w1) as (speeches & Hrest & Hall).
    rewrite Hrest. destruct Hcalls as [-> | (ev & -> & Hev)].
    + exists speeches. auto.
    + exists (ev :: speeches). rewrite <- app_assoc. cbn. now rewrite Hev.
Qed.

Ltac close_calls :=
  repeat split; eauto;
  try discriminate;
  try (intros ? [= <-]; discriminate);
  try (intros ? ? ?; discriminate).

Lemma remove_all_calls (paths : list string) :
  forall w, calls (snd (remove_all paths w)) = calls w.
Proof.
  induction paths as [| q paths IH]; intros w; [reflexivity |].
  cbn [remove_all]. unfold bind, os_remove.
  destruct (files w !! q); [| reflexivity]. now rewrite IH.
Qed.

Lemma generate_audio_calls E dialogue topic w :
  exists speeches tail,
    calls (snd (_generate_audio E dialogue topic w))
      = (calls w ++ speeches ++ tail)%list /\
    forallb is_speech_call speeches = true /\
    (tail = [] \/ exists cmd, tail = [FfmpegCall cmd]) /\
    (forall p, fst (_generate_audio E dialogue topic w) = Returned p ->
               str_is_empty p = false -> tail <> []).
Proof.
  remember (_generate_audio E dialogue topic w) as r eqn:Hr.
  unfold _generate_audio in Hr.
  unfold bind at 1 in Hr. unfold lift at 1 in Hr.
  destruct (as_str "replace" topic) as [t | e0].
  2: { subst r. exists [], []. cbn. rewrite app_nil_r. close_calls. }
  unfold bind at 1 in Hr. unfold os_makedirs at 1 in Hr.
  destruct (files w !! uploads_dir E).
  { subst r. exists [], []. cbn. rewrite app_nil_r. close_calls. }
  unfold bind at 1 in Hr. unfold os_makedirs at 1 in Hr.
  cbn [files dirs calls] in Hr.
  destruct (files w !! path_join (uploads_dir E) ("temp_segments_" ++ now_strftime E)).
  { subst r. exists [], []. cbn. rewrite app_nil_r. close_calls. }
  unfold bind at 1 in Hr. unfold lift at 1 in Hr.
  destruct (py_len dialogue) as [n | e1].
  2: { subst r. exists [], []. cbn. rewrite app_nil_r. close_calls. }
  unfold try_except at 1 in Hr. unfold bind at 1 in Hr. unfold lift at 1 in Hr.
  destruct (py_iter dialogue) as [lines | e2].
  2: { subst r. exists [], []. cbn. rewrite app_nil_r. close_calls. }
  unfold bind at 1 in Hr.
  match type of Hr with
  | context [synthesize_segments E ?td 0 lines [] ?w0] =>
      destruct (synthesize_segments_calls E td lines 0 [] w0)
        as (speeches & Hcalls & Hall);
      destruct (synthesize_segments E td 0 lines [] w0) as [[segs | e3] w1]
  end; cbn [snd calls] in Hcalls.
  2: { subst r. exists speeches, []. cbn [fst snd ret]. rewrite app_nil_r.
       close_calls. }
  destruct segs as [| seg segs].
  { subst r. exists speeches, []. cbn [fst snd ret]. rewrite app_nil_r.
    close_calls. }
  cbv zeta in Hr. unfold bind at 1 in Hr. unfold write_file at 1 in Hr.
  match type of Hr with
  | context [decide ?P] => destruct (decide P)
  end.
  { subst r. exists speeches, []. cbn [fst snd ret]. rewrite app_nil_r.
    close_calls. }
  cbn [dirs files calls] in Hr.
  unfold try_except_class, try_except in Hr. unfold bind at 1 in Hr.
  unfold run_ffmpeg at 1 in Hr. unfold bind at 1 in Hr.
  unfold log_call at 1 in Hr. cbn [dirs files calls] in Hr.
  match type of Hr with
  | context [ffmpeg_run E ?cmd ?wx] =>
      exists speeches, [FfmpegCall cmd];
      destruct (ffmpeg_run E cmd wx) as [data | err partial | e4]
  end.
  - unfold bind at 1 in Hr.
    match type of Hr with
    | context [remove_all ?ps ?wa] =>
        pose proof (remove_all_calls ps wa) as Hrm;
        destruct (remove_all ps wa) as [[[] | e5] w4]
    end; cbn [snd calls] in Hrm.
    + unfold bind at 1 in Hr. unfold os_remove at 1 in Hr.
      destruct (files w4 !! _).
      * unfold bind at 1 in Hr. unfold os_rmdir at 1 in Hr.
        cbn [dirs files calls] in Hr.
        repeat match type of Hr with
               | context [if ?b then _ else _] => destruct b
               end;
          subst r;
          cbn [fst snd ret calls exn_class exn_kind_eqb raise];
          rewrite Hrm, Hcalls, <- ?app_assoc; close_calls.
      * subst r. cbn [fst snd ret calls exn_class exn_kind_eqb raise].
        rewrite Hrm, Hcalls, <- ?app_assoc. close_calls.
    + destruct (exn_kind_eqb (exn_class e5) CalledProcessError);
        subst r; cbn [fst snd ret calls raise];
        rewrite Hrm, Hcalls, <- ?app_assoc; close_calls.
  - destruct partial; subst r; cbn [fst snd ret calls exn_class exn_kind_eqb];
      rewrite Hcalls, <- ?app_assoc; close_calls.
  - destruct (exn_kind_eqb (exn_class e4) CalledProcessError);
      subst r; cbn [fst snd ret calls raise];
      rewrite Hcalls, <- ?app_assoc; close_calls.
Qed.

Lemma content_and_title_calls E sources context w :
  exists chats,
    calls (snd (content_and_title E sources context w)) = (calls w ++ chats)%list /\
    forallb is_chat_call chats = true /\ List.length chats <= 1.
Proof.
  unfold content_and_title, bind, lift.
  destruct (collect_sources sources "" PNone) as [[content t0] | e]; cbn [fst snd].
  2: { exists []. rewrite app_nil_r. auto. }
  destruct (py_truthy t0); cbn [negb].
  { exists []. cbn. rewrite app_nil_r. auto. }
  rewrite extract_title_spec.
  destruct (title_from_first_lines content).
  - exists []. cbn. rewrite app_nil_r. auto.
  - eexists [_]. cbn. auto.
Qed.

Lemma generate_dialogue_calls E content topic w :
  exists chats,
    calls (snd (_generate_podcast_dialogue E content topic w))
      = (calls w ++ chats)%list /\
    forallb is_chat_call chats = true /\ List.length chats <= 1.
Proof.
  destruct topic as [| b | z | r | t | l | d];
    try solve [exists []; cbn; rewrite app_nil_r; auto].
  rewrite generate_dialogue_world. eexists [_]. cbn. auto.
Qed.

(** X12. The order of the calls of one run of [process], whatever the
    inputs and whatever the collaborators answer: at most two chat
    requests, then the speech calls, then at most one ffmpeg call, then
    at most one ffprobe call, and ffprobe is called only after the
    ffmpeg call.  No request to the chat service follows a speech call,
    and ffmpeg is never run twice. *)
Theorem process_call_order :
  forall (E : env) (sources : list pydict) (context : pydict) (w : world),
  exists (chats speeches tail : list event),
    calls (snd (process E sources context w))
      = (calls w ++ chats ++ speeches ++ tail)%list /\
    forallb is_chat_call chats = true /\
    List.length chats <= 2 /\
    forallb is_speech_call speeches = true /\
    (tail = [] \/
     (exists cmd, tail = [FfmpegCall cmd]) \/
     (exists cmd cmd', tail = [FfmpegCall cmd; FfprobeCall cmd'])).
Proof.
  intros E sources context w.
  remember (process E sources context w) as r eqn:Hr.
  unfold process, try_except, process_try in Hr.
  unfold bind at 1 in Hr.
  destruct (content_and_title_calls E sources context w) as (c1 & Hc1 & Hall1 & Hlen1).
  destruct (content_and_title E sources context w) as [[ct | e] w1];
    cbn [snd] in Hc1.
  2: { subst r. exists c1, [], []. cbn [snd ret]. rewrite !app_nil_r.
       repeat split; auto; lia. }
  unfold bind at 1 in Hr.
  destruct (generate_dialogue_calls E (fst ct) (topic_of context) w1)
    as (c2 & Hc2 & Hall2 & Hlen2).
  destruct (_generate_podcast_dialogue E (fst ct) (topic_of context) w1)
    as [[dialogue | e] w2]; cbn [snd] in Hc2.
  2: { subst r. exists (c1 ++ c2)%list, [], []. cbn [snd ret].
       rewrite Hc2, Hc1, !app_nil_r, <- app_assoc, forallb_app, length_app.
       rewrite Hall1, Hall2. repeat split; auto; lia. }
  assert (Hchats : calls w2 = (calls w ++ (c1 ++ c2))%list)
    by (now rewrite Hc2, Hc1, <- app_assoc).
  assert (Hallc : forallb is_chat_call (c1 ++ c2) = true)
    by (now rewrite forallb_app, Hall1, Hall2).
  assert (Hlenc : List.length (c1 ++ c2) <= 2) by (rewrite length_app; lia).
  unfold bind at 1 in Hr. unfold lift at 1 in Hr.
  destruct (py_len dialogue) as [n | e].
  2: { subst r. exists (c1 ++ c2)%list, [], []. cbn [snd ret].
       rewrite Hchats, !app_nil_r. repeat split; auto. }
  unfold bind at 1 in Hr.
  destruct (generate_audio_calls E dialogue (topic_of context) w2)
    as (speeches & tail & Hc3 & Hall3 & Htail & Hne).
  destruct (_generate_audio E dialogue (topic_of context) w2)
    as [[p | e] w3]; cbn [fst snd] in Hc3, Hne.
  2: { subst r. exists (c1 ++ c2)%list, speeches, tail. cbn [snd ret].
       rewrite Hc3, Hchats, <- !app_assoc. repeat split; auto.
       destruct Htail as [-> | Hff]; auto. }
  assert (Hc3' : calls w3 = (calls w ++ (c1 ++ c2) ++ speeches ++ tail)%list)
    by (now rewrite Hc3, Hchats, <- !app_assoc).
  assert (Htail' :
    tail = [] \/ (exists cmd, tail = [FfmpegCall cmd]) \/
    (exists cmd cmd', tail = [FfmpegCall cmd; FfprobeCall cmd']))
    by (destruct Htail as [-> | Hff]; auto).
  destruct (str_is_empty p) eqn:Hp.
  - unfold bind, lift, ret in Hr.
    destruct (_format_dialogue_as_text dialogue);
      subst r; exists (c1 ++ c2)%list, speeches, tail; cbn [snd];
      repeat split; auto.
  - unfold bind at 1 in Hr. unfold lift at 1 in Hr.
    destruct (_format_dialogue_as_text dialogue) as [t | e].
    2: { subst r. exists (c1 ++ c2)%list, speeches, tail. cbn [snd ret].
         repeat split; auto. }
    unfold bind at 1 in Hr. unfold lift at 1 in Hr.
    unfold bind at 1 in Hr. rewrite get_audio_duration_spec in Hr.
    unfold ret in Hr. subst r. cbn [snd calls].
    destruct Htail as [-> | [cmd ->]]; [now destruct (Hne p eq_refl Hp) |].
    exists (c1 ++ c2)%list, speeches,
           [FfmpegCall cmd; FfprobeCall (ffprobe_cmd p)].
    rewrite Hc3'. repeat split; auto.
    + now rewrite <- !app_assoc.
    + right. right. eauto.
Qed.

(** ** A topic that is not a string *)

(** X13. When the topic of the context is not a string, [process]
    resolves the title and then returns the record of its [except]
    clause for the [AttributeError] of [topic.endswith]: the dialogue
    request is never sent, no speech call is made and the file system
    is as it was. *)
Theorem process_rejects_non_string_topic :
  forall (E : env) (sources : list pydict) (context : pydict) (w : world)
         (ct : string * pyval) (w1 : world) (e : exn),
    content_and_title E sources context w = (Returned ct, w1) ->
    as_str "endswith" (topic_of context) = Raised e ->
    process E sources context w = (Returned (exception_record E e), w1) /\
    exn_class e = AttributeError /\
    dirs w1 = dirs w /\ files w1 = files w /\
    (calls w1 = calls w \/
     calls w1 = (calls w ++ [ChatCall (title_request (fst ct))])%list).
Proof.
  intros E sources context w ct w1 e Hct Htopic.
  pose proof (content_and_title_quiet E sources context w) as [[Hd Hf] _].
  rewrite Hct in Hd, Hf. cbn [snd] in Hd, Hf.
  split; [| split; [| split; [exact Hd | split; [exact Hf |]]]].
  - unfold process, try_except, process_try.
    rewrite (bind_returned _ _ _ _ _ Hct).
    unfold _generate_podcast_dialogue. unfold bind at 1. unfold bind at 1.
    unfold lift at 1. now rewrite Htopic.
  - destruct (topic_of context); try discriminate;
      cbn [as_str] in Htopic; injection Htopic as <-; reflexivity.
  - revert Hct. unfold content_and_title, bind, lift.
    destruct (collect_sources sources "" PNone) as [[content t0] | e0];
      [| discriminate].
    cbn [fst snd]. destruct (py_truthy t0); cbn [negb].
    + intros [= <- <-]. now left.
    + rewrite extract_title_spec.
      destruct (title_from_first_lines content).
      * intros [= <- <-]. now left.
      * intros [= <- <-]. now right.
Qed.

Lemma process_rejects_non_string_topic_witness :
  exists e,
    process (sample_env chat_down speech_ok ffmpeg_ok)
            climate_sources [("topic", PInt 7)] empty_world
    = (Returned (exception_record (sample_env chat_down speech_ok ffmpeg_ok) e),
       empty_world) /\
    exn_str e = "'int' object has no attribute 'endswith'".
Proof.
  eexists.
  destruct (process_rejects_non_string_topic
              (sample_env chat_down speech_ok ffmpeg_ok)
              climate_sources [("topic", PInt 7)] empty_world
              ("Climate change causes...", PStr "Intro to Climate") empty_world
              (Exn AttributeError "'int' object has no attribute 'endswith'")
              eq_refl eq_refl) as (Hrun & _).
  split; [exact Hrun | reflexivity].
Defined.

(** ** [langchain_main.py] *)

Lemma str_take_app_le (n : nat) (a b : string) :
  n <= String.length a -> str_take n (a ++ b) = str_take n a.
Proof.
  unfold str_take. revert a. induction n as [| n IH]; intros a Hn.
  - destruct a; [now destruct b | reflexivity].
  - destruct a as [| c a]; [simpl in Hn; lia |].
    rewrite str_app_cons. simpl. f_equal. apply IH. simpl in Hn. lia.
Qed.

(** X14. [summarize_topic] looks at the first 20 characters of its
    input only: two inputs give the same summary exactly when they agree
    on their first 20 characters, whatever follows the 20th character
    is ignored, and the summary is as long as the summary of the empty
    input plus at most 20 characters. *)
Theorem summarize_topic_reads_twenty_characters :
  forall (a b : string),
    (summarize_topic a = summarize_topic b <-> str_take 20 a = str_take 20 b) /\
    (20 <= String.length a -> summarize_topic (a ++ b) = summarize_topic a) /\
    String.length (summarize_topic a)
      = String.length (summarize_topic "") + Nat.min 20 (String.length a).
Proof.
  intros a b. unfold summarize_topic. split; [| split].
  - split.
    + intros H. apply String.app_inj in H. now apply str_app_inv_suffix in H.
    + now intros ->.
  - intros Hlen. now rewrite str_take_app_le.
  - rewrite !str_length_app, str_take_length. simpl. lia.
Qed.

(** ** Fences with more backticks and tags in any letter case *)

Lemma lstrip_by_repeat (p : ascii -> bool) (c : ascii) (k : nat) (s : string) :
  p c = true -> lstrip_by p (str_repeat c k ++ s) = lstrip_by p s.
Proof.
  intros Hc. induction k as [| k IH]; [reflexivity |].
  cbn [str_repeat]. rewrite str_app_cons. now rewrite lstrip_by_drop.
Qed.

Lemma rstrip_by_repeat (p : ascii -> bool) (c : ascii) (k : nat) :
  p c = true -> rstrip_by p (str_repeat c k) = "".
Proof.
  intros Hc. induction k as [| k IH]; [reflexivity |].
  cbn [str_repeat rstrip_by]. now rewrite IH, Hc.
Qed.

Lemma str_lower_app (a b : string) :
  str_lower (a ++ b) = str_lower a ++ str_lower b.
Proof.
  unfold str_lower. induction a as [| c a IH]; [reflexivity |].
  rewrite str_app_cons. cbn [str_map]. now rewrite IH, str_app_cons.
Qed.

Lemma str_lower_length (a : string) :
  String.length (str_lower a) = String.length a.
Proof.
  unfold str_lower. induction a as [| c a IH]; [reflexivity |].
  cbn [str_map String.length]. now rewrite IH.
Qed.

Lemma json_tag_first_char (c : ascii) :
  ascii_lower c = "j"%char ->
  Ascii.eqb "`" c = false /\ is_space c = false.
Proof.
  destruct c as [[] [] [] [] [] [] [] []]; vm_compute; intros H;
    (discriminate H || auto).
Qed.

(** X15. The fence is recognised by three leading backticks, but every
    leading and trailing backtick is removed, however many there are,
    and the language tag is dropped in any letter case ([JSON], [Json]):
    a trimmed body between such fence lines is recovered exactly. *)
Theorem code_fence_any_ticks_any_case :
  forall (k m : nat) (tag body : string),
    3 <= k ->
    str_lower tag = "json" ->
    trimmed body = true ->
    strip_code_fence
      (str_repeat "`" k ++ tag ++ nl ++ body ++ nl ++ str_repeat "`" m)
    = body.
Proof.
  intros k m tag body Hk Htag Hbody.
  pose proof Hbody as (cb & rb & cb' & Hb & Hcb & Hlast & Hcb')%trimmed_inv.
  assert (Hlen : String.length tag = 4)
    by (rewrite <- str_lower_length, Htag; reflexivity).
  destruct tag as [| c1 tag']; [discriminate Hlen |].
  assert (Hc1 : ascii_lower c1 = "j"%char)
    by (unfold str_lower in Htag; cbn [str_map] in Htag; congruence).
  destruct (json_tag_first_char c1 Hc1) as [Htick Hspace].
  set (tag := String c1 tag') in *.
  unfold strip_code_fence.
  assert (Hstart : str_startswith "```"
            (str_repeat "`" k ++ tag ++ nl ++ body ++ nl ++ str_repeat "`" m)
          = true).
  { destruct k as [| [| [| k]]]; try lia.
    change (str_repeat "`" (S (S (S k))) ++ tag ++ nl ++ body ++ nl
            ++ str_repeat "`" m)
      with ("```" ++ (str_repeat "`" k ++ tag ++ nl ++ body ++ nl
                      ++ str_repeat "`" m)).
    apply prefix_app_r. }
  rewrite Hstart.
  assert (Hticks : str_strip_char "`"
            (str_repeat "`" k ++ tag ++ nl ++ body ++ nl ++ str_repeat "`" m)
          = tag ++ nl ++ body ++ nl).
  { unfold str_strip_char, strip_by.
    rewrite lstrip_by_repeat by reflexivity.
    unfold tag at 1. rewrite str_app_cons, lstrip_by_keep by exact Htick.
    rewrite <- str_app_cons. fold tag.
    replace (tag ++ nl ++ body ++ nl ++ str_repeat "`" m)
      with ((tag ++ nl ++ body ++ nl) ++ str_repeat "`" m)
      by now rewrite !str_app_assoc.
    rewrite rstrip_by_app_all by (now apply rstrip_by_repeat).
    apply rstrip_by_last with "010"%char; [| reflexivity].
    rewrite <- !str_app_assoc. now apply str_last_app. }
  rewrite Hticks.
  assert (Hstrip : str_strip (tag ++ nl ++ body ++ nl) = tag ++ nl ++ body).
  { unfold str_strip, strip_by.
    unfold tag at 1. rewrite str_app_cons, lstrip_by_keep by exact Hspace.
    rewrite <- str_app_cons. fold tag.
    replace (tag ++ nl ++ body ++ nl) with ((tag ++ nl ++ body) ++ nl)
      by now rewrite !str_app_assoc.
    rewrite rstrip_by_app_all by reflexivity.
    apply rstrip_by_last with cb'; [| exact Hcb'].
    rewrite <- str_app_assoc. now apply str_last_app. }
  rewrite Hstrip, str_lower_app, Htag.
  unfold str_startswith. rewrite prefix_app_r.
  change (String.length "json") with 4. rewrite <- Hlen, str_drop_app.
  now apply str_strip_nl_before.
Qed.

Lemma code_fence_any_ticks_any_case_witness :
  strip_code_fence ("````JSON" ++ nl ++ "[1, 2]" ++ nl ++ "````") = "[1, 2]".
Proof.
  apply (code_fence_any_ticks_any_case 4 4 "JSON" "[1, 2]");
    [lia | reflexivity | reflexivity].
Defined.
